(** * Integrated hallucination detection: evaluators, loader and harness

    A shallow embedding of the Python sources

      - [src/HHEM_API.py]                          (module [HHEM])
      - [src/qwen_hallucination_evaluator.py]      (module [Qwen])
      - [src/integrated_hallucination_evaluator.py] (module [Integrated])
      - [src/ragtruth_loader.py]                   (module [Loader])
      - [examples/ragtruth_evaluation.py]          (module [Harness])
      - [examples/ragtruth_large_scale_evaluation.py] (module [LargeScale])

    Conventions of the embedding.

      - A Python [str] is the list of its Unicode code points.  Literals
        are written as UTF-8 text and decoded by [utf8].
      - A Python [float] is idealised as a rational [Q]: comparisons and
        the four operations are exact, there is no rounding, no NaN and
        no infinity.  Equality of computed scores is therefore [==].
      - A Python [int] is a [Z].
      - A decoded JSON [null] is Python's [None]: stored in an optional
        field it is the unfilled field ([py_optional]).
      - A function that can raise returns an [outcome]; [try ... except]
        is [try_except].
      - Everything outside the repository (the HTTP client, the DashScope
        SDK, [json.loads], [float(str)], the [random] module) is a
        Section variable of the module that calls it. *)

From Stdlib Require Import QArith Qabs Lqa String ZArith List.
From stdpp Require Import gmap list pretty.

(** ** Python values *)

Abbreviation str := (list N).

(** Decoding of a UTF-8 byte sequence into code points (well-formed
    input only; literals of this file). *)
Fixpoint utf8_decode (bs : list N) : str :=
  match bs with
  | [] => []
  | b :: r =>
    if (b <? 0x80)%N then b :: utf8_decode r
    else if (b <? 0xE0)%N then
      match r with
      | b1 :: r1 => ((b - 0xC0) * 64 + (b1 - 0x80))%N :: utf8_decode r1
      | _ => []
      end
    else if (b <? 0xF0)%N then
      match r with
      | b1 :: b2 :: r2 =>
        ((b - 0xE0) * 4096 + (b1 - 0x80) * 64 + (b2 - 0x80))%N :: utf8_decode r2
      | _ => []
      end
    else
      match r with
      | b1 :: b2 :: b3 :: r3 =>
        ((b - 0xF0) * 262144 + (b1 - 0x80) * 4096 + (b2 - 0x80) * 64 + (b3 - 0x80))%N
          :: utf8_decode r3
      | _ => []
      end
  end.

Definition utf8 (s : string) : str :=
  utf8_decode (map Ascii.N_of_ascii (list_ascii_of_string s)).

(** [str.isspace] on one code point: the 29 code points CPython treats
    as whitespace. *)
Definition py_isspace (c : N) : bool :=
  ((0x09 <=? c) && (c <=? 0x0D) || (0x1C <=? c) && (c <=? 0x20)
   || (c =? 0x85) || (c =? 0xA0) || (c =? 0x1680)
   || (0x2000 <=? c) && (c <=? 0x200A)
   || (c =? 0x2028) || (c =? 0x2029) || (c =? 0x202F) || (c =? 0x205F)
   || (c =? 0x3000))%N.

Fixpoint lstrip (s : str) : str :=
  match s with
  | [] => []
  | c :: r => if py_isspace c then lstrip r else s
  end.

Definition rstrip (s : str) : str := rev (lstrip (rev s)).

(** [s.strip()] *)
Definition strip (s : str) : str := rstrip (lstrip s).

(** A text made of whitespace only (the empty text included). *)
Definition whitespace_only (s : str) : bool := forallb py_isspace s.

(** Truth value of a sequence: non-empty. *)
Definition truthy {A} (l : list A) : bool :=
  match l with [] => false | _ :: _ => true end.

(** [s.lower()].  Only the ASCII letters are folded here; CPython also
    folds the cased letters outside ASCII, which are never CJK
    ideographs. *)
Definition lower_char (c : N) : N :=
  if ((0x41 <=? c) && (c <=? 0x5A))%N then (c + 32)%N else c.

Definition lower (s : str) : str := map lower_char s.

Fixpoint startswith (s p : str) : bool :=
  match p, s with
  | [], _ => true
  | _ :: _, [] => false
  | a :: p', b :: s' => (a =? b)%N && startswith s' p'
  end.

(** [p in s] for strings. *)
Fixpoint contains (s p : str) : bool :=
  startswith s p || match s with [] => false | _ :: r => contains r p end.

(** [str(n)] for an integer. *)
Definition str_of_Z (n : Z) : str := utf8 (pretty n).

(** [d.get(key, default)] on a dictionary given as its items, the last
    binding of a key winning. *)
Definition dict_get {V} (d : list (str * V)) (key : str) (default : V) : V :=
  fold_left (fun acc kv => if decide (kv.1 = key) then kv.2 else acc) d default.

(** ** Exceptions *)

Inductive exn :=
| Timeout (msg : str)
| RequestException (msg : str)
| JSONDecodeError (msg : str)
| ValueError (msg : str)
| TypeError (msg : str)
| AttributeError (msg : str)
| IndexError (msg : str)
| OtherException (msg : str).

(** [str(e)] *)
Definition exn_msg (e : exn) : str :=
  match e with
  | Timeout m | RequestException m | JSONDecodeError m | ValueError m
  | TypeError m | AttributeError m | IndexError m | OtherException m => m
  end.

Inductive outcome (A : Type) :=
| Returned (a : A)
| Raised (e : exn).
Arguments Returned {A} a.
Arguments Raised {A} e.

#[global] Instance outcome_ret : MRet outcome := @Returned.
#[global] Instance outcome_bind : MBind outcome := fun A B f m =>
  match m with
  | Returned a => f a
  | Raised e => Raised e
  end.

(** [try: body  except Exception as e: handler e] *)
Definition try_except {A} (body : outcome A) (handler : exn -> outcome A) : outcome A :=
  match body with
  | Returned a => Returned a
  | Raised e => handler e
  end.

(** ** Batches *)

(** One task of a batch: the dictionary [eval_data], of which only the
    keys [generated_text] and [source_texts] are read; each is present
    or not. *)
Record eval_data := {
  eval_generated_text : option str;
  eval_source_texts : option (list str)
}.

(** [for i, x in enumerate(l): results.append(body(i, x))], counting
    from [i]. *)
Fixpoint for_each {A B} (body : nat → A → outcome B) (i : nat) (l : list A)
    : outcome (list B) :=
  match l with
  | [] => Returned []
  | x :: r =>
    y ← body i x;
    ys ← for_each body (S i) r;
    Returned (y :: ys)
  end.

(** Truth value of an optional string: [None] and the empty string are
    falsy. *)
Definition truthy_opt (o : option str) : bool :=
  match o with
  | Some s => truthy s
  | None => false
  end.

(** [a or b] on optional strings. *)
Definition or_else (a b : option str) : option str :=
  if truthy_opt a then a else b.

(** ** [src/HHEM_API.py] *)

Module HHEM.

Record HHEMResponse := {
  score : Q;
  success : bool;
  error_message : option str
}.

(** The request body built by [evaluate_consistency]. *)
Record payload := {
  model_name : str;
  generated_text : str;
  source_texts : list str
}.

(** What [requests.post] hands back: the status, the body text and the
    result of [response.json()], a JSON object whose fields are numbers
    (the service answers [{"score": ...}]), or the error it raises. *)
Record http_response := {
  status_code : Z;
  text : str;
  json : outcome (list (str * Q))
}.

Definition failure (msg : str) : HHEMResponse :=
  {| score := 0.0%Q; success := false; error_message := Some msg |}.

Section API.

Variable requests_post : payload -> outcome http_response.

Definition evaluate_consistency
    (generated_text : str) (source_texts : list str) (model_name : str)
    : outcome HHEMResponse :=
  if negb (truthy (strip generated_text)) then
    Returned (failure (utf8 "生成文本不能为空"))
  else if negb (truthy source_texts)
          || negb (existsb (fun text => truthy (strip text)) source_texts) then
    Returned (failure (utf8 "源文本不能为空"))
  else
    let payload :=
      {| model_name := model_name;
         generated_text := strip generated_text;
         source_texts :=
           map strip (filter (fun text => truthy (strip text) = true) source_texts) |} in
    try_except
      (response ← requests_post payload;
       if (status_code response =? 200)%Z then
         result ← json response;
         Returned {| score := dict_get result (utf8 "score") 0.0%Q;
                     success := true;
                     error_message := None |}
       else
         Returned (failure (utf8 "HTTP " ++ str_of_Z (status_code response)
                              ++ utf8 ": " ++ text response)))
      (fun e =>
         match e with
         | Timeout _ => Returned (failure (utf8 "请求超时"))
         | RequestException m => Returned (failure (utf8 "请求异常: " ++ m))
         | JSONDecodeError m => Returned (failure (utf8 "响应JSON解析错误: " ++ m))
         | _ => Returned (failure (utf8 "未知错误: " ++ exn_msg e))
         end).

(** [batch_evaluate]: a missing key reads as the empty text or the empty
    list. *)
Definition batch_evaluate (evaluations : list eval_data) (model_name : str)
    : outcome (list HHEMResponse) :=
  for_each
    (fun i eval_data =>
       try_except
         (let generated_text := default [] (eval_generated_text eval_data) in
          let source_texts := default [] (eval_source_texts eval_data) in
          evaluate_consistency generated_text source_texts model_name)
         (fun e =>
            Returned (failure (utf8 "批量评估第" ++ str_of_Z (Z.of_nat i + 1)
                                 ++ utf8 "项错误: " ++ exn_msg e))))
    0%nat evaluations.

End API.

Definition interpret_score (score : Q) : str :=
  if Qle_bool 0.8%Q score then
    utf8 "高度一致 - 生成文本与源文本在事实上高度符合"
  else if Qle_bool 0.6%Q score then
    utf8 "较为一致 - 生成文本与源文本基本符合，存在轻微差异"
  else if Qle_bool 0.4%Q score then
    utf8 "部分一致 - 生成文本与源文本存在明显差异"
  else if Qle_bool 0.2%Q score then
    utf8 "不太一致 - 生成文本与源文本存在严重差异"
  else
    utf8 "严重不一致 - 生成文本与源文本在事实上严重冲突".


(** [__init__]: the key is the argument or, failing that, the variable
    [VECTARA_API_KEY] of the environment, here [getenv]; the object
    built is identified by its key. *)
Definition init (getenv : option str) (api_key : option str) : outcome str :=
  match or_else api_key getenv with
  | Some key =>
    if truthy key then Returned key
    else Raised (ValueError (utf8 "API密钥未提供！请通过参数或环境变量VECTARA_API_KEY提供"))
  | None => Raised (ValueError (utf8 "API密钥未提供！请通过参数或环境变量VECTARA_API_KEY提供"))
  end.

(** A text as [strip] leaves it: not empty, without whitespace at either
    end. *)
Definition stripped (s : str) : Prop := s ≠ [] ∧ strip s = s.

(** A request body for the model [model] whose texts are all
    [stripped] and which names at least one source text. *)
Definition clean_payload (model : str) (p : payload) : Prop :=
  model_name p = model
  ∧ stripped (generated_text p)
  ∧ source_texts p ≠ []
  ∧ Forall stripped (source_texts p).

End HHEM.

(** ** [src/qwen_hallucination_evaluator.py] *)

(** A decoded JSON document, as [json.loads] builds it. *)
#[local] Unset Elimination Schemes.
Inductive json_value :=
| JNull
| JBool (b : bool)
| JNum (q : Q)
| JStr (s : str)
| JArr (l : list json_value)
| JObj (items : list (str * json_value)).
#[local] Set Elimination Schemes.

Module Qwen.

Inductive QwenModel := QWEN_TURBO | QWEN_PLUS | QWEN_MAX | QWEN_MAX_LONGCONTEXT.

Record QwenHallucinationResponse := {
  hallucination_score : Q;
  confidence : Q;
  explanation : json_value;
  success : bool;
  error_message : option str
}.

(** The arguments of [Generation.call].  The prompt is
    [_build_prompt(generated_text, source_texts)], a fixed template
    around its two arguments, which stand for it here. *)
Record request := {
  model : QwenModel;
  generated_text : str;
  source_texts : list str;
  temperature : Q;
  max_tokens : Z
}.

(** The answer of [Generation.call]: [message] is the attribute read by
    [getattr(response, 'message', ...)], [choices] is present when the
    response has [output.choices] and lists the message content of each
    choice. *)
Record generation_response := {
  status_code : Z;
  message : option str;
  choices : option (list str)
}.

(** [any(keyword in text for keyword in keywords)] *)
Definition any_keyword (text : str) (keywords : list string) : bool :=
  existsb (fun keyword => contains text (utf8 keyword)) keywords.

Definition _parse_text_response (text_response : str) : QwenHallucinationResponse :=
  let text_lower := lower text_response in
  let score :=
    if any_keyword text_lower ["严重幻觉"; "完全错误"; "严重不符"]%string then 0.9%Q
    else if any_keyword text_lower ["存在幻觉"; "部分错误"; "不准确"]%string then 0.6%Q
    else if any_keyword text_lower ["轻微问题"; "基本准确"]%string then 0.3%Q
    else if any_keyword text_lower ["无幻觉"; "完全准确"; "符合事实"]%string then 0.1%Q
    else 0.5%Q in
  {| hallucination_score := score;
     confidence := 0.7%Q;
     explanation :=
       JStr (utf8 "基于文本分析的评估: " ++ take 200 text_response ++ utf8 "...");
     success := true;
     error_message := None |}.

(** The eleven keywords of the four bands of [_parse_text_response]. *)
Definition band_keywords : list string :=
  ["严重幻觉"; "完全错误"; "严重不符"]%string
  ++ ["存在幻觉"; "部分错误"; "不准确"]%string
  ++ ["轻微问题"; "基本准确"]%string
  ++ ["无幻觉"; "完全准确"; "符合事实"]%string.

(** The least magnitude that no double holds: [2^1024 - 2^970], half a
    unit in the last place above the largest double. *)
Definition float_overflow : Q := inject_Z (2 ^ 1024 - 2 ^ 970).

(** [eval_result.get(key, default)]: only a dictionary has [get]. *)
Definition json_get (v : json_value) (key : string) (default : json_value)
    : outcome json_value :=
  match v with
  | JObj items => Returned (dict_get items (utf8 key) default)
  | _ => Raised (AttributeError (utf8 "object has no attribute 'get'"))
  end.

Section API.

Variable generation_call : request -> outcome generation_response.
Variable json_loads : str -> outcome json_value.
Variable float_of_str : str -> outcome Q.

(** [float(v)].  A number that [json.loads] built is a float, which
    [float] hands back, or an integer of any size; an integer that rounds
    beyond the largest double, that is one of magnitude at least
    [float_overflow], makes [float] raise [OverflowError] (an
    [OtherException] here). *)
Definition py_float (v : json_value) : outcome Q :=
  match v with
  | JNum q =>
    if Qle_bool float_overflow (Qabs q) then
      Raised (OtherException (utf8 "int too large to convert to float"))
    else Returned q
  | JBool b => Returned (if b then 1.0%Q else 0.0%Q)
  | JStr s => float_of_str s
  | _ => Raised (TypeError (utf8 "float() argument must be a string or a real number"))
  end.

Definition evaluate_hallucination
    (generated_text : str) (source_texts : list str)
    (model : QwenModel) (temperature : Q) (max_tokens : Z)
    : outcome QwenHallucinationResponse :=
  if negb (truthy (strip generated_text)) then
    Returned {| hallucination_score := 1.0%Q;
                confidence := 1.0%Q;
                explanation := JStr (utf8 "生成文本为空，视为完全幻觉");
                success := false;
                error_message := Some (utf8 "生成文本不能为空") |}
  else if negb (truthy source_texts)
          || negb (existsb (fun text => truthy (strip text)) source_texts) then
    Returned {| hallucination_score := 1.0%Q;
                confidence := 0.0%Q;
                explanation := JStr (utf8 "缺少参考文档，无法进行准确评估");
                success := false;
                error_message := Some (utf8 "参考文档不能为空") |}
  else
    try_except
      (response ← generation_call
                    {| model := model;
                       generated_text := generated_text;
                       source_texts := source_texts;
                       temperature := temperature;
                       max_tokens := max_tokens |};
       if (status_code response =? 200)%Z then
         match choices response with
         | Some cs =>
           content ← match cs with
                     | c :: _ => Returned c
                     | [] => Raised (IndexError (utf8 "list index out of range"))
                     end;
           let generated_response := strip content in
           match
             (eval_result ← json_loads generated_response;
              hs ← json_get eval_result "hallucination_score" (JNum 0.5%Q) ≫= py_float;
              cf ← json_get eval_result "confidence" (JNum 0.5%Q) ≫= py_float;
              ex ← json_get eval_result "explanation" (JStr (utf8 "评估完成"));
              Returned {| hallucination_score := hs;
                          confidence := cf;
                          explanation := ex;
                          success := true;
                          error_message := None |})
           with
           | Raised (JSONDecodeError _) => Returned (_parse_text_response generated_response)
           | r => r
           end
         | None =>
           Returned {| hallucination_score := 0.5%Q;
                       confidence := 0.0%Q;
                       explanation := JStr (utf8 "API响应格式异常");
                       success := false;
                       error_message := Some (utf8 "响应中缺少choices字段") |}
         end
       else
         Returned {| hallucination_score := 0.5%Q;
                     confidence := 0.0%Q;
                     explanation := JStr (utf8 "API调用失败");
                     success := false;
                     error_message :=
                       Some (utf8 "状态码 " ++ str_of_Z (status_code response) ++ utf8 ": "
                               ++ default (utf8 "Unknown error") (message response)) |})
      (fun e =>
         Returned {| hallucination_score := 0.5%Q;
                     confidence := 0.0%Q;
                     explanation := JStr (utf8 "调用异常");
                     success := false;
                     error_message := Some (utf8 "调用异常: " ++ exn_msg e) |}).

(** [batch_evaluate] *)
Definition batch_evaluate (evaluations : list eval_data)
    (model : QwenModel) (temperature : Q)
    : outcome (list QwenHallucinationResponse) :=
  for_each
    (fun i eval_data =>
       try_except
         (let generated_text := default [] (eval_generated_text eval_data) in
          let source_texts := default [] (eval_source_texts eval_data) in
          evaluate_hallucination generated_text source_texts model temperature 2000)
         (fun e =>
            Returned
              {| hallucination_score := 0.5%Q;
                 confidence := 0.0%Q;
                 explanation :=
                   JStr (utf8 "批量评估第" ++ str_of_Z (Z.of_nat i + 1) ++ utf8 "项错误");
                 success := false;
                 error_message :=
                   Some (utf8 "批量评估第" ++ str_of_Z (Z.of_nat i + 1)
                           ++ utf8 "项错误: " ++ exn_msg e) |}))
    0%nat evaluations.

End API.

Definition interpret_score (score : Q) : str :=
  if Qle_bool 0.8%Q score then
    utf8 "严重幻觉 - 生成文本包含大量虚假或不准确信息"
  else if Qle_bool 0.6%Q score then
    utf8 "明显幻觉 - 生成文本存在明显的事实错误"
  else if Qle_bool 0.4%Q score then
    utf8 "轻微幻觉 - 生成文本存在一些不准确之处"
  else if Qle_bool 0.2%Q score then
    utf8 "基本准确 - 生成文本大部分准确，存在轻微问题"
  else
    utf8 "高度准确 - 生成文本与参考文档高度一致".


(** [__init__]: fails when the [dashscope] module could not be imported
    ([ImportError], an [OtherException] here), else as for the other
    backend with the variable [DASHSCOPE_API_KEY]. *)
Definition init (dashscope_available : bool) (getenv : option str)
    (api_key : option str) : outcome str :=
  if negb dashscope_available then
    Raised (OtherException (utf8 "dashscope模块未安装，请运行: pip install dashscope"))
  else
    match or_else api_key getenv with
    | Some key =>
      if truthy key then Returned key
      else Raised (ValueError (utf8 "API密钥未提供！请通过参数或环境变量DASHSCOPE_API_KEY提供"))
    | None => Raised (ValueError (utf8 "API密钥未提供！请通过参数或环境变量DASHSCOPE_API_KEY提供"))
    end.

End Qwen.

(** ** [src/integrated_hallucination_evaluator.py] *)

Definition Qlt_bool (x y : Q) : bool := negb (Qle_bool y x).

(** [sum(l)] and [statistics.mean(l)] *)
Definition Qsum (l : list Q) : Q := fold_left Qplus l 0%Q.
Definition mean (l : list Q) : Q := (Qsum l / inject_Z (Z.of_nat (length l)))%Q.

(** [str(x)] of an optional string: [None] prints as its name. *)
Definition str_of_option (o : option str) : str := default (utf8 "None") o.

Module Integrated.

Inductive EvaluationMethod := HHEM_ONLY | QWEN_ONLY | BOTH | ENSEMBLE.

#[global] Instance EvaluationMethod_eq_dec : EqDecision EvaluationMethod.
Proof. solve_decision. Defined.

Record IntegratedEvaluationResult := {
  method_used : EvaluationMethod;
  success : bool;
  hhem_score : option Q;
  hhem_success : bool;
  hhem_interpretation : option str;
  qwen_hallucination_score : option Q;
  qwen_confidence : option Q;
  qwen_success : bool;
  qwen_explanation : option json_value;
  qwen_interpretation : option str;
  ensemble_score : option Q;
  ensemble_confidence : option Q;
  ensemble_interpretation : option str;
  error_messages : list str
}.

(** [IntegratedEvaluationResult(method_used=method)] *)
Definition new_result (method : EvaluationMethod) : IntegratedEvaluationResult :=
  {| method_used := method; success := false;
     hhem_score := None; hhem_success := false; hhem_interpretation := None;
     qwen_hallucination_score := None; qwen_confidence := None;
     qwen_success := false; qwen_explanation := None; qwen_interpretation := None;
     ensemble_score := None; ensemble_confidence := None;
     ensemble_interpretation := None;
     error_messages := [] |}.

(** Field assignments on a result. *)
Definition set_hhem (r : IntegratedEvaluationResult)
    (score : option Q) (ok : bool) (interpretation : option str) :=
  {| method_used := method_used r; success := success r;
     hhem_score := score; hhem_success := ok; hhem_interpretation := interpretation;
     qwen_hallucination_score := qwen_hallucination_score r;
     qwen_confidence := qwen_confidence r;
     qwen_success := qwen_success r; qwen_explanation := qwen_explanation r;
     qwen_interpretation := qwen_interpretation r;
     ensemble_score := ensemble_score r; ensemble_confidence := ensemble_confidence r;
     ensemble_interpretation := ensemble_interpretation r;
     error_messages := error_messages r |}.

Definition set_qwen (r : IntegratedEvaluationResult)
    (score conf : option Q) (ok : bool)
    (expl : option json_value) (interpretation : option str) :=
  {| method_used := method_used r; success := success r;
     hhem_score := hhem_score r; hhem_success := hhem_success r;
     hhem_interpretation := hhem_interpretation r;
     qwen_hallucination_score := score; qwen_confidence := conf;
     qwen_success := ok; qwen_explanation := expl;
     qwen_interpretation := interpretation;
     ensemble_score := ensemble_score r; ensemble_confidence := ensemble_confidence r;
     ensemble_interpretation := ensemble_interpretation r;
     error_messages := error_messages r |}.

Definition set_ensemble (r : IntegratedEvaluationResult)
    (score conf : Q) (interpretation : str) :=
  {| method_used := method_used r; success := success r;
     hhem_score := hhem_score r; hhem_success := hhem_success r;
     hhem_interpretation := hhem_interpretation r;
     qwen_hallucination_score := qwen_hallucination_score r;
     qwen_confidence := qwen_confidence r;
     qwen_success := qwen_success r; qwen_explanation := qwen_explanation r;
     qwen_interpretation := qwen_interpretation r;
     ensemble_score := Some score; ensemble_confidence := Some conf;
     ensemble_interpretation := Some interpretation;
     error_messages := error_messages r |}.

Definition set_success (r : IntegratedEvaluationResult) (ok : bool) :=
  {| method_used := method_used r; success := ok;
     hhem_score := hhem_score r; hhem_success := hhem_success r;
     hhem_interpretation := hhem_interpretation r;
     qwen_hallucination_score := qwen_hallucination_score r;
     qwen_confidence := qwen_confidence r;
     qwen_success := qwen_success r; qwen_explanation := qwen_explanation r;
     qwen_interpretation := qwen_interpretation r;
     ensemble_score := ensemble_score r; ensemble_confidence := ensemble_confidence r;
     ensemble_interpretation := ensemble_interpretation r;
     error_messages := error_messages r |}.

(** [result.error_messages.append(msg)] *)
Definition append_error (r : IntegratedEvaluationResult) (msg : str) :=
  {| method_used := method_used r; success := success r;
     hhem_score := hhem_score r; hhem_success := hhem_success r;
     hhem_interpretation := hhem_interpretation r;
     qwen_hallucination_score := qwen_hallucination_score r;
     qwen_confidence := qwen_confidence r;
     qwen_success := qwen_success r; qwen_explanation := qwen_explanation r;
     qwen_interpretation := qwen_interpretation r;
     ensemble_score := ensemble_score r; ensemble_confidence := ensemble_confidence r;
     ensemble_interpretation := ensemble_interpretation r;
     error_messages := error_messages r ++ [msg] |}.

Definition _interpret_ensemble_score (score : Q) (num_evaluators : nat) : str :=
  let base_interpretation :=
    if Qle_bool 0.8%Q score then
      utf8 "严重幻觉风险 - 生成文本存在明显的事实错误或虚假信息"
    else if Qle_bool 0.6%Q score then
      utf8 "中等幻觉风险 - 生成文本存在一些不准确或可疑的内容"
    else if Qle_bool 0.4%Q score then
      utf8 "轻微幻觉风险 - 生成文本大部分准确，但存在细节问题"
    else if Qle_bool 0.2%Q score then
      utf8 "低幻觉风险 - 生成文本与参考文档基本一致"
    else
      utf8 "极低幻觉风险 - 生成文本高度准确和可信" in
  let evaluator_info :=
    utf8 "(基于" ++ str_of_Z (Z.of_nat num_evaluators) ++ utf8 "个评估器的集成结果)" in
  base_interpretation ++ utf8 " " ++ evaluator_info.

(** A JSON value held in an [Optional] field: [null] is [None], the
    value of an unfilled field. *)
Definition py_optional (v : json_value) : option json_value :=
  match v with
  | JNull => None
  | _ => Some v
  end.

(** [c or 0.7] on an optional float: [None] and zero are falsy. *)
Definition confidence_or (c : option Q) (d : Q) : Q :=
  match c with
  | Some c => if Qeq_bool c 0 then d else c
  | None => d
  end.

(** The first half of [_compute_ensemble_result]: the three parallel
    lists [scores], [confidences], [interpretations]. *)
Definition collect_scores (result : IntegratedEvaluationResult)
    : list Q * list Q * list str :=
  let '(scores, confidences, interpretations) := ([], [], []) in
  let '(scores, confidences, interpretations) :=
    match hhem_success result, hhem_score result with
    | true, Some hhem =>
      let hallucination_score := (1.0 - hhem)%Q in
      (scores ++ [hallucination_score],
       confidences ++ [0.9%Q],
       interpretations ++ [utf8 "HHEM: " ++ str_of_option (hhem_interpretation result)])
    | _, _ => (scores, confidences, interpretations)
    end in
  match qwen_success result, qwen_hallucination_score result with
  | true, Some qwen =>
    (scores ++ [qwen],
     confidences ++ [confidence_or (qwen_confidence result) 0.7%Q],
     interpretations ++ [utf8 "Qwen: " ++ str_of_option (qwen_interpretation result)])
  | _, _ => (scores, confidences, interpretations)
  end.

(** The second half: the ensemble score and confidence of non-empty
    lists. *)
Definition ensemble_of (scores confidences : list Q) : Q * Q :=
  if (1 <? length scores)%nat then
    let weights := confidences in
    let weighted_sum := Qsum (zip_with Qmult scores weights) in
    let weight_sum := Qsum weights in
    (if Qlt_bool 0 weight_sum then (weighted_sum / weight_sum)%Q else mean scores,
     mean confidences)
  else
    (hd 0%Q scores, hd 0%Q confidences).

Definition _compute_ensemble_result (result : IntegratedEvaluationResult)
    : IntegratedEvaluationResult :=
  let '(scores, confidences, interpretations) := collect_scores result in
  if truthy scores then
    let '(score, conf) := ensemble_of scores confidences in
    set_ensemble result score conf (_interpret_ensemble_score score (length scores))
  else result.

(** The evaluator object: each backend is present or not, and a present
    backend is its client. *)
Record IntegratedHallucinationEvaluator := {
  hhem_evaluator : option (HHEM.payload -> outcome HHEM.http_response);
  qwen_evaluator : option (Qwen.request -> outcome Qwen.generation_response)
}.

Section Evaluate.

Variable json_loads : str -> outcome json_value.
Variable float_of_str : str -> outcome Q.

Definition _evaluate_hhem (hhem : HHEM.payload -> outcome HHEM.http_response)
    (generated_text : str) (source_texts : list str) (model : str) :=
  HHEM.evaluate_consistency hhem generated_text source_texts model.

Definition _evaluate_qwen (qwen : Qwen.request -> outcome Qwen.generation_response)
    (generated_text : str) (source_texts : list str) (model : Qwen.QwenModel) :=
  Qwen.evaluate_hallucination qwen json_loads float_of_str
    generated_text source_texts model 0.1%Q 2000.

Definition evaluate (self : IntegratedHallucinationEvaluator)
    (generated_text : str) (source_texts : list str)
    (method : EvaluationMethod) (qwen_model : Qwen.QwenModel) (hhem_model : str)
    : outcome IntegratedEvaluationResult :=
  let result := new_result method in
  result ←
    (if bool_decide (method ∈ [HHEM_ONLY; BOTH; ENSEMBLE]) then
       match hhem_evaluator self with
       | Some hhem =>
         hhem_result ← _evaluate_hhem hhem generated_text source_texts hhem_model;
         let ok := HHEM.success hhem_result in
         let result :=
           set_hhem result
             (if ok then Some (HHEM.score hhem_result) else None)
             ok
             (if ok then Some (HHEM.interpret_score (HHEM.score hhem_result)) else None) in
         Returned
           (if negb ok then
              append_error result
                (utf8 "HHEM评估失败: " ++ str_of_option (HHEM.error_message hhem_result))
            else result)
       | None => Returned (append_error result (utf8 "HHEM评估器未初始化"))
       end
     else Returned result);
  result ←
    (if bool_decide (method ∈ [QWEN_ONLY; BOTH; ENSEMBLE]) then
       match qwen_evaluator self with
       | Some qwen =>
         qwen_result ← _evaluate_qwen qwen generated_text source_texts qwen_model;
         let ok := Qwen.success qwen_result in
         let result :=
           set_qwen result
             (if ok then Some (Qwen.hallucination_score qwen_result) else None)
             (if ok then Some (Qwen.confidence qwen_result) else None)
             ok
             (if ok then py_optional (Qwen.explanation qwen_result) else None)
             (if ok then Some (Qwen.interpret_score (Qwen.hallucination_score qwen_result))
              else None) in
         Returned
           (if negb ok then
              append_error result
                (utf8 "Qwen评估失败: " ++ str_of_option (Qwen.error_message qwen_result))
            else result)
       | None => Returned (append_error result (utf8 "Qwen评估器未初始化"))
       end
     else Returned result);
  let result :=
    if bool_decide (method = ENSEMBLE) then _compute_ensemble_result result
    else result in
  Returned
    (set_success result
       (hhem_success result && bool_decide (method ∈ [HHEM_ONLY])
        || qwen_success result && bool_decide (method ∈ [QWEN_ONLY])
        || bool_decide (method ∈ [BOTH; ENSEMBLE])
           && (hhem_success result || qwen_success result))).

(** Whether a backend succeeded on a call: it is present and the
    response it returned has [success]. *)
Definition hhem_succeeded (self : IntegratedHallucinationEvaluator)
    (generated_text : str) (source_texts : list str) (hhem_model : str) : bool :=
  match hhem_evaluator self with
  | Some hhem =>
    match _evaluate_hhem hhem generated_text source_texts hhem_model with
    | Returned r => HHEM.success r
    | Raised _ => false
    end
  | None => false
  end.

Definition qwen_succeeded (self : IntegratedHallucinationEvaluator)
    (generated_text : str) (source_texts : list str) (qwen_model : Qwen.QwenModel) : bool :=
  match qwen_evaluator self with
  | Some qwen =>
    match _evaluate_qwen qwen generated_text source_texts qwen_model with
    | Returned r => Qwen.success r
    | Raised _ => false
    end
  | None => false
  end.

(** [method.value] *)
Definition method_value (method : EvaluationMethod) : str :=
  match method with
  | HHEM_ONLY => utf8 "hhem_only"
  | QWEN_ONLY => utf8 "qwen_only"
  | BOTH => utf8 "both"
  | ENSEMBLE => utf8 "ensemble"
  end.

(** [batch_evaluate] *)
Definition batch_evaluate (self : IntegratedHallucinationEvaluator)
    (evaluations : list eval_data) (method : EvaluationMethod)
    (qwen_model : Qwen.QwenModel) (hhem_model : str)
    : outcome (list IntegratedEvaluationResult) :=
  for_each
    (fun i eval_data =>
       try_except
         (let generated_text := default [] (eval_generated_text eval_data) in
          let source_texts := default [] (eval_source_texts eval_data) in
          evaluate self generated_text source_texts method qwen_model hhem_model)
         (fun e =>
            Returned
              (append_error (new_result method)
                 (utf8 "批量评估第" ++ str_of_Z (Z.of_nat i + 1)
                    ++ utf8 "项错误: " ++ exn_msg e))))
    0%nat evaluations.

(** [compare_methods]: the dictionary of the three results, keyed by the
    value of the method. *)
Definition compare_methods (self : IntegratedHallucinationEvaluator)
    (generated_text : str) (source_texts : list str)
    (qwen_model : Qwen.QwenModel) (hhem_model : str)
    : outcome (gmap str IntegratedEvaluationResult) :=
  let methods := [HHEM_ONLY; QWEN_ONLY; ENSEMBLE] in
  Returned
    (fold_left
       (fun results method =>
          let result :=
            match evaluate self generated_text source_texts method qwen_model hhem_model with
            | Returned result => result
            | Raised e =>
              append_error (new_result method)
                (utf8 "方法" ++ method_value method ++ utf8 "评估失败: " ++ exn_msg e)
            end in
          <[method_value method := result]> results)
       methods ∅).

End Evaluate.


Section Init.

(** The surroundings of [__init__]: whether [dashscope] could be
    imported, the two variables of the environment, and the service
    reached with a given key. *)
Variable dashscope_available : bool.
Variable vectara_env dashscope_env : option str.
Variable hhem_service : str → HHEM.payload → outcome HHEM.http_response.
Variable qwen_service : str → Qwen.request → outcome Qwen.generation_response.

(** [__init__]: a backend whose construction raises is left out with a
    warning. *)
Definition init (vectara_api_key dashscope_api_key : option str)
    : outcome IntegratedHallucinationEvaluator :=
  let hhem_evaluator :=
    if truthy_opt vectara_api_key then
      match HHEM.init vectara_env vectara_api_key with
      | Returned key => Some (hhem_service key)
      | Raised _ => None
      end
    else None in
  let qwen_evaluator :=
    if truthy_opt dashscope_api_key then
      match Qwen.init dashscope_available dashscope_env dashscope_api_key with
      | Returned key => Some (qwen_service key)
      | Raised _ => None
      end
    else None in
  if negb (bool_decide (is_Some hhem_evaluator))
     && negb (bool_decide (is_Some qwen_evaluator)) then
    Raised (ValueError (utf8 "至少需要提供一个有效的API密钥来初始化评估器"))
  else
    Returned {| hhem_evaluator := hhem_evaluator; qwen_evaluator := qwen_evaluator |}.

End Init.

End Integrated.

(** ** [src/ragtruth_loader.py] *)

Module TaskType.
Inductive t := SUMMARY | QA | ALL.
#[global] Instance eq_dec : EqDecision t.
Proof. solve_decision. Defined.
Definition value (x : t) : str :=
  match x with
  | SUMMARY => utf8 "Summary"
  | QA => utf8 "QA"
  | ALL => utf8 "ALL"
  end.
End TaskType.

Module SplitType.
Inductive t := TRAIN | TEST | ALL.
#[global] Instance eq_dec : EqDecision t.
Proof. solve_decision. Defined.
Definition value (x : t) : str :=
  match x with
  | TRAIN => utf8 "train"
  | TEST => utf8 "test"
  | ALL => utf8 "all"
  end.
End SplitType.

Record HallucinationLabel := {
  start : Z;
  end_ : Z;
  text : str;
  label_type : str;
  meta : str;
  due_to_null : option bool;
  implicit_true : option bool
}.

Module RAGtruthResponse.
Record t := {
  id : str;
  source_id : str;
  model : str;
  temperature : Q;
  labels : list HallucinationLabel;
  split : str;
  quality : str;
  response : str
}.
Definition has_hallucination (self : t) : bool := (0 <? length (labels self))%nat.
Definition hallucination_count (self : t) : nat := length (labels self).
End RAGtruthResponse.

Module RAGtruthSource.
Record t := {
  source_id : str;
  task_type : str;
  source : str;
  source_info : json_value;
  prompt : str
}.
End RAGtruthSource.

Module RAGtruthSample.
Record t := {
  source : RAGtruthSource.t;
  response : RAGtruthResponse.t
}.
Definition generated_text (self : t) : str := RAGtruthResponse.response (response self).
Definition has_hallucination (self : t) : bool :=
  RAGtruthResponse.has_hallucination (response self).

Section SourceTexts.

(** [str(x)] for a decoded JSON value. *)
Variable py_str : json_value → str.

(** [f"{v}"]: a string is printed as it is. *)
Definition format_value (v : json_value) : str :=
  match v with
  | JStr s => s
  | _ => py_str v
  end.

(** [source_texts].  The value under [passages] is appended as it is,
    so the list holds JSON values, strings being [JStr]. *)
Definition source_texts (self : t) : list json_value :=
  let source_info := RAGtruthSource.source_info (source self) in
  match source_info with
  | JStr _ => [source_info]
  | JObj items =>
    let texts := [] in
    let texts :=
      if bool_decide (utf8 "passages" ∈ items.*1) then
        texts ++ [dict_get items (utf8 "passages") JNull]
      else texts in
    let texts :=
      if bool_decide (utf8 "question" ∈ items.*1) then
        texts ++ [JStr (utf8 "Question: "
                          ++ format_value (dict_get items (utf8 "question") JNull))]
      else texts in
    if negb (truthy texts) then texts ++ [JStr (py_str source_info)] else texts
  | _ => [JStr (py_str source_info)]
  end.

End SourceTexts.

End RAGtruthSample.

Module Loader.

(** The loader after [load_responses] and [load_sources]: the two
    record streams it caches. *)
Record RAGtruthLoader := {
  responses : list RAGtruthResponse.t;
  sources : list RAGtruthSource.t
}.

(** [{source.source_id: source for source in sources}] *)
Definition source_map_of (sources : list RAGtruthSource.t) : gmap str RAGtruthSource.t :=
  fold_left (fun m source => <[RAGtruthSource.source_id source := source]> m) sources ∅.

(** One turn of the filtering loop: [true] when the response reaches
    [filtered_responses.append]. *)
Definition passes_filters (source_map : gmap str RAGtruthSource.t)
    (task_type : TaskType.t) (split : SplitType.t) (has_hallucination : option bool)
    (response : RAGtruthResponse.t) : bool :=
  (if bool_decide (task_type ≠ TaskType.ALL) then
     match source_map !! RAGtruthResponse.source_id response with
     | None => false
     | Some source =>
       negb (bool_decide (RAGtruthSource.task_type source ≠ TaskType.value task_type))
     end
   else true)
  && negb (bool_decide (split ≠ SplitType.ALL)
           && bool_decide (RAGtruthResponse.split response ≠ SplitType.value split))
  && match has_hallucination with
     | Some wanted =>
       negb (bool_decide (RAGtruthResponse.has_hallucination response ≠ wanted))
     | None => true
     end.

(** The join loop: a response without a source record is skipped. *)
Definition make_samples (source_map : gmap str RAGtruthSource.t)
    (filtered_responses : list RAGtruthResponse.t) : list RAGtruthSample.t :=
  omap (fun response =>
          match source_map !! RAGtruthResponse.source_id response with
          | Some source =>
            Some {| RAGtruthSample.source := source; RAGtruthSample.response := response |}
          | None => None
          end)
       filtered_responses.

(** The samples before the sampling step. *)
Definition joined_samples (self : RAGtruthLoader)
    (task_type : TaskType.t) (split : SplitType.t) (has_hallucination : option bool)
    : list RAGtruthSample.t :=
  let source_map := source_map_of (sources self) in
  let filtered_responses :=
    filter (fun response =>
              passes_filters source_map task_type split has_hallucination response = true)
           (responses self) in
  make_samples source_map filtered_responses.

Section Sampling.

(** The module-level generator of [random]: its state, the state
    [random.seed(n)] installs, and [random.sample(population, k)] for
    [0 <= k <= len(population)], which reads and advances the state. *)
Variable rng : Type.
Variable seed : Z -> rng.
Variable sample : rng -> list RAGtruthSample.t -> nat -> list RAGtruthSample.t * rng.

(** The sampling step of [get_samples]. *)
Definition random_sampling (samples : list RAGtruthSample.t)
    (max_samples random_seed : option Z) (g : rng)
    : outcome (list RAGtruthSample.t) * rng :=
  match max_samples with
  | Some k =>
    if negb (k =? 0)%Z && (k <? Z.of_nat (length samples))%Z then
      let g := match random_seed with Some n => seed n | None => g end in
      if (k <? 0)%Z then
        (Raised (ValueError (utf8 "Sample larger than population or is negative")), g)
      else
        let '(chosen, g) := sample g samples (Z.to_nat k) in
        (Returned chosen, g)
    else (Returned samples, g)
  | None => (Returned samples, g)
  end.

Definition get_samples (self : RAGtruthLoader)
    (task_type : TaskType.t) (split : SplitType.t) (has_hallucination : option bool)
    (max_samples random_seed : option Z) (g : rng)
    : outcome (list RAGtruthSample.t) * rng :=
  let samples := joined_samples self task_type split has_hallucination in
  random_sampling samples max_samples random_seed g.

End Sampling.


(** The dictionary [get_statistics] returns.  [list(set(...))] has no
    fixed order and is kept as the set. *)
Record statistics := {
  total_responses : Z;
  total_sources : Z;
  responses_with_hallucination : Z;
  responses_without_hallucination : Z;
  train_samples : Z;
  test_samples : Z;
  models : gset str;
  task_types : gset str;
  quality_distribution : gmap str Z;
  hallucination_types : gmap str Z
}.

(** [sum(1 for x in l if P(x))] *)
Definition count_if {A} (P : A → bool) (l : list A) : Z :=
  Z.of_nat (length (filter (fun x => P x = true) l)).

(** [counts[key] = counts.get(key, 0) + 1] *)
Definition count_up (counts : gmap str Z) (key : str) : gmap str Z :=
  <[key := (default 0 (counts !! key) + 1)%Z]> counts.

Definition get_statistics (self : RAGtruthLoader) : statistics :=
  let responses := responses self in
  let sources := sources self in
  {| total_responses := Z.of_nat (length responses);
     total_sources := Z.of_nat (length sources);
     responses_with_hallucination :=
       count_if RAGtruthResponse.has_hallucination responses;
     responses_without_hallucination :=
       count_if (fun r => negb (RAGtruthResponse.has_hallucination r)) responses;
     train_samples :=
       count_if (fun r => bool_decide (RAGtruthResponse.split r = utf8 "train")) responses;
     test_samples :=
       count_if (fun r => bool_decide (RAGtruthResponse.split r = utf8 "test")) responses;
     models := list_to_set (map RAGtruthResponse.model responses);
     task_types := list_to_set (map RAGtruthSource.task_type sources);
     quality_distribution :=
       fold_left (fun quality_counts response =>
                    count_up quality_counts (RAGtruthResponse.quality response))
                 responses ∅;
     hallucination_types :=
       fold_left (fun hallucination_type_counts response =>
                    fold_left (fun counts label => count_up counts (label_type label))
                              (RAGtruthResponse.labels response)
                              hallucination_type_counts)
                 responses ∅ |}.

End Loader.

(** ** [examples/ragtruth_evaluation.py] *)

Module Harness.

Import Integrated.

Record EvaluationMetrics := {
  total_samples : Z;
  successful_evaluations : Z;
  true_positives : Z;
  false_positives : Z;
  true_negatives : Z;
  false_negatives : Z;
  hhem_success_rate : Q;
  qwen_success_rate : Q;
  ensemble_success_rate : Q;
  hallucination_scores : list Q;
  non_hallucination_scores : list Q
}.

(** [EvaluationMetrics()] *)
Definition new_metrics : EvaluationMetrics :=
  {| total_samples := 0; successful_evaluations := 0;
     true_positives := 0; false_positives := 0;
     true_negatives := 0; false_negatives := 0;
     hhem_success_rate := 0.0%Q; qwen_success_rate := 0.0%Q;
     ensemble_success_rate := 0.0%Q;
     hallucination_scores := []; non_hallucination_scores := [] |}.

(** [a / b] on two integers. *)
Definition true_div (a b : Z) : Q := (inject_Z a / inject_Z b)%Q.

Definition accuracy (self : EvaluationMetrics) : Q :=
  let total := (true_positives self + false_positives self
                + true_negatives self + false_negatives self)%Z in
  if (total =? 0)%Z then 0.0%Q
  else true_div (true_positives self + true_negatives self) total.

Definition precision (self : EvaluationMetrics) : Q :=
  if (true_positives self + false_positives self =? 0)%Z then 0.0%Q
  else true_div (true_positives self) (true_positives self + false_positives self).

Definition recall (self : EvaluationMetrics) : Q :=
  if (true_positives self + false_negatives self =? 0)%Z then 0.0%Q
  else true_div (true_positives self) (true_positives self + false_negatives self).

Definition f1_score (self : EvaluationMetrics) : Q :=
  if Qeq_bool (precision self + recall self) 0 then 0.0%Q
  else (2 * (precision self * recall self) / (precision self + recall self))%Q.

Record RAGtruthEvaluator := {
  hallucination_threshold : Q
}.

(** The threshold [__init__] installs. *)
Definition default_evaluator : RAGtruthEvaluator :=
  {| hallucination_threshold := 0.5%Q |}.

(** The prediction block of [evaluate_on_dataset]: the pair
    [(predicted_hallucination, score_to_use)] after the [if]/[elif]
    chain, which starts from [(False, None)]. *)
Definition predict (self : RAGtruthEvaluator) (evaluation_method : EvaluationMethod)
    (result : IntegratedEvaluationResult) : bool * option Q :=
  let hhem :=
    if bool_decide (evaluation_method = HHEM_ONLY) then hhem_score result else None in
  let qwen :=
    if bool_decide (evaluation_method = QWEN_ONLY) then qwen_hallucination_score result
    else None in
  let ensemble :=
    if bool_decide (evaluation_method ∈ [BOTH; ENSEMBLE]) then ensemble_score result
    else None in
  match hhem, qwen, ensemble with
  | Some s, _, _ => (Qlt_bool (hallucination_threshold self) s, Some s)
  | None, Some s, _ => (Qlt_bool (hallucination_threshold self) s, Some s)
  | None, None, Some s => (Qlt_bool (hallucination_threshold self) s, Some s)
  | None, None, None => (false, None)
  end.

(** The confusion-matrix update and the score collection. *)
Definition tally (metrics : EvaluationMetrics)
    (predicted_hallucination actual_hallucination : bool) (score_to_use : option Q)
    : EvaluationMetrics :=
  {| total_samples := total_samples metrics;
     successful_evaluations := successful_evaluations metrics;
     true_positives :=
       true_positives metrics + Z.b2z (predicted_hallucination && actual_hallucination);
     false_positives :=
       false_positives metrics + Z.b2z (predicted_hallucination && negb actual_hallucination);
     true_negatives :=
       true_negatives metrics
       + Z.b2z (negb predicted_hallucination && negb actual_hallucination);
     false_negatives :=
       false_negatives metrics + Z.b2z (negb predicted_hallucination && actual_hallucination);
     hhem_success_rate := hhem_success_rate metrics;
     qwen_success_rate := qwen_success_rate metrics;
     ensemble_success_rate := ensemble_success_rate metrics;
     hallucination_scores :=
       match score_to_use with
       | Some s => if actual_hallucination then hallucination_scores metrics ++ [s]
                   else hallucination_scores metrics
       | None => hallucination_scores metrics
       end;
     non_hallucination_scores :=
       match score_to_use with
       | Some s => if actual_hallucination then non_hallucination_scores metrics
                   else non_hallucination_scores metrics ++ [s]
       | None => non_hallucination_scores metrics
       end |}%Z.

Definition count_success (metrics : EvaluationMetrics) : EvaluationMetrics :=
  {| total_samples := total_samples metrics;
     successful_evaluations := successful_evaluations metrics + 1;
     true_positives := true_positives metrics;
     false_positives := false_positives metrics;
     true_negatives := true_negatives metrics;
     false_negatives := false_negatives metrics;
     hhem_success_rate := hhem_success_rate metrics;
     qwen_success_rate := qwen_success_rate metrics;
     ensemble_success_rate := ensemble_success_rate metrics;
     hallucination_scores := hallucination_scores metrics;
     non_hallucination_scores := non_hallucination_scores metrics |}%Z.

(** One turn of the loop of [evaluate_on_dataset], from the result of
    [self.evaluator.evaluate] on the sample and the sample's label.  The
    three per-backend success counters of the loop are left out. *)
Definition evaluate_one (self : RAGtruthEvaluator) (evaluation_method : EvaluationMethod)
    (metrics : EvaluationMetrics) (actual_hallucination : bool)
    (result : IntegratedEvaluationResult) : EvaluationMetrics :=
  if success result then
    let metrics := count_success metrics in
    let '(predicted_hallucination, score_to_use) := predict self evaluation_method result in
    tally metrics predicted_hallucination actual_hallucination score_to_use
  else metrics.


(** The loop of [evaluate_on_dataset] over the samples drawn, given for
    each its label and the outcome of [self.evaluator.evaluate] on it; a
    sample on which the call raises is skipped. *)
Definition run (self : RAGtruthEvaluator) (evaluation_method : EvaluationMethod)
    (outcomes : list (bool * outcome IntegratedEvaluationResult))
    (metrics : EvaluationMetrics) : EvaluationMetrics :=
  fold_left
    (fun metrics sample =>
       match sample.2 with
       | Returned result => evaluate_one self evaluation_method metrics sample.1 result
       | Raised _ => metrics
       end)
    outcomes metrics.

End Harness.

(** ** [examples/ragtruth_large_scale_evaluation.py] *)

Module LargeScale.

Import Integrated.

Record EvaluationResults := {
  total_samples : Z;
  successful_evaluations : Z;
  true_positives : Z;
  false_positives : Z;
  true_negatives : Z;
  false_negatives : Z;
  hallucination_scores : list Q;
  non_hallucination_scores : list Q
}.

Record LargeScaleEvaluator := {
  hallucination_threshold : Q;
  qwen_threshold : Q
}.

(** The thresholds [__init__] installs. *)
Definition default_evaluator : LargeScaleEvaluator :=
  {| hallucination_threshold := 0.5%Q; qwen_threshold := 0.2%Q |}.

(** The score selection of [evaluate_samples]: the pair
    [(score, predicted_hallucination)], or [None] where the loop
    [continue]s. *)
Definition predict (self : LargeScaleEvaluator) (method : EvaluationMethod)
    (result : IntegratedEvaluationResult) : option (Q * bool) :=
  let hhem := if bool_decide (method = HHEM_ONLY) then hhem_score result else None in
  let qwen :=
    if bool_decide (method = QWEN_ONLY) then qwen_hallucination_score result else None in
  let ensemble :=
    if bool_decide (method ∈ [BOTH; ENSEMBLE]) then ensemble_score result else None in
  match hhem, qwen, ensemble with
  | Some score, _, _ => Some (score, Qlt_bool score (hallucination_threshold self))
  | None, Some score, _ => Some (score, Qlt_bool (qwen_threshold self) score)
  | None, None, Some score => Some (score, Qlt_bool (hallucination_threshold self) score)
  | None, None, None => None
  end.

Definition tally (results : EvaluationResults)
    (predicted_hallucination actual_hallucination : bool) (score : Q)
    : EvaluationResults :=
  {| total_samples := total_samples results;
     successful_evaluations := successful_evaluations results;
     true_positives :=
       true_positives results + Z.b2z (predicted_hallucination && actual_hallucination);
     false_positives :=
       false_positives results + Z.b2z (predicted_hallucination && negb actual_hallucination);
     true_negatives :=
       true_negatives results
       + Z.b2z (negb predicted_hallucination && negb actual_hallucination);
     false_negatives :=
       false_negatives results + Z.b2z (negb predicted_hallucination && actual_hallucination);
     hallucination_scores :=
       if actual_hallucination then hallucination_scores results ++ [score]
       else hallucination_scores results;
     non_hallucination_scores :=
       if actual_hallucination then non_hallucination_scores results
       else non_hallucination_scores results ++ [score] |}%Z.

Definition count_success (results : EvaluationResults) : EvaluationResults :=
  {| total_samples := total_samples results;
     successful_evaluations := successful_evaluations results + 1;
     true_positives := true_positives results;
     false_positives := false_positives results;
     true_negatives := true_negatives results;
     false_negatives := false_negatives results;
     hallucination_scores := hallucination_scores results;
     non_hallucination_scores := non_hallucination_scores results |}%Z.

(** One turn of the loop of [evaluate_samples] for a sample that passed
    the length check, from the result of [self.evaluator.evaluate]. *)
Definition evaluate_one (self : LargeScaleEvaluator) (method : EvaluationMethod)
    (results : EvaluationResults) (actual_hallucination : bool)
    (result : IntegratedEvaluationResult) : EvaluationResults :=
  if success result then
    let results := count_success results in
    match predict self method result with
    | Some (score, predicted_hallucination) =>
      tally results predicted_hallucination actual_hallucination score
    | None => results
    end
  else results.

(** [EvaluationResults()] with [total_samples] set to [len(samples)], as
    [evaluate_samples] starts. *)
Definition new_results (total : Z) : EvaluationResults :=
  {| total_samples := total; successful_evaluations := 0;
     true_positives := 0; false_positives := 0;
     true_negatives := 0; false_negatives := 0;
     hallucination_scores := []; non_hallucination_scores := [] |}.


(** The loop of [evaluate_samples] over the samples that passed the
    length check, given for each its label and the outcome of
    [self.evaluator.evaluate] on it. *)
Definition run (self : LargeScaleEvaluator) (method : EvaluationMethod)
    (outcomes : list (bool * outcome IntegratedEvaluationResult))
    (results : EvaluationResults) : EvaluationResults :=
  fold_left
    (fun results sample =>
       match sample.2 with
       | Returned result => evaluate_one self method results sample.1 result
       | Raised _ => results
       end)
    outcomes results.

(** The four metric fields of [EvaluationResults], which start at 0.0. *)
Record scores := {
  accuracy : Q;
  precision : Q;
  recall : Q;
  f1_score : Q
}.

(** The metrics computed at the end of [evaluate_samples]. *)
Definition final_metrics (results : EvaluationResults) : scores :=
  if (0 <? successful_evaluations results)%Z then
    let total_predictions :=
      (true_positives results + false_positives results
       + true_negatives results + false_negatives results)%Z in
    let accuracy :=
      if (0 <? total_predictions)%Z then
        (inject_Z (true_positives results + true_negatives results)
         / inject_Z total_predictions)%Q
      else 0.0%Q in
    let precision :=
      if (0 <? true_positives results + false_positives results)%Z then
        (inject_Z (true_positives results)
         / inject_Z (true_positives results + false_positives results))%Q
      else 0.0%Q in
    let recall :=
      if (0 <? true_positives results + false_negatives results)%Z then
        (inject_Z (true_positives results)
         / inject_Z (true_positives results + false_negatives results))%Q
      else 0.0%Q in
    let f1_score :=
      if Qlt_bool 0 (precision + recall) then
        (2 * (precision * recall) / (precision + recall))%Q
      else 0.0%Q in
    {| accuracy := accuracy; precision := precision; recall := recall;
       f1_score := f1_score |}
  else
    {| accuracy := 0.0%Q; precision := 0.0%Q; recall := 0.0%Q; f1_score := 0.0%Q |}.

End LargeScale.


(** ** Loop turns

    A loop turn of a harness is the label of a sample and the outcome of
    [evaluate] on it.  The turn [succeeded] when [evaluate] returned a
    result whose [success] is true. *)
Definition succeeded (turn : bool * outcome Integrated.IntegratedEvaluationResult) : bool :=
  match turn.2 with
  | Returned result => Integrated.success result
  | Raised _ => false
  end.

(** The turn succeeded and [evaluate_samples] finds a score for the
    method in its result. *)
Definition scored (self : LargeScale.LargeScaleEvaluator)
    (method : Integrated.EvaluationMethod)
    (turn : bool * outcome Integrated.IntegratedEvaluationResult) : bool :=
  match turn.2 with
  | Returned result =>
    Integrated.success result
    && bool_decide (is_Some (LargeScale.predict self method result))
  | Raised _ => false
  end.

(** ** Scenarios

    Concrete collaborators and inputs on which the properties below are
    exercised. *)

Module Scenario.

Definition candidate : str := utf8 "Paris is in England".
Definition references : list str := [utf8 "The Eiffel Tower is in Paris, France"].

(** A consistency service answering [{"score": score}] with status 200. *)
Definition hhem_answering (score : Q) : HHEM.payload → outcome HHEM.http_response :=
  fun _ =>
    Returned {| HHEM.status_code := 200; HHEM.text := [];
                HHEM.json := Returned [(utf8 "score", score)] |}.

(** A consistency service that times out. *)
Definition hhem_timing_out : HHEM.payload → outcome HHEM.http_response :=
  fun _ => Raised (Timeout (utf8 "timed out")).

(** A judgment service answering one choice with the given text. *)
Definition qwen_answering (content : str)
    : Qwen.request → outcome Qwen.generation_response :=
  fun _ =>
    Returned {| Qwen.status_code := 200; Qwen.message := None;
                Qwen.choices := Some [content] |}.

(** A judgment service answering with status 500. *)
Definition qwen_unavailable : Qwen.request → outcome Qwen.generation_response :=
  fun _ =>
    Returned {| Qwen.status_code := 500; Qwen.message := None; Qwen.choices := None |}.

(** [json.loads] on texts that are not JSON, such as [hello]. *)
Definition loads_not_json : str → outcome json_value :=
  fun _ => Raised (JSONDecodeError (utf8 "Expecting value")).

(** [json.loads] on a text that is the JSON array [[1]]. *)
Definition loads_array : str → outcome json_value :=
  fun _ => Returned (JArr [JNum 1]).

(** [json.loads] on an object with the two numeric fields. *)
Definition loads_verdict (score conf : Q) : str → outcome json_value :=
  fun _ =>
    Returned (JObj [(utf8 "hallucination_score", JNum score);
                    (utf8 "confidence", JNum conf)]).

Definition float_of_str : str → outcome Q :=
  fun _ => Raised (ValueError (utf8 "could not convert string to float")).

(** A small dataset: two responses to the source [s1], with and without
    a hallucination label, and one response whose source [s2] is not in
    the source stream. *)
Definition label : HallucinationLabel :=
  {| start := 9; end_ := 19; text := utf8 "in England";
     label_type := utf8 "Evident Conflict"; meta := []; due_to_null := None;
     implicit_true := None |}.

Definition response_of (id source_id : string) (labels : list HallucinationLabel)
    : RAGtruthResponse.t :=
  {| RAGtruthResponse.id := utf8 id; RAGtruthResponse.source_id := utf8 source_id;
     RAGtruthResponse.model := utf8 "gpt-4"; RAGtruthResponse.temperature := 0.7%Q;
     RAGtruthResponse.labels := labels; RAGtruthResponse.split := utf8 "test";
     RAGtruthResponse.quality := utf8 "good"; RAGtruthResponse.response := candidate |}.

Definition source_s1 : RAGtruthSource.t :=
  {| RAGtruthSource.source_id := utf8 "s1"; RAGtruthSource.task_type := utf8 "QA";
     RAGtruthSource.source := utf8 "MARCO";
     RAGtruthSource.source_info := JStr (utf8 "The Eiffel Tower is in Paris, France");
     RAGtruthSource.prompt := utf8 "Where is Paris?" |}.

Definition loader : Loader.RAGtruthLoader :=
  {| Loader.responses :=
       [response_of "r1" "s1" [label]; response_of "r2" "s2" []; response_of "r3" "s1" []];
     Loader.sources := [source_s1] |}.

(** A generator whose state is a counter and whose [sample] takes the
    first [k] items after rotating the population by the counter. *)
Definition toy_seed (n : Z) : nat := Z.to_nat n.
Definition toy_sample (g : nat) (population : list RAGtruthSample.t) (k : nat)
    : list RAGtruthSample.t * nat :=
  (take k (rotate g population), S g).

(** A confusion tally with the given four counters. *)
Definition tally_of (tp fp tn fn : Z) : Harness.EvaluationMetrics :=
  {| Harness.total_samples := tp + fp + tn + fn;
     Harness.successful_evaluations := tp + fp + tn + fn;
     Harness.true_positives := tp; Harness.false_positives := fp;
     Harness.true_negatives := tn; Harness.false_negatives := fn;
     Harness.hhem_success_rate := 0.0%Q; Harness.qwen_success_rate := 0.0%Q;
     Harness.ensemble_success_rate := 0.0%Q;
     Harness.hallucination_scores := []; Harness.non_hallucination_scores := [] |}%Z.

(** An evaluator with the consistency backend only, which scores the
    candidate 0.1 (low consistency). *)
Definition hhem_only_evaluator : Integrated.IntegratedHallucinationEvaluator :=
  {| Integrated.hhem_evaluator := Some (hhem_answering 0.1);
     Integrated.qwen_evaluator := None |}.


(** A consistency service that refuses a request without source
    texts and otherwise answers the score 0.1. *)
Definition hhem_refusing_empty : HHEM.payload → outcome HHEM.http_response :=
  fun p =>
    if bool_decide (HHEM.source_texts p = []) then Raised (Timeout (utf8 "timed out"))
    else hhem_answering 0.1 p.

(** [str(x)] on decoded JSON, for the scenarios: only its being a
    function matters. *)
Definition py_str (v : json_value) : str :=
  match v with
  | JStr s => s
  | JNull => utf8 "None"
  | _ => utf8 "{...}"
  end.

(** A sample whose source information is a mapping with a question and
    no passages. *)
Definition question_sample : RAGtruthSample.t :=
  {| RAGtruthSample.source :=
       {| RAGtruthSource.source_id := utf8 "s3"; RAGtruthSource.task_type := utf8 "QA";
          RAGtruthSource.source := utf8 "MARCO";
          RAGtruthSource.source_info := JObj [(utf8 "question", JStr (utf8 "Where?"))];
          RAGtruthSource.prompt := [] |};
     RAGtruthSample.response := response_of "r4" "s3" [] |}.

(** Three loop turns: a successful result on a hallucinated sample, a
    raised exception, an unsuccessful result. *)
Definition outcomes : list (bool * outcome Integrated.IntegratedEvaluationResult) :=
  [ (true,
     Returned
       (Integrated.set_success
          (Integrated.set_hhem (Integrated.new_result Integrated.HHEM_ONLY)
             (Some 0.1%Q) true None) true));
    (false, Raised (TypeError (utf8 "unsupported operand")));
    (false, Returned (Integrated.new_result Integrated.HHEM_ONLY)) ].
End Scenario.

(** * Properties *)

#[local] Opaque utf8 str_of_Z.

(** ** Texts *)

Example strip_unicode_whitespace : strip (utf8 " 　Paris is in England　 ") = Scenario.candidate.
Proof. vm_compute. reflexivity. Qed.

Example contains_keyword : contains (utf8 "回答基本准确。") (utf8 "基本准确") = true.
Proof. vm_compute. reflexivity. Qed.

Example parse_text_response_first_band_wins :
  Qwen.hallucination_score
    (Qwen._parse_text_response (utf8 "存在幻觉，甚至完全错误 (SEVERE)")) = 0.9%Q.
Proof. vm_compute. reflexivity. Qed.

Lemma lstrip_nil (s : str) : lstrip s = [] ↔ whitespace_only s = true.
Proof.
  induction s as [|c r IH]; simpl; [done|].
  destruct (py_isspace c); simpl; [exact IH|].
  split; discriminate.
Qed.

Lemma lstrip_head (s r : str) (c : N) : lstrip s = c :: r → py_isspace c = false.
Proof.
  induction s as [|a s IH]; simpl; [discriminate|].
  destruct (py_isspace a) eqn:Ha; [exact IH|].
  intros [= <- _]. exact Ha.
Qed.

Lemma whitespace_only_rev (s : str) : whitespace_only (rev s) = whitespace_only s.
Proof.
  unfold whitespace_only. induction s as [|c r IH]; simpl; [done|].
  rewrite forallb_app, IH. simpl. rewrite andb_true_r. apply andb_comm.
Qed.

Lemma strip_nil (s : str) : strip s = [] ↔ whitespace_only s = true.
Proof.
  unfold strip, rstrip. split.
  - intros H. apply (f_equal (@rev N)) in H. rewrite rev_involutive in H. simpl in H.
    apply lstrip_nil in H. rewrite whitespace_only_rev in H.
    destruct (lstrip s) as [|c r] eqn:E; [by apply lstrip_nil|].
    apply lstrip_head in E. simpl in H. by rewrite E in H.
  - intros H. apply lstrip_nil in H. by rewrite H.
Qed.

Lemma truthy_strip (s : str) : truthy (strip s) = negb (whitespace_only s).
Proof.
  destruct (whitespace_only s) eqn:E.
  - apply strip_nil in E. by rewrite E.
  - destruct (strip s) eqn:E'; [|done].
    apply strip_nil in E'. congruence.
Qed.

(** The reference-text test of both backends fires exactly on a list
    whose members are all blank. *)
Lemma no_reference_text (source_texts : list str) :
  negb (truthy source_texts)
  || negb (existsb (fun text => truthy (strip text)) source_texts) = true
  ↔ Forall (fun text => whitespace_only text = true) source_texts.
Proof.
  induction source_texts as [|t l IH]; simpl; [by split|].
  rewrite truthy_strip. split.
  - intros H. destruct (whitespace_only t) eqn:E; simpl in H; [|discriminate].
    constructor; [done|]. apply IH. destruct l; [done|]. simpl. exact H.
  - intros H. inversion H as [|? ? Ht Hl]; subst. rewrite Ht. simpl.
    apply IH in Hl. destruct l; [done|]. exact Hl.
Qed.

(** ** Input validation of the two backends *)

(** C4. Either backend, called with a candidate text that is empty or
    whitespace only, or with a list of reference texts that is empty or
    holds only such texts, returns (it does not raise) a response whose
    [success] is false and whose error message is a non-empty text. *)
Theorem C4_blank_input_is_a_failed_response
    (requests_post : HHEM.payload → outcome HHEM.http_response)
    (generation_call : Qwen.request → outcome Qwen.generation_response)
    (json_loads : str → outcome json_value) (float_of_str : str → outcome Q)
    (generated_text : str) (source_texts : list str)
    (model_name : str) (model : Qwen.QwenModel) (temperature : Q) (max_tokens : Z) :
  whitespace_only generated_text = true
  ∨ source_texts = []
  ∨ Forall (fun text => whitespace_only text = true) source_texts →
  (∃ r, HHEM.evaluate_consistency requests_post generated_text source_texts model_name
        = Returned r
        ∧ HHEM.success r = false
        ∧ ∃ msg, HHEM.error_message r = Some msg ∧ msg ≠ [])
  ∧ (∃ r, Qwen.evaluate_hallucination generation_call json_loads float_of_str
            generated_text source_texts model temperature max_tokens
          = Returned r
          ∧ Qwen.success r = false
          ∧ ∃ msg, Qwen.error_message r = Some msg ∧ msg ≠ []).
Proof.
  intros H.
  assert (Hcases : whitespace_only generated_text = true
                   ∨ (whitespace_only generated_text = false
                      ∧ Forall (fun text => whitespace_only text = true) source_texts)).
  { destruct (whitespace_only generated_text); [by left|right].
    split; [done|]. destruct H as [H|[->|H]]; [done|constructor|done]. }
  unfold HHEM.evaluate_consistency, Qwen.evaluate_hallucination.
  rewrite truthy_strip.
  destruct Hcases as [->|[-> Hs]]; simpl.
  - split; eexists; (split; [reflexivity|split; [reflexivity|]]);
      eexists; (split; [reflexivity|by vm_compute]).
  - apply no_reference_text in Hs. rewrite Hs.
    split; eexists; (split; [reflexivity|split; [reflexivity|]]);
      eexists; (split; [reflexivity|by vm_compute]).
Qed.

Lemma C4_blank_input_witness :
  (∃ r, HHEM.evaluate_consistency Scenario.hhem_timing_out (utf8 "  ")
          Scenario.references (utf8 "hhem_v2.3") = Returned r
        ∧ HHEM.success r = false
        ∧ ∃ msg, HHEM.error_message r = Some msg ∧ msg ≠ [])
  ∧ (∃ r, Qwen.evaluate_hallucination Scenario.qwen_unavailable
            Scenario.loads_not_json Scenario.float_of_str
            (utf8 "  ") Scenario.references Qwen.QWEN_TURBO 0.1%Q 2000 = Returned r
          ∧ Qwen.success r = false
          ∧ ∃ msg, Qwen.error_message r = Some msg ∧ msg ≠ []).
Proof.
  apply C4_blank_input_is_a_failed_response.
  left. vm_compute. reflexivity.
Defined.

(** ** The backends always answer *)

Lemma evaluate_consistency_returns
    (requests_post : HHEM.payload → outcome HHEM.http_response)
    (generated_text : str) (source_texts : list str) (model_name : str) :
  ∃ r, HHEM.evaluate_consistency requests_post generated_text source_texts model_name
       = Returned r.
Proof.
  unfold HHEM.evaluate_consistency.
  repeat case_match; try (eexists; reflexivity).
  match goal with |- context [requests_post ?p] => destruct (requests_post p) as [resp|e] end;
    simpl; [|destruct e; eexists; reflexivity].
  destruct (HHEM.status_code resp =? 200)%Z; simpl; [|eexists; reflexivity].
  destruct (HHEM.json resp) as [d|e]; simpl; [|destruct e]; eexists; reflexivity.
Qed.

Lemma evaluate_hallucination_returns
    (generation_call : Qwen.request → outcome Qwen.generation_response)
    (json_loads : str → outcome json_value) (float_of_str : str → outcome Q)
    (generated_text : str) (source_texts : list str)
    (model : Qwen.QwenModel) (temperature : Q) (max_tokens : Z) :
  ∃ r, Qwen.evaluate_hallucination generation_call json_loads float_of_str
         generated_text source_texts model temperature max_tokens = Returned r.
Proof.
  unfold Qwen.evaluate_hallucination, try_except.
  repeat case_match; eexists; reflexivity.
Qed.

(** ** The integrated evaluator *)

Import Integrated.

Lemma compute_ensemble_keeps_flags (r : IntegratedEvaluationResult) :
  hhem_success (_compute_ensemble_result r) = hhem_success r
  ∧ qwen_success (_compute_ensemble_result r) = qwen_success r.
Proof.
  unfold _compute_ensemble_result.
  destruct (collect_scores r) as [[scores confidences] interpretations].
  destruct (truthy scores); [|done].
  by destruct (ensemble_of scores confidences).
Qed.

Lemma compute_ensemble_no_success (r : IntegratedEvaluationResult) :
  hhem_success r = false → qwen_success r = false →
  _compute_ensemble_result r = r.
Proof.
  intros Hh Hq. unfold _compute_ensemble_result, collect_scores.
  by rewrite Hh, Hq.
Qed.

(** C5. An [evaluate] call with method [BOTH] or [ENSEMBLE] returns a
    result whose [success] is true exactly when at least one of the two
    backends succeeded, hence false exactly when both failed (an absent
    backend has not succeeded); and when neither succeeded the result
    carries no ensemble score. *)
Theorem C5_ensemble_success_flag
    (json_loads : str → outcome json_value) (float_of_str : str → outcome Q)
    (self : IntegratedHallucinationEvaluator)
    (generated_text : str) (source_texts : list str)
    (method : EvaluationMethod) (qwen_model : Qwen.QwenModel) (hhem_model : str) :
  method = BOTH ∨ method = ENSEMBLE →
  let h := hhem_succeeded self generated_text source_texts hhem_model in
  let q := qwen_succeeded json_loads float_of_str self generated_text source_texts
             qwen_model in
  ∃ r, evaluate json_loads float_of_str self generated_text source_texts
         method qwen_model hhem_model = Returned r
       ∧ hhem_success r = h
       ∧ qwen_success r = q
       ∧ (success r = true ↔ h = true ∨ q = true)
       ∧ (success r = false ↔ h = false ∧ q = false)
       ∧ (h = false → q = false → ensemble_score r = None).
Proof.
  intros Hm h q. subst h q.
  unfold evaluate, hhem_succeeded, qwen_succeeded, _evaluate_hhem, _evaluate_qwen.
  destruct self as [hh qq]; simpl.
  assert (Hin1 : bool_decide (method ∈ [HHEM_ONLY; BOTH; ENSEMBLE]) = true)
    by (destruct Hm as [->| ->]; reflexivity).
  assert (Hin2 : bool_decide (method ∈ [QWEN_ONLY; BOTH; ENSEMBLE]) = true)
    by (destruct Hm as [->| ->]; reflexivity).
  assert (Hin3 : bool_decide (method ∈ [BOTH; ENSEMBLE]) = true)
    by (destruct Hm as [->| ->]; reflexivity).
  assert (Hin4 : bool_decide (method ∈ [HHEM_ONLY]) = false)
    by (destruct Hm as [->| ->]; reflexivity).
  assert (Hin5 : bool_decide (method ∈ [QWEN_ONLY]) = false)
    by (destruct Hm as [->| ->]; reflexivity).
  rewrite Hin1, Hin2, Hin3, Hin4, Hin5.
  assert (Hh : ∃ hr, match hh with
      | Some hhem => HHEM.evaluate_consistency hhem generated_text source_texts hhem_model
      | None => Returned hr end = Returned hr).
  { destruct hh; [apply evaluate_consistency_returns|by exists (HHEM.failure [])]. }
  assert (Hq : ∃ qr, match qq with
      | Some qwen => Qwen.evaluate_hallucination qwen json_loads float_of_str
                       generated_text source_texts qwen_model 0.1 2000
      | None => Returned qr end = Returned qr).
  { destruct qq; [apply evaluate_hallucination_returns|].
    by exists (Qwen._parse_text_response []). }
  destruct Hh as [hr Hh], Hq as [qr Hq].
  destruct hh as [hhem|], qq as [qwen|]; rewrite ?Hh, ?Hq; simpl;
    (eexists; split; [reflexivity|]);
    destruct Hm as [-> | ->]; simpl;
    rewrite ?(proj1 (compute_ensemble_keeps_flags _)),
            ?(proj2 (compute_ensemble_keeps_flags _));
    try destruct (HHEM.success hr) eqn:Ehr; try destruct (Qwen.success qr) eqn:Eqr; simpl;
    (split; [reflexivity|]); (split; [reflexivity|]);
    (split; [clear; intuition congruence|]);
    (split; [clear; intuition congruence|]);
    try (intros; discriminate); intros _ _;
    try reflexivity; by rewrite compute_ensemble_no_success.
Qed.

(** ** The keyword fallback of the judgment backend *)

Lemma parse_text_response_bands (text_response : str) :
  let r := Qwen._parse_text_response text_response in
  Qwen.success r = true
  ∧ Qwen.confidence r = 0.7%Q
  ∧ Qwen.error_message r = None
  ∧ (Qwen.hallucination_score r = 0.9%Q ∨ Qwen.hallucination_score r = 0.6%Q
     ∨ Qwen.hallucination_score r = 0.3%Q ∨ Qwen.hallucination_score r = 0.1%Q
     ∨ Qwen.hallucination_score r = 0.5%Q)
  ∧ (Qwen.hallucination_score r = 0.5%Q
     ↔ Qwen.any_keyword (lower text_response) Qwen.band_keywords = false).
Proof.
  unfold Qwen._parse_text_response. cbn [Qwen.success Qwen.confidence
    Qwen.error_message Qwen.hallucination_score].
  repeat split; try reflexivity.
  - repeat case_match; auto 6.
  - unfold Qwen.any_keyword, Qwen.band_keywords. rewrite !existsb_app.
    repeat case_match; simpl; try discriminate; reflexivity.
  - unfold Qwen.any_keyword, Qwen.band_keywords. rewrite !existsb_app.
    intros H. apply orb_false_elim in H as [-> H].
    apply orb_false_elim in H as [-> H]. apply orb_false_elim in H as [-> ->].
    reflexivity.
Qed.

(** C3, as the code has it. A call that passes the input checks, is
    answered with status 200 and at least one choice, and whose answer
    text makes [json.loads] raise [JSONDecodeError], returns the keyword
    estimate of that text: [success] is true, the confidence is 0.7, and
    the score is 0.9, 0.6, 0.3 or 0.1 when a keyword of a band occurs
    and 0.5 exactly when no keyword of any band occurs. *)
Theorem C3_keyword_fallback
    (generation_call : Qwen.request → outcome Qwen.generation_response)
    (json_loads : str → outcome json_value) (float_of_str : str → outcome Q)
    (generated_text : str) (source_texts : list str)
    (model : Qwen.QwenModel) (temperature : Q) (max_tokens : Z)
    (response : Qwen.generation_response) (content : str) (rest : list str) (msg : str) :
  whitespace_only generated_text = false →
  Exists (fun text => whitespace_only text = false) source_texts →
  generation_call
    {| Qwen.model := model; Qwen.generated_text := generated_text;
       Qwen.source_texts := source_texts; Qwen.temperature := temperature;
       Qwen.max_tokens := max_tokens |} = Returned response →
  Qwen.status_code response = 200%Z →
  Qwen.choices response = Some (content :: rest) →
  json_loads (strip content) = Raised (JSONDecodeError msg) →
  ∃ r, Qwen.evaluate_hallucination generation_call json_loads float_of_str
         generated_text source_texts model temperature max_tokens = Returned r
       ∧ r = Qwen._parse_text_response (strip content)
       ∧ Qwen.success r = true
       ∧ Qwen.confidence r = 0.7%Q
       ∧ (Qwen.hallucination_score r = 0.9%Q ∨ Qwen.hallucination_score r = 0.6%Q
          ∨ Qwen.hallucination_score r = 0.3%Q ∨ Qwen.hallucination_score r = 0.1%Q
          ∨ Qwen.hallucination_score r = 0.5%Q)
       ∧ (Qwen.hallucination_score r = 0.5%Q
          ↔ Qwen.any_keyword (lower (strip content)) Qwen.band_keywords = false).
Proof.
  intros Hg Hs Hcall Hstatus Hchoices Hloads.
  exists (Qwen._parse_text_response (strip content)).
  split.
  - unfold Qwen.evaluate_hallucination.
    rewrite truthy_strip, Hg. simpl negb. cbv iota.
    destruct (negb (truthy source_texts)
              || negb (existsb (fun text => truthy (strip text)) source_texts)) eqn:E.
    { apply no_reference_text in E. apply Exists_exists in Hs as (t & Ht & Hw).
      rewrite Forall_forall in E. rewrite (E t Ht) in Hw. discriminate. }
    rewrite Hcall. simpl. rewrite Hstatus, Hchoices. simpl.
    rewrite Hloads. reflexivity.
  - split; [reflexivity|].
    destruct (parse_text_response_bands (strip content)) as (H1 & H2 & _ & H3 & H4).
    auto.
Qed.

Lemma C3_keyword_fallback_witness :
  ∃ r, Qwen.evaluate_hallucination (Scenario.qwen_answering (utf8 "基本准确, minor issues"))
         Scenario.loads_not_json Scenario.float_of_str
         Scenario.candidate Scenario.references Qwen.QWEN_TURBO 0.1%Q 2000 = Returned r
       ∧ r = Qwen._parse_text_response (strip (utf8 "基本准确, minor issues"))
       ∧ Qwen.success r = true
       ∧ Qwen.confidence r = 0.7%Q
       ∧ (Qwen.hallucination_score r = 0.9%Q ∨ Qwen.hallucination_score r = 0.6%Q
          ∨ Qwen.hallucination_score r = 0.3%Q ∨ Qwen.hallucination_score r = 0.1%Q
          ∨ Qwen.hallucination_score r = 0.5%Q)
       ∧ (Qwen.hallucination_score r = 0.5%Q
          ↔ Qwen.any_keyword (lower (strip (utf8 "基本准确, minor issues")))
              Qwen.band_keywords = false).
Proof.
  apply (C3_keyword_fallback _ _ _ _ _ _ _ _
           {| Qwen.status_code := 200; Qwen.message := None;
              Qwen.choices := Some [utf8 "基本准确, minor issues"] |}
           (utf8 "基本准确, minor issues") [] (utf8 "Expecting value")).
  - vm_compute; reflexivity.
  - apply Exists_cons_hd. vm_compute; reflexivity.
  - reflexivity.
  - reflexivity.
  - reflexivity.
  - reflexivity.
Defined.

(** The claim as stated fails on an answer without any keyword: the
    fallback reports the score 0.5, which is none of the four band
    values. *)
Lemma C3_counterexample_no_keyword :
  ∃ r, Qwen.evaluate_hallucination (Scenario.qwen_answering (utf8 "hello"))
         Scenario.loads_not_json Scenario.float_of_str
         Scenario.candidate Scenario.references Qwen.QWEN_TURBO 0.1%Q 2000 = Returned r
       ∧ Qwen.success r = true
       ∧ Qwen.hallucination_score r = 0.5%Q
       ∧ ¬ (Qwen.hallucination_score r == 0.9 ∨ Qwen.hallucination_score r == 0.6
            ∨ Qwen.hallucination_score r == 0.3 ∨ Qwen.hallucination_score r == 0.1)%Q.
Proof.
  eexists. split; [vm_compute; reflexivity|].
  repeat split.
  intros [H|[H|[H|H]]]; vm_compute in H; discriminate.
Qed.

(** An answer that is JSON but not an object does not reach the
    fallback: [get] raises, the outer handler reports a failure. *)
Remark json_array_answer_is_a_failure :
  ∃ r, Qwen.evaluate_hallucination (Scenario.qwen_answering (utf8 "[1]"))
         Scenario.loads_array Scenario.float_of_str
         Scenario.candidate Scenario.references Qwen.QWEN_TURBO 0.1%Q 2000 = Returned r
       ∧ Qwen.success r = false
       ∧ Qwen.hallucination_score r = 0.5%Q
       ∧ Qwen.confidence r = 0.0%Q.
Proof. eexists. split; [vm_compute; reflexivity|]. repeat split. Qed.

(** ** The ensemble combiner *)

Lemma Qlt_bool_iff (x y : Q) : Qlt_bool x y = true ↔ (x < y)%Q.
Proof.
  unfold Qlt_bool. rewrite negb_true_iff, <- not_true_iff_false, Qle_bool_iff.
  split; [apply Qnot_le_lt|apply Qlt_not_le].
Qed.

Lemma confidence_or_spec (c : option Q) (d : Q) :
  (c = None ∨ (∃ x, c = Some x ∧ x == 0)%Q) ∧ confidence_or c d = d
  ∨ ∃ x, c = Some x ∧ ¬ (x == 0)%Q ∧ confidence_or c d = x.
Proof.
  destruct c as [x|]; simpl; [|by left; split; [left|]].
  destruct (Qeq_bool x 0) eqn:E.
  - apply Qeq_bool_iff in E. left. split; [right; eauto|done].
  - right. exists x. repeat split. intros H. apply Qeq_bool_iff in H. congruence.
Qed.

(** The combining step on two contributions. *)
Lemma ensemble_of_two (s1 s2 c1 c2 : Q) :
  ensemble_of [s1; s2] [c1; c2]
  = (if Qlt_bool 0 (0 + c1 + c2) then ((0 + s1 * c1 + s2 * c2) / (0 + c1 + c2))%Q
     else ((0 + s1 + s2) / inject_Z 2)%Q,
     ((0 + c1 + c2) / inject_Z 2)%Q).
Proof. reflexivity. Qed.

Lemma ensemble_of_two_weighted (s1 s2 c1 c2 : Q) :
  (0 < c1 + c2)%Q →
  ((ensemble_of [s1; s2] [c1; c2]).1 == (s1 * c1 + s2 * c2) / (c1 + c2))%Q.
Proof.
  intros H. rewrite ensemble_of_two. cbn [fst].
  assert (Hlt : Qlt_bool 0 (0 + c1 + c2) = true) by (apply Qlt_bool_iff; lra).
  rewrite Hlt. field. lra.
Qed.

Lemma ensemble_of_two_unweighted (s1 s2 c1 c2 : Q) :
  (c1 == 0)%Q → (c2 == 0)%Q →
  ((ensemble_of [s1; s2] [c1; c2]).1 == (s1 + s2) / 2)%Q.
Proof.
  intros H1 H2. rewrite ensemble_of_two. cbn [fst].
  destruct (Qlt_bool 0 (0 + c1 + c2)) eqn:E.
  - apply Qlt_bool_iff in E. lra.
  - change (inject_Z 2) with 2%Q. field.
Qed.

Lemma ensemble_of_two_plain (s1 s2 c1 c2 : Q) :
  (c1 + c2 <= 0)%Q →
  ((ensemble_of [s1; s2] [c1; c2]).1 == (s1 + s2) / 2)%Q.
Proof.
  intros H. rewrite ensemble_of_two. cbn [fst].
  destruct (Qlt_bool 0 (0 + c1 + c2)) eqn:E.
  - apply Qlt_bool_iff in E. lra.
  - change (inject_Z 2) with 2%Q. field.
Qed.

Lemma ensemble_of_two_confidence (s1 s2 c1 c2 : Q) :
  ((ensemble_of [s1; s2] [c1; c2]).2 == (c1 + c2) / 2)%Q.
Proof. rewrite ensemble_of_two. cbn [snd]. change (inject_Z 2) with 2%Q. field. Qed.

Lemma ensemble_of_one (s c : Q) : ensemble_of [s] [c] = (s, c).
Proof. reflexivity. Qed.

#[local] Opaque ensemble_of _interpret_ensemble_score.

(** What [_compute_ensemble_result] stores when both backends
    contributed. *)
Lemma compute_ensemble_both (r : IntegratedEvaluationResult) (h q : Q) :
  hhem_success r = true → hhem_score r = Some h →
  qwen_success r = true → qwen_hallucination_score r = Some q →
  let lists := ([(1.0 - h)%Q; q], [0.9%Q; confidence_or (qwen_confidence r) 0.7%Q]) in
  collect_scores r
  = (lists.1, lists.2,
     [utf8 "HHEM: " ++ str_of_option (hhem_interpretation r);
      utf8 "Qwen: " ++ str_of_option (qwen_interpretation r)])
  ∧ ensemble_score (_compute_ensemble_result r) = Some (ensemble_of lists.1 lists.2).1
  ∧ ensemble_confidence (_compute_ensemble_result r) = Some (ensemble_of lists.1 lists.2).2.
Proof.
  intros Hh Hhs Hq Hqs lists.
  assert (Hc : collect_scores r
    = (lists.1, lists.2,
       [utf8 "HHEM: " ++ str_of_option (hhem_interpretation r);
        utf8 "Qwen: " ++ str_of_option (qwen_interpretation r)])).
  { unfold collect_scores. rewrite Hh, Hhs, Hq, Hqs. reflexivity. }
  split; [exact Hc|].
  unfold _compute_ensemble_result. rewrite Hc. cbn [truthy fst snd lists].
  destruct (ensemble_of _ _) as [e ec]. split; reflexivity.
Qed.

(** The result of an [ENSEMBLE] call is the combiner applied to the
    record filled from the two backends, with the success flag set. *)
Lemma evaluate_ensemble_shape
    (json_loads : str → outcome json_value) (float_of_str : str → outcome Q)
    (self : IntegratedHallucinationEvaluator)
    (generated_text : str) (source_texts : list str)
    (qwen_model : Qwen.QwenModel) (hhem_model : str) :
  ∃ r0 ok,
    evaluate json_loads float_of_str self generated_text source_texts
      ENSEMBLE qwen_model hhem_model
    = Returned (set_success (_compute_ensemble_result r0) ok)
    ∧ (hhem_success r0 = true → is_Some (hhem_score r0))
    ∧ (qwen_success r0 = true →
       is_Some (qwen_hallucination_score r0) ∧ is_Some (qwen_confidence r0)).
Proof.
  unfold evaluate, _evaluate_hhem, _evaluate_qwen.
  destruct self as [hh qq]; simpl.
  assert (Hh : ∃ hr, match hh with
      | Some hhem => HHEM.evaluate_consistency hhem generated_text source_texts hhem_model
      | None => Returned hr end = Returned hr).
  { destruct hh; [apply evaluate_consistency_returns|by exists (HHEM.failure [])]. }
  assert (Hq : ∃ qr, match qq with
      | Some qwen => Qwen.evaluate_hallucination qwen json_loads float_of_str
                       generated_text source_texts qwen_model 0.1 2000
      | None => Returned qr end = Returned qr).
  { destruct qq; [apply evaluate_hallucination_returns|].
    by exists (Qwen._parse_text_response []). }
  destruct Hh as [hr Hh], Hq as [qr Hq].
  destruct hh as [hhem|], qq as [qwen|]; rewrite ?Hh, ?Hq; simpl;
    try destruct (HHEM.success hr) eqn:Ehr; try destruct (Qwen.success qr) eqn:Eqr; simpl;
    (eexists _, _; split; [reflexivity|]); simpl;
    (split; [try discriminate; eauto|]); try discriminate; eauto.
Qed.

(** C2. An [evaluate] call with method [ENSEMBLE] returns a result
    which, when both backends succeeded, holds the combination of the
    severities [s1 = 1 - hhem_score] and [s2 = qwen_hallucination_score]
    under the weights [c1 = 0.9] (the constant given to HHEM) and
    [c2 = qwen_confidence or 0.7], which is the reported confidence
    unless that is zero, and 0.7 when it is: the score is
    [(s1 c1 + s2 c2) / (c1 + c2)] whenever [c1 + c2 > 0], which every
    non-negative reported confidence ensures, and [(s1 + s2) / 2]
    otherwise; the confidence is [(c1 + c2) / 2].  The combining step
    itself, on any two severities and non-negative confidences, yields
    the weighted mean unless both confidences are zero, the plain mean
    [(s1 + s2) / 2] when both are zero, and the mean confidence. *)
Theorem C2_ensemble_weighted_mean :
  (∀ (json_loads : str → outcome json_value) (float_of_str : str → outcome Q)
     (self : IntegratedHallucinationEvaluator)
     (generated_text : str) (source_texts : list str)
     (qwen_model : Qwen.QwenModel) (hhem_model : str),
     ∃ r, evaluate json_loads float_of_str self generated_text source_texts
            ENSEMBLE qwen_model hhem_model = Returned r
          ∧ (hhem_success r = true → qwen_success r = true →
             ∃ h q qc e ec,
               hhem_score r = Some h
               ∧ qwen_hallucination_score r = Some q
               ∧ qwen_confidence r = Some qc
               ∧ ensemble_score r = Some e
               ∧ ensemble_confidence r = Some ec
               ∧ let s1 := (1.0 - h)%Q in
                 let s2 := q in
                 let c1 := 0.9%Q in
                 let c2 := confidence_or (Some qc) 0.7%Q in
                 (e, ec) = ensemble_of [s1; s2] [c1; c2]
                 ∧ ((qc == 0)%Q → c2 = 0.7%Q)
                 ∧ (¬ (qc == 0)%Q → c2 = qc)
                 ∧ ((0 < c1 + c2)%Q → (e == (s1 * c1 + s2 * c2) / (c1 + c2))%Q)
                 ∧ ((c1 + c2 <= 0)%Q → (e == (s1 + s2) / 2)%Q)
                 ∧ ((0 <= qc)%Q → (0 < c1 + c2)%Q)
                 ∧ (ec == (c1 + c2) / 2)%Q))
  ∧ (∀ s1 s2 c1 c2 : Q, (0 <= c1)%Q → (0 <= c2)%Q →
     let e := (ensemble_of [s1; s2] [c1; c2]).1 in
     let ec := (ensemble_of [s1; s2] [c1; c2]).2 in
     (¬ (c1 == 0 ∧ c2 == 0)%Q → (e == (s1 * c1 + s2 * c2) / (c1 + c2))%Q)
     ∧ ((c1 == 0)%Q → (c2 == 0)%Q → (e == (s1 + s2) / 2)%Q)
     ∧ (ec == (c1 + c2) / 2)%Q).
Proof.
  split.
  - intros.
    destruct (evaluate_ensemble_shape json_loads float_of_str self generated_text
                source_texts qwen_model hhem_model) as (r0 & ok & -> & Hh & Hq).
    eexists. split; [reflexivity|].
    cbn [hhem_success qwen_success set_success hhem_score qwen_hallucination_score
         qwen_confidence ensemble_score ensemble_confidence].
    rewrite (proj1 (compute_ensemble_keeps_flags r0)),
            (proj2 (compute_ensemble_keeps_flags r0)).
    intros Hhs Hqs.
    destruct (Hh Hhs) as [h Hh'], (Hq Hqs) as [[q Hq'] [qc Hqc]].
    destruct (compute_ensemble_both r0 h q Hhs Hh' Hqs Hq') as (Hc & He & Hec).
    cbn [fst snd] in He, Hec. rewrite Hqc in He, Hec.
    assert (Hkeep : hhem_score (_compute_ensemble_result r0) = hhem_score r0
                    ∧ qwen_hallucination_score (_compute_ensemble_result r0)
                      = qwen_hallucination_score r0
                    ∧ qwen_confidence (_compute_ensemble_result r0) = qwen_confidence r0).
    { unfold _compute_ensemble_result. destruct (collect_scores r0) as [[a b] c].
      destruct (truthy a); [|done]. by destruct (ensemble_of a b). }
    destruct Hkeep as (-> & -> & ->).
    exists h, q, qc. eexists _, _.
    repeat (split; [eassumption|]).
    cbv zeta. split; [|split; [|split; [|split; [|split; [|split]]]]].
    + by destruct (ensemble_of _ _).
    + intros Hz.
      destruct (confidence_or_spec (Some qc) 0.7%Q) as [[_ ->]|(x & [= <-] & Hx & _)];
        [reflexivity|contradiction].
    + intros Hnz.
      destruct (confidence_or_spec (Some qc) 0.7%Q)
        as [[[[=]|(x & [= <-] & Hx)] _]|(x & [= <-] & _ & ->)];
        [contradiction|reflexivity].
    + apply ensemble_of_two_weighted.
    + apply ensemble_of_two_plain.
    + intros Hqc0.
      destruct (confidence_or_spec (Some qc) 0.7%Q) as [[_ ->]|(x & [= <-] & Hx & ->)]; lra.
    + apply ensemble_of_two_confidence.
  - intros s1 s2 c1 c2 H1 H2 e ec. subst e ec. repeat split.
    + intros Hnz. apply ensemble_of_two_weighted.
      destruct (Qlt_le_dec 0 (c1 + c2)) as [|Hle]; [done|].
      exfalso. apply Hnz. split; lra.
    + apply ensemble_of_two_unweighted.
    + apply ensemble_of_two_confidence.
Qed.

Lemma C2_ensemble_weighted_mean_witness :
  ∃ r e ec,
    evaluate (Scenario.loads_verdict 0.85 0.8) Scenario.float_of_str
      {| hhem_evaluator := Some (Scenario.hhem_answering 0.1);
         qwen_evaluator := Some (Scenario.qwen_answering (utf8 "{...}")) |}
      Scenario.candidate Scenario.references ENSEMBLE Qwen.QWEN_TURBO (utf8 "hhem_v2.3")
    = Returned r
    ∧ ensemble_score r = Some e
    ∧ ensemble_confidence r = Some ec
    ∧ (e == (0.9 * 0.9 + 0.85 * 0.8) / (0.9 + 0.8))%Q
    ∧ (ec == 0.85)%Q.
Proof.
  destruct (proj1 C2_ensemble_weighted_mean
              (Scenario.loads_verdict 0.85 0.8) Scenario.float_of_str
              {| hhem_evaluator := Some (Scenario.hhem_answering 0.1);
                 qwen_evaluator := Some (Scenario.qwen_answering (utf8 "{...}")) |}
              Scenario.candidate Scenario.references Qwen.QWEN_TURBO (utf8 "hhem_v2.3"))
    as (r & Hr & H).
  exists r.
  assert (Hflags : hhem_success r = true ∧ qwen_success r = true
                   ∧ hhem_score r = Some 0.1%Q
                   ∧ qwen_hallucination_score r = Some 0.85%Q
                   ∧ qwen_confidence r = Some 0.8%Q).
  { vm_compute in Hr. injection Hr as <-. repeat split. }
  destruct Hflags as (Hh & Hq & Hhs & Hqs & Hqc).
  destruct (H Hh Hq)
    as (h & q & qc & e & ec & Hh' & Hq' & Hqc' & He & Hec & _ & _ & _ & Hw & _ & _ & Hc).
  rewrite Hhs in Hh'. rewrite Hqs in Hq'. rewrite Hqc in Hqc'.
  injection Hh' as <-. injection Hq' as <-. injection Hqc' as <-.
  exists e, ec. split; [exact Hr|]. split; [exact He|]. split; [exact Hec|].
  split.
  - rewrite Hw; vm_compute; reflexivity.
  - rewrite Hc. vm_compute. reflexivity.
Defined.

(** The claim as stated, with the confidence the judgment backend
    reported as [c2], fails when that confidence is zero: on the
    consistency score 0.1 and the judgment score 0.4 the ensemble score
    is 109/160 (the weights being 0.9 and 0.7) and the ensemble
    confidence 0.8, whereas [c2 = 0] makes the claimed score 0.9 for
    every weight [c1] other than zero and 0.65 as a plain mean, and the
    claimed confidence 0.45 for [c1 = 0.9]. *)
Lemma C2_counterexample_zero_confidence :
  ∃ r e ec,
    evaluate (Scenario.loads_verdict 0.4 0) Scenario.float_of_str
      {| hhem_evaluator := Some (Scenario.hhem_answering 0.1);
         qwen_evaluator := Some (Scenario.qwen_answering (utf8 "{...}")) |}
      Scenario.candidate Scenario.references ENSEMBLE Qwen.QWEN_TURBO (utf8 "hhem_v2.3")
    = Returned r
    ∧ hhem_success r = true ∧ qwen_success r = true
    ∧ hhem_score r = Some 0.1%Q
    ∧ qwen_hallucination_score r = Some 0.4%Q
    ∧ qwen_confidence r = Some 0%Q
    ∧ ensemble_score r = Some e
    ∧ ensemble_confidence r = Some ec
    ∧ (e == 109 # 160)%Q ∧ (ec == 0.8)%Q
    ∧ (∀ c1 : Q, ¬ (e == ((1.0 - 0.1) * c1 + 0.4 * 0) / (c1 + 0))%Q)
    ∧ ¬ (e == ((1.0 - 0.1) + 0.4) / 2)%Q
    ∧ ¬ (ec == (0.9 + 0) / 2)%Q.
Proof.
  eexists _, _, _. split; [vm_compute; reflexivity|].
  do 7 (split; [reflexivity|]).
  split; [vm_compute; reflexivity|]. split; [vm_compute; reflexivity|].
  split; [|split].
  - intros c1 H.
    destruct (Qeq_dec c1 0) as [Hz|Hnz].
    + rewrite Hz in H. vm_compute in H. discriminate.
    + assert (Hq : (((1.0 - 0.1) * c1 + 0.4 * 0) / (c1 + 0) == 0.9)%Q)
        by (field; lra).
      rewrite Hq in H. vm_compute in H. discriminate.
  - intros H. vm_compute in H. discriminate.
  - intros H. vm_compute in H. discriminate.
Qed.

(** C9. In a combination where the judgment backend succeeded with a
    score but reported the confidence 0.0 (or none), its weight in the
    list of confidences is 0.7: the list is [[0.7]] or [[0.9; 0.7]],
    every weight is at least 0.7, the test [weight_sum > 0] holds, so
    with two contributions the score is the weighted quotient and not the
    plain mean, and the ensemble confidence is 0.7, or the mean 0.8 of
    0.9 and 0.7. *)
Theorem C9_zero_confidence_weighs_seven_tenths
    (r : IntegratedEvaluationResult) (q : Q) :
  qwen_success r = true →
  qwen_hallucination_score r = Some q →
  (qwen_confidence r = None ∨ ∃ c, qwen_confidence r = Some c ∧ (c == 0)%Q) →
  let scores := (collect_scores r).1.1 in
  let confidences := (collect_scores r).1.2 in
  last confidences = Some 0.7%Q
  ∧ Forall (fun w => (0.7 <= w)%Q) confidences
  ∧ Qlt_bool 0 (Qsum confidences) = true
  ∧ ((1 < length scores)%nat →
     (ensemble_of scores confidences).1
     = (Qsum (zip_with Qmult scores confidences) / Qsum confidences)%Q)
  ∧ ∃ ec, ensemble_confidence (_compute_ensemble_result r) = Some ec
          ∧ (confidences = [0.7%Q] ∧ ec = 0.7%Q
             ∨ confidences = [0.9%Q; 0.7%Q] ∧ (ec == 0.8)%Q).
Proof.
  intros Hq Hqs Hc scores confidences.
  assert (Hw : confidence_or (qwen_confidence r) 0.7%Q = 0.7%Q).
  { destruct (confidence_or_spec (qwen_confidence r) 0.7%Q)
      as [[_ H]|(x & Hx & Hnz & _)]; [exact H|].
    destruct Hc as [Hc|(c & Hc & Hz)]; rewrite Hc in Hx; [discriminate|].
    injection Hx as <-. contradiction. }
  assert (Hlists :
    (scores = [q] ∧ confidences = [0.7%Q]
     ∧ ensemble_confidence (_compute_ensemble_result r) = Some 0.7%Q)
    ∨ (∃ h, scores = [(1.0 - h)%Q; q] ∧ confidences = [0.9%Q; 0.7%Q]
            ∧ ensemble_confidence (_compute_ensemble_result r)
              = Some (ensemble_of [(1.0 - h)%Q; q] [0.9%Q; 0.7%Q]).2)).
  { subst scores confidences. unfold _compute_ensemble_result, collect_scores.
    rewrite Hq, Hqs, Hw.
    destruct (hhem_success r); [destruct (hhem_score r) as [h|]|]; cbn.
    - right. exists h. rewrite ensemble_of_two. done.
    - left. rewrite ensemble_of_one. done.
    - left. rewrite ensemble_of_one. done. }
  destruct Hlists as [(-> & -> & Hec)|(h & -> & -> & Hec)].
  - split; [reflexivity|]. split; [|split; [reflexivity|split]].
    + constructor; [|constructor]. apply Qle_refl.
    + intros H. simpl in H. lia.
    + exists 0.7%Q. split; [exact Hec|]. by left.
  - split; [reflexivity|]. split; [|split; [reflexivity|split]].
    + repeat constructor; [vm_compute; discriminate|apply Qle_refl].
    + intros _. rewrite ensemble_of_two. reflexivity.
    + eexists. split; [exact Hec|]. right. split; [done|].
      rewrite ensemble_of_two_confidence. vm_compute. reflexivity.
Qed.

Lemma C9_zero_confidence_witness :
  let r := set_qwen (set_hhem (new_result ENSEMBLE) (Some 0.1%Q) true None)
             (Some 0.4%Q) (Some 0.0%Q) true None None in
  last (collect_scores r).1.2 = Some 0.7%Q
  ∧ Forall (fun w => (0.7 <= w)%Q) (collect_scores r).1.2
  ∧ Qlt_bool 0 (Qsum (collect_scores r).1.2) = true
  ∧ ((1 < length (collect_scores r).1.1)%nat →
     (ensemble_of (collect_scores r).1.1 (collect_scores r).1.2).1
     = (Qsum (zip_with Qmult (collect_scores r).1.1 (collect_scores r).1.2)
        / Qsum (collect_scores r).1.2)%Q)
  ∧ ∃ ec, ensemble_confidence (_compute_ensemble_result r) = Some ec
          ∧ ((collect_scores r).1.2 = [0.7%Q] ∧ ec = 0.7%Q
             ∨ (collect_scores r).1.2 = [0.9%Q; 0.7%Q] ∧ (ec == 0.8)%Q).
Proof.
  intros r.
  apply (C9_zero_confidence_weighs_seven_tenths r 0.4%Q).
  - reflexivity.
  - reflexivity.
  - right. exists 0.0%Q. split; [reflexivity|]. vm_compute. reflexivity.
Defined.

Lemma C5_ensemble_success_flag_witness :
  let self := {| hhem_evaluator := Some Scenario.hhem_timing_out;
                 qwen_evaluator := None |} in
  let h := hhem_succeeded self Scenario.candidate Scenario.references (utf8 "hhem_v2.3") in
  let q := qwen_succeeded Scenario.loads_not_json Scenario.float_of_str self
             Scenario.candidate Scenario.references Qwen.QWEN_TURBO in
  ∃ r, evaluate Scenario.loads_not_json Scenario.float_of_str self
         Scenario.candidate Scenario.references ENSEMBLE Qwen.QWEN_TURBO (utf8 "hhem_v2.3")
       = Returned r
       ∧ hhem_success r = h
       ∧ qwen_success r = q
       ∧ (success r = true ↔ h = true ∨ q = true)
       ∧ (success r = false ↔ h = false ∧ q = false)
       ∧ (h = false → q = false → ensemble_score r = None).
Proof.
  intros self.
  apply (C5_ensemble_success_flag Scenario.loads_not_json Scenario.float_of_str self).
  right. reflexivity.
Defined.

(** ** The sample repository *)

Lemma fold_insert_lookup (l all : list RAGtruthSource.t)
    (m : gmap str RAGtruthSource.t) (k : str) (s : RAGtruthSource.t) :
  (∀ k s, m !! k = Some s → RAGtruthSource.source_id s = k ∧ s ∈ all) →
  (∀ x, x ∈ l → x ∈ all) →
  fold_left (fun m source => <[RAGtruthSource.source_id source := source]> m) l m !! k
  = Some s →
  RAGtruthSource.source_id s = k ∧ s ∈ all.
Proof.
  revert m. induction l as [|x l IH]; intros m Hm Hl; simpl; [apply Hm|].
  apply IH.
  - intros k' s' H. apply lookup_insert_Some in H as [[<- <-]|[_ H]].
    + split; [done|]. apply Hl. left.
    + by apply Hm.
  - intros y Hy. apply Hl. by right.
Qed.

(** An entry of the source map is a loaded source filed under its own
    identifier. *)
Lemma source_map_of_lookup (sources : list RAGtruthSource.t)
    (k : str) (s : RAGtruthSource.t) :
  Loader.source_map_of sources !! k = Some s →
  RAGtruthSource.source_id s = k ∧ s ∈ sources.
Proof.
  apply fold_insert_lookup; [|done].
  intros k' s' H. by rewrite lookup_empty in H.
Qed.

Lemma joined_samples_joined (self : Loader.RAGtruthLoader)
    (task_type : TaskType.t) (split : SplitType.t) (has_hallucination : option bool)
    (s : RAGtruthSample.t) :
  s ∈ Loader.joined_samples self task_type split has_hallucination →
  RAGtruthSource.source_id (RAGtruthSample.source s)
  = RAGtruthResponse.source_id (RAGtruthSample.response s)
  ∧ RAGtruthSample.source s ∈ Loader.sources self
  ∧ RAGtruthSample.response s ∈ Loader.responses self.
Proof.
  unfold Loader.joined_samples, Loader.make_samples.
  intros H. apply list_elem_of_omap in H as (response & Hin & Hs).
  apply list_elem_of_filter in Hin as [_ Hin].
  destruct (_ !! _) as [source|] eqn:E; [|discriminate].
  injection Hs as <-. simpl.
  apply source_map_of_lookup in E as [E1 E2]. done.
Qed.

Section Sampling.

Context (rng : Type) (seed : Z → rng)
        (sample : rng → list RAGtruthSample.t → nat → list RAGtruthSample.t * rng).

Lemma random_sampling_whole (samples : list RAGtruthSample.t)
    (k : Z) (random_seed : option Z) (g : rng) :
  (k = 0 ∨ Z.of_nat (length samples) <= k)%Z →
  Loader.random_sampling rng seed sample samples (Some k) random_seed g
  = (Returned samples, g).
Proof.
  intros H. unfold Loader.random_sampling.
  destruct (k =? 0)%Z eqn:E0; [done|]. simpl.
  destruct (k <? Z.of_nat (length samples))%Z eqn:E1; [|done]. lia.
Qed.

Lemma random_sampling_seeded (samples : list RAGtruthSample.t)
    (max_samples : option Z) (n : Z) (g1 g2 : rng) :
  (Loader.random_sampling rng seed sample samples max_samples (Some n) g1).1
  = (Loader.random_sampling rng seed sample samples max_samples (Some n) g2).1.
Proof.
  unfold Loader.random_sampling.
  destruct max_samples as [k|]; [|done].
  by destruct (negb (k =? 0)%Z && (k <? Z.of_nat (length samples))%Z).
Qed.

(** A returned list holds members of the population when [sample]
    does. *)
Lemma random_sampling_subset (samples chosen : list RAGtruthSample.t)
    (max_samples random_seed : option Z) (g : rng) :
  (∀ g population k, (sample g population k).1 ⊆ population) →
  (Loader.random_sampling rng seed sample samples max_samples random_seed g).1
  = Returned chosen →
  chosen ⊆ samples.
Proof.
  intros Hsample. unfold Loader.random_sampling.
  destruct max_samples as [k|]; [|by intros [= <-]].
  destruct (negb (k =? 0)%Z && (k <? Z.of_nat (length samples))%Z);
    [|by intros [= <-]].
  destruct (k <? 0)%Z; [discriminate|].
  match goal with |- context [sample ?g ?l ?k] =>
    pose proof (Hsample g l k) as Hsub; destruct (sample g l k) as [c g'] end.
  by intros [= <-].
Qed.

End Sampling.

(** The dataset of the scenario: the orphan response is dropped, a
    count below the size samples, a negative count raises. *)
Example get_samples_all :
  Loader.get_samples nat Scenario.toy_seed Scenario.toy_sample Scenario.loader
    TaskType.ALL SplitType.ALL None None None 5%nat
  = (Returned
       [ {| RAGtruthSample.source := Scenario.source_s1;
            RAGtruthSample.response := Scenario.response_of "r1" "s1" [Scenario.label] |};
         {| RAGtruthSample.source := Scenario.source_s1;
            RAGtruthSample.response := Scenario.response_of "r3" "s1" [] |} ],
     5%nat).
Proof. vm_compute. reflexivity. Qed.

Example get_samples_one :
  Loader.get_samples nat Scenario.toy_seed Scenario.toy_sample Scenario.loader
    TaskType.QA SplitType.TEST None (Some 1%Z) (Some 3%Z) 5%nat
  = (Returned
       [ {| RAGtruthSample.source := Scenario.source_s1;
            RAGtruthSample.response := Scenario.response_of "r3" "s1" [] |} ],
     4%nat).
Proof. vm_compute. reflexivity. Qed.

Example get_samples_negative :
  Loader.get_samples nat Scenario.toy_seed Scenario.toy_sample Scenario.loader
    TaskType.ALL SplitType.ALL None (Some (-1)%Z) None 5%nat
  = (Raised (ValueError (utf8 "Sample larger than population or is negative")), 5%nat).
Proof. vm_compute. reflexivity. Qed.

Lemma toy_sample_subset (g : nat) (population : list RAGtruthSample.t) (k : nat) :
  (Scenario.toy_sample g population k).1 ⊆ population.
Proof.
  unfold Scenario.toy_sample. simpl. intros x Hx.
  apply subseteq_take in Hx. unfold rotate in Hx.
  apply elem_of_app in Hx as [Hx|Hx];
    [by apply subseteq_drop in Hx|by apply subseteq_take in Hx].
Qed.

(** C6. With a seed given, the sampling step and [get_samples] return
    the same selection whatever the state of the generator, so a second
    call with the same arguments, made in the state the first call left,
    selects the same samples; and with a count [k >= len(S)] the whole
    of [S] is returned. *)
Theorem C6_seeded_sampling_is_reproducible
    (rng : Type) (seed : Z → rng)
    (sample : rng → list RAGtruthSample.t → nat → list RAGtruthSample.t * rng) :
  (∀ (samples : list RAGtruthSample.t) (k : option Z) (n : Z) (g1 g2 : rng),
     (Loader.random_sampling rng seed sample samples k (Some n) g1).1
     = (Loader.random_sampling rng seed sample samples k (Some n) g2).1)
  ∧ (∀ (self : Loader.RAGtruthLoader) (task_type : TaskType.t) (split : SplitType.t)
       (has_hallucination : option bool) (k : option Z) (n : Z) (g : rng),
       let first := Loader.get_samples rng seed sample self task_type split
                      has_hallucination k (Some n) g in
       let second := Loader.get_samples rng seed sample self task_type split
                       has_hallucination k (Some n) first.2 in
       second.1 = first.1)
  ∧ (∀ (samples : list RAGtruthSample.t) (k : Z) (random_seed : option Z) (g : rng),
       (Z.of_nat (length samples) <= k)%Z →
       Loader.random_sampling rng seed sample samples (Some k) random_seed g
       = (Returned samples, g))
  ∧ (∀ (self : Loader.RAGtruthLoader) (task_type : TaskType.t) (split : SplitType.t)
       (has_hallucination : option bool) (k : Z) (random_seed : option Z) (g : rng),
       (Z.of_nat (length (Loader.joined_samples self task_type split has_hallucination))
        <= k)%Z →
       Loader.get_samples rng seed sample self task_type split has_hallucination
         (Some k) random_seed g
       = (Returned (Loader.joined_samples self task_type split has_hallucination), g)).
Proof.
  split; [|split; [|split]].
  - intros. apply random_sampling_seeded.
  - intros. subst first second. unfold Loader.get_samples. apply random_sampling_seeded.
  - intros. apply random_sampling_whole. by right.
  - intros. unfold Loader.get_samples. apply random_sampling_whole. by right.
Qed.

Lemma C6_seeded_sampling_witness :
  (Loader.get_samples nat Scenario.toy_seed Scenario.toy_sample Scenario.loader
     TaskType.ALL SplitType.ALL None (Some 1%Z) (Some 42%Z) 0%nat).1
  = (Loader.get_samples nat Scenario.toy_seed Scenario.toy_sample Scenario.loader
       TaskType.ALL SplitType.ALL None (Some 1%Z) (Some 42%Z) 7%nat).1
  ∧ Loader.get_samples nat Scenario.toy_seed Scenario.toy_sample Scenario.loader
      TaskType.ALL SplitType.ALL None (Some 2%Z) (Some 42%Z) 0%nat
    = (Returned (Loader.joined_samples Scenario.loader TaskType.ALL SplitType.ALL None),
       0%nat).
Proof.
  destruct (C6_seeded_sampling_is_reproducible nat Scenario.toy_seed Scenario.toy_sample)
    as (H1 & _ & _ & H4).
  split.
  - apply (H1 (Loader.joined_samples Scenario.loader TaskType.ALL SplitType.ALL None)).
  - apply H4. vm_compute. discriminate.
Defined.

(** C8. Every sample [get_samples] returns pairs a loaded response with
    a loaded source record of the same [source_id]; hence a response
    whose [source_id] no source record carries is in no returned sample.
    [random.sample] is assumed to select among the population. *)
Theorem C8_samples_are_joined
    (rng : Type) (seed : Z → rng)
    (sample : rng → list RAGtruthSample.t → nat → list RAGtruthSample.t * rng)
    (self : Loader.RAGtruthLoader) (task_type : TaskType.t) (split : SplitType.t)
    (has_hallucination : option bool) (max_samples random_seed : option Z) (g : rng)
    (samples : list RAGtruthSample.t) :
  (∀ g population k, (sample g population k).1 ⊆ population) →
  (Loader.get_samples rng seed sample self task_type split has_hallucination
     max_samples random_seed g).1 = Returned samples →
  (∀ s, s ∈ samples →
        RAGtruthSource.source_id (RAGtruthSample.source s)
        = RAGtruthResponse.source_id (RAGtruthSample.response s)
        ∧ RAGtruthSample.source s ∈ Loader.sources self
        ∧ RAGtruthSample.response s ∈ Loader.responses self)
  ∧ (∀ response,
       (∀ source, source ∈ Loader.sources self →
                  RAGtruthSource.source_id source ≠ RAGtruthResponse.source_id response) →
       ∀ s, s ∈ samples → RAGtruthSample.response s ≠ response).
Proof.
  intros Hsample Hget.
  assert (Hjoined : ∀ s, s ∈ samples →
            RAGtruthSource.source_id (RAGtruthSample.source s)
            = RAGtruthResponse.source_id (RAGtruthSample.response s)
            ∧ RAGtruthSample.source s ∈ Loader.sources self
            ∧ RAGtruthSample.response s ∈ Loader.responses self).
  { intros s Hs. eapply joined_samples_joined.
    eapply random_sampling_subset; [exact Hsample|exact Hget|exact Hs]. }
  split; [exact Hjoined|].
  intros response Horphan s Hs <-.
  destruct (Hjoined s Hs) as (Hid & Hsrc & _).
  exact (Horphan _ Hsrc Hid).
Qed.

(** C10. With [max_samples] absent or zero, [get_samples] returns every
    joined sample of the filtered set and leaves the generator alone,
    whatever the seed; more generally a count [k >= 0] that is not a
    positive number below the size of the set leaves the set whole. *)
Theorem C10_zero_or_none_returns_all
    (rng : Type) (seed : Z → rng)
    (sample : rng → list RAGtruthSample.t → nat → list RAGtruthSample.t * rng)
    (self : Loader.RAGtruthLoader) (task_type : TaskType.t) (split : SplitType.t)
    (has_hallucination : option bool) (random_seed : option Z) (g : rng) :
  let all := Loader.joined_samples self task_type split has_hallucination in
  (∀ max_samples, max_samples = None ∨ max_samples = Some 0%Z →
     Loader.get_samples rng seed sample self task_type split has_hallucination
       max_samples random_seed g = (Returned all, g))
  ∧ (∀ k, (0 <= k)%Z → ¬ (0 < k < Z.of_nat (length all))%Z →
     Loader.get_samples rng seed sample self task_type split has_hallucination
       (Some k) random_seed g = (Returned all, g)).
Proof.
  intros all. split.
  - intros max_samples [-> | ->]; [reflexivity|].
    unfold Loader.get_samples. apply random_sampling_whole. by left.
  - intros k Hk Hn. unfold Loader.get_samples. apply random_sampling_whole.
    fold all. lia.
Qed.

Lemma C8_samples_are_joined_witness :
  (∀ s, s ∈ [ {| RAGtruthSample.source := Scenario.source_s1;
                 RAGtruthSample.response := Scenario.response_of "r3" "s1" [] |} ] →
        RAGtruthSource.source_id (RAGtruthSample.source s)
        = RAGtruthResponse.source_id (RAGtruthSample.response s)
        ∧ RAGtruthSample.source s ∈ Loader.sources Scenario.loader
        ∧ RAGtruthSample.response s ∈ Loader.responses Scenario.loader)
  ∧ (∀ response,
       (∀ source, source ∈ Loader.sources Scenario.loader →
                  RAGtruthSource.source_id source ≠ RAGtruthResponse.source_id response) →
       ∀ s, s ∈ [ {| RAGtruthSample.source := Scenario.source_s1;
                     RAGtruthSample.response := Scenario.response_of "r3" "s1" [] |} ] →
            RAGtruthSample.response s ≠ response).
Proof.
  apply (C8_samples_are_joined nat Scenario.toy_seed Scenario.toy_sample Scenario.loader
           TaskType.QA SplitType.TEST None (Some 1%Z) (Some 3%Z) 5%nat).
  - exact toy_sample_subset.
  - vm_compute. reflexivity.
Defined.

Lemma C10_zero_or_none_witness :
  Loader.get_samples nat Scenario.toy_seed Scenario.toy_sample Scenario.loader
    TaskType.ALL SplitType.ALL None (Some 0%Z) (Some 42%Z) 5%nat
  = (Returned (Loader.joined_samples Scenario.loader TaskType.ALL SplitType.ALL None),
     5%nat).
Proof.
  apply (proj1 (C10_zero_or_none_returns_all nat Scenario.toy_seed Scenario.toy_sample
                  Scenario.loader TaskType.ALL SplitType.ALL None (Some 42%Z) 5%nat)).
  right. reflexivity.
Defined.

(** ** Metrics *)

Lemma f1_score_cases (m : Harness.EvaluationMetrics) :
  let P := Harness.precision m in
  let R := Harness.recall m in
  (¬ (P + R == 0)%Q → (Harness.f1_score m == 2 * P * R / (P + R))%Q)
  ∧ ((P + R == 0)%Q → Harness.f1_score m = 0.0%Q).
Proof.
  intros P R. unfold Harness.f1_score. fold P R. split; intros H.
  - destruct (Qeq_bool (P + R) 0) eqn:E; [apply Qeq_bool_iff in E; contradiction|].
    unfold Qdiv. ring.
  - apply Qeq_bool_iff in H. rewrite H. reflexivity.
Qed.

(** C7. On every confusion tally, accuracy is [(TP+TN)/(TP+FP+TN+FN)],
    precision is [TP/(TP+FP)], recall is [TP/(TP+FN)] and f1 is
    [2 P R / (P + R)], each being 0.0 when its denominator is zero; the
    tally 3, 1, 4, 2 has accuracy 0.7, precision 0.75, recall 0.6 and
    f1 2/3, within 0.001 of 0.667; and a tally with [TP = FP = 0] has
    precision 0.0. *)
Theorem C7_metrics_of_a_tally (m : Harness.EvaluationMetrics) :
  let tp := Harness.true_positives m in
  let fp := Harness.false_positives m in
  let tn := Harness.true_negatives m in
  let fn := Harness.false_negatives m in
  let P := Harness.precision m in
  let R := Harness.recall m in
  ((tp + fp + tn + fn ≠ 0)%Z →
   (Harness.accuracy m == inject_Z (tp + tn) / inject_Z (tp + fp + tn + fn))%Q)
  ∧ ((tp + fp + tn + fn = 0)%Z → Harness.accuracy m = 0.0%Q)
  ∧ ((tp + fp ≠ 0)%Z → (P == inject_Z tp / inject_Z (tp + fp))%Q)
  ∧ ((tp + fp = 0)%Z → P = 0.0%Q)
  ∧ ((tp + fn ≠ 0)%Z → (R == inject_Z tp / inject_Z (tp + fn))%Q)
  ∧ ((tp + fn = 0)%Z → R = 0.0%Q)
  ∧ (¬ (P + R == 0)%Q → (Harness.f1_score m == 2 * P * R / (P + R))%Q)
  ∧ ((P + R == 0)%Q → Harness.f1_score m = 0.0%Q)
  ∧ (tp = 0%Z → fp = 0%Z → (P == 0)%Q)
  ∧ (let m0 := Scenario.tally_of 3 1 4 2 in
     (Harness.accuracy m0 == 0.7)%Q
     ∧ (Harness.precision m0 == 0.75)%Q
     ∧ (Harness.recall m0 == 0.6)%Q
     ∧ (Harness.f1_score m0 == 2 / 3)%Q
     ∧ (0.666 < Harness.f1_score m0 < 0.668)%Q).
Proof.
  intros tp fp tn fn P R.
  destruct (f1_score_cases m) as [Hf1 Hf0]. fold P R in Hf1, Hf0.
  subst tp fp tn fn P R.
  unfold Harness.accuracy, Harness.precision, Harness.recall, Harness.true_div in *.
  repeat apply conj; try exact Hf1; try exact Hf0; try (vm_compute; reflexivity).
  - intros H. apply Z.eqb_neq in H. rewrite H. reflexivity.
  - intros H. apply Z.eqb_eq in H. rewrite H. reflexivity.
  - intros H. apply Z.eqb_neq in H. rewrite H. reflexivity.
  - intros H. apply Z.eqb_eq in H. rewrite H. reflexivity.
  - intros H. apply Z.eqb_neq in H. rewrite H. reflexivity.
  - intros H. apply Z.eqb_eq in H. rewrite H. reflexivity.
  - intros -> ->. reflexivity.
Qed.

Lemma C7_metrics_witness :
  (Harness.accuracy (Scenario.tally_of 3 1 4 2) == inject_Z (3 + 4) / inject_Z (3 + 1 + 4 + 2))%Q
  ∧ Harness.precision (Scenario.tally_of 0 0 4 2) = 0.0%Q
  ∧ (Harness.f1_score (Scenario.tally_of 3 1 4 2)
     == 2 * Harness.precision (Scenario.tally_of 3 1 4 2)
          * Harness.recall (Scenario.tally_of 3 1 4 2)
        / (Harness.precision (Scenario.tally_of 3 1 4 2)
           + Harness.recall (Scenario.tally_of 3 1 4 2)))%Q
  ∧ Harness.f1_score (Scenario.tally_of 0 0 4 0) = 0.0%Q.
Proof.
  destruct (C7_metrics_of_a_tally (Scenario.tally_of 3 1 4 2))
    as (Hacc & _ & _ & _ & _ & _ & Hf1 & _).
  destruct (C7_metrics_of_a_tally (Scenario.tally_of 0 0 4 2))
    as (_ & _ & _ & Hp0 & _).
  destruct (C7_metrics_of_a_tally (Scenario.tally_of 0 0 4 0))
    as (_ & _ & _ & _ & _ & _ & _ & Hf0 & _).
  split; [|split; [|split]].
  - apply Hacc. vm_compute. discriminate.
  - apply Hp0. reflexivity.
  - apply Hf1. vm_compute. discriminate.
  - apply Hf0. vm_compute. reflexivity.
Defined.

(** ** Threshold direction in the two harnesses *)

Lemma large_scale_predict_hhem (self : LargeScale.LargeScaleEvaluator)
    (r : IntegratedEvaluationResult) (s : Q) :
  hhem_score r = Some s →
  ∃ predicted,
    LargeScale.predict self HHEM_ONLY r = Some (s, predicted)
    ∧ (predicted = true ↔ (s < LargeScale.hallucination_threshold self)%Q).
Proof.
  intros H. unfold LargeScale.predict. simpl. rewrite H.
  eexists. split; [reflexivity|]. apply Qlt_bool_iff.
Qed.

Lemma large_scale_predict_ensemble (self : LargeScale.LargeScaleEvaluator)
    (method : EvaluationMethod) (r : IntegratedEvaluationResult) (e : Q) :
  method = BOTH ∨ method = ENSEMBLE →
  ensemble_score r = Some e →
  ∃ predicted,
    LargeScale.predict self method r = Some (e, predicted)
    ∧ (predicted = true ↔ (LargeScale.hallucination_threshold self < e)%Q).
Proof.
  intros Hm H. unfold LargeScale.predict.
  destruct Hm as [-> | ->]; simpl; rewrite H;
    (eexists; split; [reflexivity|]); apply Qlt_bool_iff.
Qed.

Lemma harness_predict_ensemble (self : Harness.RAGtruthEvaluator)
    (method : EvaluationMethod) (r : IntegratedEvaluationResult) (e : Q) :
  method = BOTH ∨ method = ENSEMBLE →
  ensemble_score r = Some e →
  ∃ predicted,
    Harness.predict self method r = (predicted, Some e)
    ∧ (predicted = true ↔ (Harness.hallucination_threshold self < e)%Q).
Proof.
  intros Hm H. unfold Harness.predict.
  destruct Hm as [-> | ->]; simpl; rewrite H;
    (eexists; split; [reflexivity|]); apply Qlt_bool_iff.
Qed.

(** In [evaluate_on_dataset] a consistency score predicts a
    hallucination when it is above the threshold, the opposite of
    [evaluate_samples]. *)
Lemma harness_predict_hhem (self : Harness.RAGtruthEvaluator)
    (r : IntegratedEvaluationResult) (s : Q) :
  hhem_score r = Some s →
  ∃ predicted,
    Harness.predict self HHEM_ONLY r = (predicted, Some s)
    ∧ (predicted = true ↔ (Harness.hallucination_threshold self < s)%Q).
Proof.
  intros H. unfold Harness.predict. simpl. rewrite H.
  eexists. split; [reflexivity|]. apply Qlt_bool_iff.
Qed.

(** C1, at the input where the code departs from it. The consistency
    backend scores the candidate 0.1, below the threshold 0.5 of both
    harnesses; [evaluate_samples] predicts a hallucination, while
    [evaluate_on_dataset] predicts none and, the sample being labelled
    hallucinated, counts a false negative. *)
Theorem C1_consistency_threshold_direction :
  ∃ r, evaluate Scenario.loads_not_json Scenario.float_of_str Scenario.hhem_only_evaluator
         Scenario.candidate Scenario.references HHEM_ONLY Qwen.QWEN_TURBO (utf8 "hhem_v2.3")
       = Returned r
       ∧ success r = true
       ∧ hhem_score r = Some 0.1%Q
       ∧ (0.1 < Harness.hallucination_threshold Harness.default_evaluator)%Q
       ∧ (0.1 < LargeScale.hallucination_threshold LargeScale.default_evaluator)%Q
       ∧ LargeScale.predict LargeScale.default_evaluator HHEM_ONLY r = Some (0.1%Q, true)
       ∧ Harness.predict Harness.default_evaluator HHEM_ONLY r = (false, Some 0.1%Q)
       ∧ Harness.false_negatives
           (Harness.evaluate_one Harness.default_evaluator HHEM_ONLY
              Harness.new_metrics true r) = 1%Z
       ∧ Harness.true_positives
           (Harness.evaluate_one Harness.default_evaluator HHEM_ONLY
              Harness.new_metrics true r) = 0%Z
       ∧ LargeScale.true_positives
           (LargeScale.evaluate_one LargeScale.default_evaluator HHEM_ONLY
              {| LargeScale.total_samples := 1; LargeScale.successful_evaluations := 0;
                 LargeScale.true_positives := 0; LargeScale.false_positives := 0;
                 LargeScale.true_negatives := 0; LargeScale.false_negatives := 0;
                 LargeScale.hallucination_scores := [];
                 LargeScale.non_hallucination_scores := [] |} true r) = 1%Z.
Proof.
  eexists. split; [vm_compute; reflexivity|].
  repeat split.
Qed.

(** * Further properties *)

(** ** Stripping *)

Lemma lstrip_split (s : str) :
  ∃ ws, s = ws ++ lstrip s ∧ whitespace_only ws = true.
Proof.
  induction s as [|c r (ws & IH & Hws)]; [by exists []|]. simpl.
  destruct (py_isspace c) eqn:E.
  - exists (c :: ws). simpl. rewrite E, Hws. split; [by f_equal|done].
  - by exists [].
Qed.

Lemma lstrip_fixed (c : N) (r : str) : py_isspace c = false → lstrip (c :: r) = c :: r.
Proof. intros H. simpl. by rewrite H. Qed.

Lemma lstrip_lstrip (s : str) : lstrip (lstrip s) = lstrip s.
Proof.
  destruct (lstrip s) as [|c r] eqn:E; [done|].
  apply lstrip_fixed. by apply lstrip_head in E.
Qed.

Lemma strip_strip (s : str) : strip (strip s) = strip s.
Proof.
  unfold strip, rstrip.
  set (a := lstrip s). set (b := lstrip (rev a)).
  assert (Hb : lstrip b = b) by apply lstrip_lstrip.
  assert (Ha : lstrip (rev b) = rev b).
  { destruct (lstrip_split (rev a)) as (ws & Hsplit & _). fold b in Hsplit.
    apply (f_equal (@rev N)) in Hsplit. rewrite rev_involutive, rev_app_distr in Hsplit.
    destruct (rev b) as [|c t] eqn:E; [done|].
    apply lstrip_fixed. simpl in Hsplit.
    apply (lstrip_head s (t ++ rev ws)). exact Hsplit. }
  rewrite Ha, rev_involutive, Hb. reflexivity.
Qed.

(** A text that is not blank is [stripped] once stripped. *)
Lemma strip_stripped (s : str) : whitespace_only s = false → HHEM.stripped (strip s).
Proof.
  intros H. split; [|apply strip_strip].
  intros E. apply strip_nil in E. congruence.
Qed.

Lemma app_nonempty (a b : str) : a ≠ [] → a ++ b ≠ [].
Proof. by destruct a. Qed.

(** Closes a goal [msg ≠ []] where [msg] starts with a literal. *)
Ltac literal_nonempty :=
  repeat (apply app_nonempty); vm_compute; discriminate.

(** ** The consistency backend *)

Lemma some_reference_text (source_texts : list str) :
  negb (truthy source_texts)
  || negb (existsb (fun text => truthy (strip text)) source_texts) = false →
  Exists (fun text => whitespace_only text = false) source_texts.
Proof.
  intros E.
  assert (H : ¬ Forall (fun text => whitespace_only text = true) source_texts).
  { intros HF. apply no_reference_text in HF. congruence. }
  clear E. induction source_texts as [|t l IH]; [by destruct H|].
  destruct (whitespace_only t) eqn:Et; [|by left].
  right. apply IH. intros HF. apply H. by constructor.
Qed.

(** The request body for inputs that passed the checks. *)
Lemma evaluate_consistency_payload
    (requests_post : HHEM.payload → outcome HHEM.http_response)
    (generated_text : str) (source_texts : list str) (model_name : str) :
  whitespace_only generated_text = false →
  Exists (fun text => whitespace_only text = false) source_texts →
  let payload :=
    {| HHEM.model_name := model_name;
       HHEM.generated_text := strip generated_text;
       HHEM.source_texts :=
         map strip (filter (fun text => truthy (strip text) = true) source_texts) |} in
  HHEM.clean_payload model_name payload
  ∧ HHEM.evaluate_consistency requests_post generated_text source_texts model_name
    = try_except
        (response ← requests_post payload;
         if (HHEM.status_code response =? 200)%Z then
           result ← HHEM.json response;
           Returned {| HHEM.score := dict_get result (utf8 "score") 0.0%Q;
                       HHEM.success := true;
                       HHEM.error_message := None |}
         else
           Returned (HHEM.failure (utf8 "HTTP " ++ str_of_Z (HHEM.status_code response)
                                     ++ utf8 ": " ++ HHEM.text response)))
        (fun e =>
           match e with
           | Timeout _ => Returned (HHEM.failure (utf8 "请求超时"))
           | RequestException m => Returned (HHEM.failure (utf8 "请求异常: " ++ m))
           | JSONDecodeError m => Returned (HHEM.failure (utf8 "响应JSON解析错误: " ++ m))
           | _ => Returned (HHEM.failure (utf8 "未知错误: " ++ exn_msg e))
           end).
Proof.
  intros Hg Hs payload. split.
  - split; [done|]. split; [by apply strip_stripped|]. simpl. split.
    + apply Exists_exists in Hs as (t & Ht & Hw).
      intros E. apply map_eq_nil in E.
      assert (Hin : t ∈ filter (fun text => truthy (strip text) = true) source_texts).
      { apply list_elem_of_filter. split; [|done].
        by rewrite truthy_strip, Hw. }
      rewrite E in Hin. by apply elem_of_nil in Hin.
    + apply Forall_forall. intros x Hx.
      apply list_elem_of_In, in_map_iff in Hx as (t & <- & Ht).
      apply list_elem_of_In, list_elem_of_filter in Ht as [Ht _].
      apply strip_stripped. rewrite truthy_strip in Ht. by destruct (whitespace_only t).
  - unfold HHEM.evaluate_consistency.
    rewrite truthy_strip, Hg. simpl negb. cbv iota.
    destruct (negb (truthy source_texts)
              || negb (existsb (fun text => truthy (strip text)) source_texts)) eqn:E;
      [|reflexivity].
    apply no_reference_text in E. apply Exists_exists in Hs as (t & Ht & Hw).
    rewrite Forall_forall in E. rewrite (E t Ht) in Hw. discriminate.
Qed.

(** X1. The consistency service is consulted on clean request bodies
    only: the candidate stripped and not empty, at least one source
    text, every source text stripped and not empty.  Two services that
    agree on such bodies give the same response on every input. *)
Theorem hhem_service_sees_clean_payloads
    (post post' : HHEM.payload → outcome HHEM.http_response)
    (generated_text : str) (source_texts : list str) (model_name : str) :
  (∀ p, HHEM.clean_payload model_name p → post p = post' p) →
  HHEM.evaluate_consistency post generated_text source_texts model_name
  = HHEM.evaluate_consistency post' generated_text source_texts model_name.
Proof.
  intros Hagree.
  destruct (whitespace_only generated_text) eqn:Hg.
  { unfold HHEM.evaluate_consistency. by rewrite truthy_strip, Hg. }
  destruct (negb (truthy source_texts)
            || negb (existsb (fun text => truthy (strip text)) source_texts)) eqn:E.
  { unfold HHEM.evaluate_consistency. by rewrite truthy_strip, Hg, E. }
  assert (Hs' := some_reference_text source_texts E).
  destruct (evaluate_consistency_payload post generated_text source_texts model_name Hg Hs')
    as [Hclean ->].
  destruct (evaluate_consistency_payload post' generated_text source_texts model_name Hg Hs')
    as [_ ->].
  by rewrite (Hagree _ Hclean).
Qed.

Lemma hhem_service_sees_clean_payloads_witness :
  HHEM.evaluate_consistency (Scenario.hhem_answering 0.1)
    Scenario.candidate Scenario.references (utf8 "hhem_v2.3")
  = HHEM.evaluate_consistency Scenario.hhem_refusing_empty
      Scenario.candidate Scenario.references (utf8 "hhem_v2.3").
Proof.
  apply hhem_service_sees_clean_payloads.
  intros p (_ & _ & Hne & _). unfold Scenario.hhem_refusing_empty.
  by rewrite bool_decide_eq_false_2.
Defined.

(** Destructs, innermost first, the scrutinees of the goal that hold no
    further case analysis. *)
Ltac innermost_case :=
  match goal with
  | |- context [match ?x with _ => _ end] =>
    lazymatch x with
    | context [match _ with _ => _ end] => fail
    | _ => destruct x eqn:?
    end
  end.

(** X2. The consistency backend never raises; a failed response has
    the score 0.0 and a non-empty error message, a successful one has no
    error message. *)
Theorem hhem_response_invariants
    (requests_post : HHEM.payload → outcome HHEM.http_response)
    (generated_text : str) (source_texts : list str) (model_name : str) :
  ∃ r, HHEM.evaluate_consistency requests_post generated_text source_texts model_name
       = Returned r
       ∧ (HHEM.success r = true → HHEM.error_message r = None)
       ∧ (HHEM.success r = false →
          HHEM.score r = 0.0%Q ∧ ∃ msg, HHEM.error_message r = Some msg ∧ msg ≠ []).
Proof.
  unfold HHEM.evaluate_consistency, try_except, HHEM.failure, mbind, outcome_bind.
  repeat (cbv beta iota; innermost_case); cbv beta iota;
    (eexists; split; [reflexivity|]); cbn [HHEM.success HHEM.error_message HHEM.score];
    (split; [try done|]); try discriminate;
    intros _; (split; [reflexivity|]); eexists; (split; [reflexivity|]);
    literal_nonempty.
Qed.

Lemma dict_get_missing {V} (d : list (str * V)) (key : str) (default : V) :
  key ∉ d.*1 → dict_get d key default = default.
Proof.
  unfold dict_get. revert default.
  induction d as [|[k v] d IH]; intros default Hk; [done|]. simpl.
  apply not_elem_of_cons in Hk as [Hne Hk]. simpl in Hne.
  rewrite decide_False by done. by apply IH.
Qed.

(** X3. On inputs that pass the checks, the consistency backend
    succeeds only if the service returned a response with status 200
    whose [json()] did not raise; and when the service returns, with
    status 200, a body that is an object of numbers, the call succeeds
    with the field [score] of the body, 0.0 when the body has no such
    field. *)
Theorem hhem_success_follows_service_answer
    (requests_post : HHEM.payload → outcome HHEM.http_response)
    (generated_text : str) (source_texts : list str) (model_name : str) :
  whitespace_only generated_text = false →
  Exists (fun text => whitespace_only text = false) source_texts →
  let payload :=
    {| HHEM.model_name := model_name;
       HHEM.generated_text := strip generated_text;
       HHEM.source_texts :=
         map strip (filter (fun text => truthy (strip text) = true) source_texts) |} in
  ∃ r, HHEM.evaluate_consistency requests_post generated_text source_texts model_name
       = Returned r
       ∧ (HHEM.success r = true →
          ∃ response,
            requests_post payload = Returned response
            ∧ HHEM.status_code response = 200%Z
            ∧ ∀ e, HHEM.json response ≠ Raised e)
       ∧ (∀ response body,
            requests_post payload = Returned response →
            HHEM.status_code response = 200%Z →
            HHEM.json response = Returned body →
            HHEM.success r = true
            ∧ HHEM.score r = dict_get body (utf8 "score") 0.0%Q
            ∧ (utf8 "score" ∉ body.*1 → HHEM.score r = 0.0%Q)).
Proof.
  intros Hg Hs payload.
  destruct (evaluate_consistency_payload requests_post generated_text source_texts
              model_name Hg Hs) as [_ ->].
  fold payload. unfold try_except, mbind, outcome_bind.
  destruct (requests_post payload) as [response|e] eqn:Epost.
  - destruct (HHEM.status_code response =? 200)%Z eqn:Estatus.
    + apply Z.eqb_eq in Estatus.
      destruct (HHEM.json response) as [body|e] eqn:Ejson.
      * eexists. split; [reflexivity|]. cbn [HHEM.success HHEM.score]. split.
        -- intros _. exists response. split; [done|]. split; [done|].
           intros e. rewrite Ejson. discriminate.
        -- intros response' body' [= <-] _ Hbody. rewrite Ejson in Hbody.
           injection Hbody as <-. split; [done|]. split; [done|].
           apply dict_get_missing.
      * destruct e; (eexists; split; [reflexivity|]); cbn [HHEM.success HHEM.failure];
          (split; [discriminate|]);
          intros response' body' [= <-] _ Hbody; congruence.
    + apply Z.eqb_neq in Estatus.
      eexists. split; [reflexivity|]. cbn [HHEM.success HHEM.failure]. split.
      * discriminate.
      * intros response' body' [= <-] H200. done.
  - destruct e; (eexists; split; [reflexivity|]); cbn [HHEM.success HHEM.failure];
      (split; [discriminate|]);
      intros response' body' Hr; discriminate.
Qed.

Lemma hhem_success_follows_service_answer_witness :
  ∃ r, HHEM.evaluate_consistency
         (fun _ => Returned {| HHEM.status_code := 200; HHEM.text := [];
                               HHEM.json := Returned [(utf8 "detail", 1%Q)] |})
         Scenario.candidate Scenario.references (utf8 "hhem_v2.3") = Returned r
       ∧ HHEM.success r = true
       ∧ HHEM.score r = 0.0%Q.
Proof.
  destruct (hhem_success_follows_service_answer
              (fun _ => Returned {| HHEM.status_code := 200; HHEM.text := [];
                                    HHEM.json := Returned [(utf8 "detail", 1%Q)] |})
              Scenario.candidate Scenario.references (utf8 "hhem_v2.3"))
    as (r & Hr & _ & Hscore).
  - vm_compute. reflexivity.
  - apply Exists_cons_hd. vm_compute. reflexivity.
  - exists r. split; [exact Hr|].
    destruct (Hscore _ _ eq_refl eq_refl eq_refl) as (Hs & _ & H0).
    split; [exact Hs|]. apply H0.
    vm_compute. intros H. apply list_elem_of_In in H. simpl in H.
    destruct H as [H|[]]. discriminate.
Defined.

(** ** The judgment backend *)

(** X4. The judgment backend never raises; its response has an error
    message exactly when it is a failure, the message is not empty, and
    a failure carries the score 1.0 (an input was blank; the confidence
    is then 1.0 for a blank candidate and 0.0 for blank references) or
    the score 0.5 with confidence 0.0 (the service or the decoding
    failed). *)
Theorem qwen_response_invariants
    (generation_call : Qwen.request → outcome Qwen.generation_response)
    (json_loads : str → outcome json_value) (float_of_str : str → outcome Q)
    (generated_text : str) (source_texts : list str)
    (model : Qwen.QwenModel) (temperature : Q) (max_tokens : Z) :
  ∃ r, Qwen.evaluate_hallucination generation_call json_loads float_of_str
         generated_text source_texts model temperature max_tokens = Returned r
       ∧ (Qwen.success r = true ↔ Qwen.error_message r = None)
       ∧ (Qwen.success r = false →
          (∃ msg, Qwen.error_message r = Some msg ∧ msg ≠ [])
          ∧ (Qwen.hallucination_score r = 1.0%Q ∧ Qwen.confidence r = 1.0%Q
               ∧ whitespace_only generated_text = true
             ∨ Qwen.hallucination_score r = 1.0%Q ∧ Qwen.confidence r = 0.0%Q
               ∧ Forall (fun text => whitespace_only text = true) source_texts
             ∨ Qwen.hallucination_score r = 0.5%Q ∧ Qwen.confidence r = 0.0%Q)).
Proof.
  unfold Qwen.evaluate_hallucination.
  rewrite truthy_strip.
  destruct (whitespace_only generated_text) eqn:Hg; cbn [negb].
  { eexists. split; [reflexivity|]. cbn. split; [done|]. intros _. split.
    - eexists. split; [reflexivity|]. literal_nonempty.
    - by left. }
  destruct (negb (truthy source_texts)
            || negb (existsb (fun text => truthy (strip text)) source_texts)) eqn:E.
  { apply no_reference_text in E.
    eexists. split; [reflexivity|]. cbn. split; [done|]. intros _. split.
    - eexists. split; [reflexivity|]. literal_nonempty.
    - right. by left. }
  unfold try_except, mbind, outcome_bind, Qwen._parse_text_response, Qwen.json_get,
    Qwen.py_float.
  repeat (cbv beta iota; innermost_case); cbv beta iota;
    (eexists; split; [reflexivity|]);
    cbn [Qwen.success Qwen.error_message Qwen.hallucination_score Qwen.confidence];
    (split; [done|]); try discriminate;
    intros _; (split; [eexists; split; [reflexivity|literal_nonempty]|]);
    right; right; done.
Qed.

(** What the backend returns once the service answered with status 200
    and a first choice [content]: the decoding of the stripped text,
    the keyword estimate on [JSONDecodeError], a failure on any other
    exception. *)
Lemma evaluate_hallucination_answer
    (generation_call : Qwen.request → outcome Qwen.generation_response)
    (json_loads : str → outcome json_value) (float_of_str : str → outcome Q)
    (generated_text : str) (source_texts : list str)
    (model : Qwen.QwenModel) (temperature : Q) (max_tokens : Z)
    (response : Qwen.generation_response) (content : str) (rest : list str) :
  whitespace_only generated_text = false →
  Exists (fun text => whitespace_only text = false) source_texts →
  generation_call
    {| Qwen.model := model; Qwen.generated_text := generated_text;
       Qwen.source_texts := source_texts; Qwen.temperature := temperature;
       Qwen.max_tokens := max_tokens |} = Returned response →
  Qwen.status_code response = 200%Z →
  Qwen.choices response = Some (content :: rest) →
  Qwen.evaluate_hallucination generation_call json_loads float_of_str
    generated_text source_texts model temperature max_tokens
  = try_except
      match
        (eval_result ← json_loads (strip content);
         hs ← Qwen.json_get eval_result "hallucination_score" (JNum 0.5%Q)
              ≫= Qwen.py_float float_of_str;
         cf ← Qwen.json_get eval_result "confidence" (JNum 0.5%Q)
              ≫= Qwen.py_float float_of_str;
         ex ← Qwen.json_get eval_result "explanation" (JStr (utf8 "评估完成"));
         Returned {| Qwen.hallucination_score := hs;
                     Qwen.confidence := cf;
                     Qwen.explanation := ex;
                     Qwen.success := true;
                     Qwen.error_message := None |})
      with
      | Raised (JSONDecodeError _) => Returned (Qwen._parse_text_response (strip content))
      | r => r
      end
      (fun e =>
         Returned {| Qwen.hallucination_score := 0.5%Q;
                     Qwen.confidence := 0.0%Q;
                     Qwen.explanation := JStr (utf8 "调用异常");
                     Qwen.success := false;
                     Qwen.error_message := Some (utf8 "调用异常: " ++ exn_msg e) |}).
Proof.
  intros Hg Hs Hcall Hstatus Hchoices.
  unfold Qwen.evaluate_hallucination.
  rewrite truthy_strip, Hg. simpl negb. cbv iota.
  destruct (negb (truthy source_texts)
            || negb (existsb (fun text => truthy (strip text)) source_texts)) eqn:E.
  { apply no_reference_text in E. apply Exists_exists in Hs as (t & Ht & Hw).
    rewrite Forall_forall in E. rewrite (E t Ht) in Hw. discriminate. }
  rewrite Hcall. simpl. rewrite Hstatus, Hchoices. reflexivity.
Qed.





(** X6. An answer that decodes to a JSON value other than an object,
    or to an object whose [hallucination_score] is null, an array or an
    object, does not reach the keyword estimate: the response is a
    failure with score 0.5, confidence 0.0 and a message that starts
    with the prefix of the outer handler. *)
Theorem qwen_malformed_structure_is_a_failure
    (generation_call : Qwen.request → outcome Qwen.generation_response)
    (json_loads : str → outcome json_value) (float_of_str : str → outcome Q)
    (generated_text : str) (source_texts : list str)
    (model : Qwen.QwenModel) (temperature : Q) (max_tokens : Z)
    (response : Qwen.generation_response) (content : str) (rest : list str)
    (v : json_value) :
  whitespace_only generated_text = false →
  Exists (fun text => whitespace_only text = false) source_texts →
  generation_call
    {| Qwen.model := model; Qwen.generated_text := generated_text;
       Qwen.source_texts := source_texts; Qwen.temperature := temperature;
       Qwen.max_tokens := max_tokens |} = Returned response →
  Qwen.status_code response = 200%Z →
  Qwen.choices response = Some (content :: rest) →
  json_loads (strip content) = Returned v →
  (∀ items, v = JObj items →
     match dict_get items (utf8 "hallucination_score") (JNum 0.5%Q) with
     | JNull | JArr _ | JObj _ => True
     | _ => False
     end) →
  ∃ msg,
    Qwen.evaluate_hallucination generation_call json_loads float_of_str
      generated_text source_texts model temperature max_tokens
    = Returned {| Qwen.hallucination_score := 0.5%Q;
                  Qwen.confidence := 0.0%Q;
                  Qwen.explanation := JStr (utf8 "调用异常");
                  Qwen.success := false;
                  Qwen.error_message := Some (utf8 "调用异常: " ++ msg) |}.
Proof.
  intros Hg Hs Hcall Hstatus Hchoices Hloads Hv.
  rewrite (evaluate_hallucination_answer _ _ _ _ _ _ _ _ _ _ _ Hg Hs Hcall Hstatus
             Hchoices).
  rewrite Hloads. cbn [mbind outcome_bind].
  destruct v as [| | | | |items]; try (eexists; reflexivity).
  specialize (Hv items eq_refl). cbn [Qwen.json_get mbind outcome_bind].
  destruct (dict_get items (utf8 "hallucination_score") (JNum 0.5%Q));
    try contradiction; eexists; reflexivity.
Qed.

Lemma qwen_malformed_structure_witness :
  ∃ msg,
    Qwen.evaluate_hallucination (Scenario.qwen_answering (utf8 "[1]"))
      Scenario.loads_array Scenario.float_of_str Scenario.candidate Scenario.references
      Qwen.QWEN_TURBO 0.1%Q 2000
    = Returned {| Qwen.hallucination_score := 0.5%Q;
                  Qwen.confidence := 0.0%Q;
                  Qwen.explanation := JStr (utf8 "调用异常");
                  Qwen.success := false;
                  Qwen.error_message := Some (utf8 "调用异常: " ++ msg) |}.
Proof.
  apply (qwen_malformed_structure_is_a_failure
           (Scenario.qwen_answering (utf8 "[1]")) Scenario.loads_array
           Scenario.float_of_str Scenario.candidate Scenario.references
           Qwen.QWEN_TURBO 0.1%Q 2000
           {| Qwen.status_code := 200; Qwen.message := None;
              Qwen.choices := Some [utf8 "[1]"] |}
           (utf8 "[1]") [] (JArr [JNum 1])).
  - vm_compute. reflexivity.
  - apply Exists_cons_hd. vm_compute. reflexivity.
  - reflexivity.
  - reflexivity.
  - reflexivity.
  - reflexivity.
  - intros items H. discriminate.
Defined.

(** ** The integrated evaluator, all methods *)

(** [_compute_ensemble_result] leaves the record as it is or assigns the
    three ensemble fields. *)
Lemma compute_ensemble_cases (r : IntegratedEvaluationResult) :
  ((collect_scores r).1.1 = [] ∧ _compute_ensemble_result r = r)
  ∨ ((collect_scores r).1.1 ≠ []
     ∧ _compute_ensemble_result r
       = set_ensemble r
           (ensemble_of (collect_scores r).1.1 (collect_scores r).1.2).1
           (ensemble_of (collect_scores r).1.1 (collect_scores r).1.2).2
           (_interpret_ensemble_score
              (ensemble_of (collect_scores r).1.1 (collect_scores r).1.2).1
              (length (collect_scores r).1.1))).
Proof.
  unfold _compute_ensemble_result.
  destruct (collect_scores r) as [[scores confidences] interpretations]. cbn [fst snd].
  destruct scores as [|s scores]; [by left|right].
  split; [done|]. cbn [truthy]. by destruct (ensemble_of _ _).
Qed.

(** The lists collected from a record, by the backends that
    contributed. *)
Lemma collect_scores_cases (r : IntegratedEvaluationResult) :
  let hhem := if hhem_success r then hhem_score r else None in
  let qwen := if qwen_success r then qwen_hallucination_score r else None in
  (collect_scores r).1.1
  = match hhem, qwen with
    | Some h, Some q => [(1.0 - h)%Q; q]
    | Some h, None => [(1.0 - h)%Q]
    | None, Some q => [q]
    | None, None => []
    end
  ∧ (collect_scores r).1.2
    = match hhem, qwen with
      | Some h, Some q => [0.9%Q; confidence_or (qwen_confidence r) 0.7%Q]
      | Some h, None => [0.9%Q]
      | None, Some q => [confidence_or (qwen_confidence r) 0.7%Q]
      | None, None => []
      end.
Proof.
  unfold collect_scores.
  destruct (hhem_success r), (hhem_score r), (qwen_success r),
    (qwen_hallucination_score r); split; reflexivity.
Qed.

(** Case analysis of an [evaluate] call with a given method: the
    evaluator's two backends, the responses of those present, their
    success flags. *)
Ltac evaluate_cases json_loads float_of_str self generated_text source_texts
                    qwen_model hhem_model :=
  unfold evaluate, _evaluate_hhem, _evaluate_qwen,
    hhem_succeeded, qwen_succeeded, _evaluate_hhem, _evaluate_qwen;
  let hhem := fresh "hhem" in
  let qwen := fresh "qwen" in
  let hr := fresh "hr" in
  let qr := fresh "qr" in
  let Hhr := fresh "Hhr" in
  let Hqr := fresh "Hqr" in
  destruct self as [[hhem|] [qwen|]]; cbn [hhem_evaluator qwen_evaluator];
  try (destruct (evaluate_consistency_returns hhem generated_text source_texts hhem_model)
         as [hr Hhr]; rewrite ?Hhr;
       destruct hr as [? [|] ?]);
  try (destruct (evaluate_hallucination_returns qwen json_loads float_of_str
                   generated_text source_texts qwen_model 0.1%Q 2000)
         as [qr Hqr]; rewrite ?Hqr;
       destruct qr as [? ? ? [|] ?]);
  simpl.

(** X7. A call with a single-backend method does not involve the other
    backend: the outcome is the same whatever the other backend is (and,
    for [HHEM_ONLY], whatever the JSON decoder); the overall success is
    that of the backend asked, and the fields of the other backend and
    of the ensemble stay empty. *)
Theorem single_method_ignores_other_backend :
  (∀ (json_loads json_loads' : str → outcome json_value)
     (float_of_str float_of_str' : str → outcome Q)
     hhem qwen qwen' (generated_text : str) (source_texts : list str)
     (qwen_model qwen_model' : Qwen.QwenModel) (hhem_model : str),
     evaluate json_loads float_of_str
       {| hhem_evaluator := hhem; qwen_evaluator := qwen |}
       generated_text source_texts HHEM_ONLY qwen_model hhem_model
     = evaluate json_loads' float_of_str'
         {| hhem_evaluator := hhem; qwen_evaluator := qwen' |}
         generated_text source_texts HHEM_ONLY qwen_model' hhem_model)
  ∧ (∀ (json_loads : str → outcome json_value) (float_of_str : str → outcome Q)
       hhem hhem' qwen (generated_text : str) (source_texts : list str)
       (qwen_model : Qwen.QwenModel) (hhem_model hhem_model' : str),
       evaluate json_loads float_of_str
         {| hhem_evaluator := hhem; qwen_evaluator := qwen |}
         generated_text source_texts QWEN_ONLY qwen_model hhem_model
       = evaluate json_loads float_of_str
           {| hhem_evaluator := hhem'; qwen_evaluator := qwen |}
           generated_text source_texts QWEN_ONLY qwen_model hhem_model')
  ∧ (∀ (json_loads : str → outcome json_value) (float_of_str : str → outcome Q)
       (self : IntegratedHallucinationEvaluator)
       (generated_text : str) (source_texts : list str)
       (qwen_model : Qwen.QwenModel) (hhem_model : str),
       (∃ r, evaluate json_loads float_of_str self generated_text source_texts
               HHEM_ONLY qwen_model hhem_model = Returned r
             ∧ success r = hhem_succeeded self generated_text source_texts hhem_model
             ∧ hhem_success r = success r
             ∧ qwen_success r = false
             ∧ qwen_hallucination_score r = None
             ∧ qwen_confidence r = None
             ∧ ensemble_score r = None)
       ∧ (∃ r, evaluate json_loads float_of_str self generated_text source_texts
                 QWEN_ONLY qwen_model hhem_model = Returned r
               ∧ success r = qwen_succeeded json_loads float_of_str self generated_text
                               source_texts qwen_model
               ∧ qwen_success r = success r
               ∧ hhem_success r = false
               ∧ hhem_score r = None
               ∧ ensemble_score r = None)).
Proof.
  split; [|split].
  - intros. reflexivity.
  - intros. reflexivity.
  - intros. split.
    + evaluate_cases json_loads float_of_str self generated_text source_texts
        qwen_model hhem_model;
        eexists; (split; [reflexivity|]); repeat split.
    + evaluate_cases json_loads float_of_str self generated_text source_texts
        qwen_model hhem_model;
        eexists; (split; [reflexivity|]); repeat split.
Qed.

(** X8. The result of [evaluate] lists one error message for each
    backend the method asks for that did not succeed (absent or failed),
    and no other; every message is a non-empty text; so an unsuccessful
    result always carries at least one message. *)
Theorem error_messages_match_failed_backends
    (json_loads : str → outcome json_value) (float_of_str : str → outcome Q)
    (self : IntegratedHallucinationEvaluator)
    (generated_text : str) (source_texts : list str)
    (method : EvaluationMethod) (qwen_model : Qwen.QwenModel) (hhem_model : str) :
  ∃ r, evaluate json_loads float_of_str self generated_text source_texts
         method qwen_model hhem_model = Returned r
       ∧ length (error_messages r)
         = ((if bool_decide (method ∈ [HHEM_ONLY; BOTH; ENSEMBLE]) && negb (hhem_success r)
             then 1 else 0)
            + (if bool_decide (method ∈ [QWEN_ONLY; BOTH; ENSEMBLE]) && negb (qwen_success r)
               then 1 else 0))%nat
       ∧ Forall (fun msg => msg ≠ []) (error_messages r)
       ∧ (success r = false → error_messages r ≠ []).
Proof.
  destruct method;
    evaluate_cases json_loads float_of_str self generated_text source_texts
      qwen_model hhem_model;
    (eexists; split; [reflexivity|]);
    repeat match goal with
           | |- context [_compute_ensemble_result ?r] =>
             destruct (compute_ensemble_cases r) as [[_ ->]|[_ ->]]
           end;
    simpl;
    (split; [reflexivity|]);
    (split; [repeat constructor; literal_nonempty|]);
    first [discriminate | intros _; discriminate].
Qed.

(** X9. In the result of [evaluate] the score, confidence and
    interpretation of a backend are filled exactly when that backend
    succeeded, the explanation is filled only when the judgment backend
    succeeded (a successful answer may hold a null explanation), and the
    ensemble fields are filled exactly when the method is [ENSEMBLE] and
    a backend succeeded. *)
Theorem result_fields_follow_success
    (json_loads : str → outcome json_value) (float_of_str : str → outcome Q)
    (self : IntegratedHallucinationEvaluator)
    (generated_text : str) (source_texts : list str)
    (method : EvaluationMethod) (qwen_model : Qwen.QwenModel) (hhem_model : str) :
  ∃ r, evaluate json_loads float_of_str self generated_text source_texts
         method qwen_model hhem_model = Returned r
       ∧ method_used r = method
       ∧ (is_Some (hhem_score r) ↔ hhem_success r = true)
       ∧ (is_Some (hhem_interpretation r) ↔ hhem_success r = true)
       ∧ (is_Some (qwen_hallucination_score r) ↔ qwen_success r = true)
       ∧ (is_Some (qwen_confidence r) ↔ qwen_success r = true)
       ∧ (is_Some (qwen_explanation r) → qwen_success r = true)
       ∧ (is_Some (qwen_interpretation r) ↔ qwen_success r = true)
       ∧ (is_Some (ensemble_score r)
          ↔ method = ENSEMBLE ∧ (hhem_success r = true ∨ qwen_success r = true))
       ∧ (is_Some (ensemble_confidence r) ↔ is_Some (ensemble_score r))
       ∧ (is_Some (ensemble_interpretation r) ↔ is_Some (ensemble_score r)).
Proof.
  destruct method;
    evaluate_cases json_loads float_of_str self generated_text source_texts
      qwen_model hhem_model;
    (eexists; split; [reflexivity|]);
    repeat match goal with
           | |- context [_compute_ensemble_result ?r] =>
             let H := fresh in
             destruct (collect_scores_cases r) as [H _];
             cbn [hhem_success hhem_score qwen_success qwen_hallucination_score
                  qwen_confidence set_hhem set_qwen new_result append_error] in H;
             destruct (compute_ensemble_cases r) as [[Hnil ->]|[Hne ->]];
             rewrite H in *; try discriminate; try congruence
           end;
    simpl;
    repeat split; intros;
    repeat match goal with
           | H : is_Some None |- _ => by destruct H as [? [=]]
           | H : _ ∧ _ |- _ => destruct H
           | H : _ ∨ _ |- _ => destruct H
           | H : _ = _ |- _ => discriminate H
           end;
    eauto.
Qed.

(** Replaces [_compute_ensemble_result r], for a record [r] whose flags
    and scores are known, by its value. *)
Ltac resolve_ensemble :=
  repeat match goal with
         | |- context [_compute_ensemble_result ?r] =>
           let H1 := fresh "Hscores" in
           let H2 := fresh "Hconfidences" in
           let Hc := fresh "Hcase" in
           destruct (collect_scores_cases r) as [H1 H2];
           cbn [hhem_success hhem_score qwen_success qwen_hallucination_score
                qwen_confidence set_hhem set_qwen new_result append_error] in H1, H2;
           destruct (compute_ensemble_cases r) as [[Hc ->]|[Hc ->]];
           rewrite ?H1, ?H2 in *; try discriminate; try congruence
         end.

(** X10. With method [ENSEMBLE] and exactly one backend succeeding, the
    ensemble score is that backend's severity ([1.0 - hhem_score], or the
    judgment score) and the ensemble confidence is its confidence (0.9,
    or [qwen_confidence or 0.7]); the interpretation counts one
    evaluator. *)
Theorem ensemble_of_a_single_backend
    (json_loads : str → outcome json_value) (float_of_str : str → outcome Q)
    (self : IntegratedHallucinationEvaluator)
    (generated_text : str) (source_texts : list str)
    (qwen_model : Qwen.QwenModel) (hhem_model : str) :
  ∃ r, evaluate json_loads float_of_str self generated_text source_texts
         ENSEMBLE qwen_model hhem_model = Returned r
       ∧ (hhem_success r = true → qwen_success r = false →
          ∃ h, hhem_score r = Some h
               ∧ ensemble_score r = Some (1.0 - h)%Q
               ∧ ensemble_confidence r = Some 0.9%Q
               ∧ ensemble_interpretation r
                 = Some (_interpret_ensemble_score (1.0 - h)%Q 1))
       ∧ (hhem_success r = false → qwen_success r = true →
          ∃ q c, qwen_hallucination_score r = Some q
                 ∧ qwen_confidence r = Some c
                 ∧ ensemble_score r = Some q
                 ∧ ensemble_confidence r = Some (confidence_or (Some c) 0.7%Q)
                 ∧ ensemble_interpretation r = Some (_interpret_ensemble_score q 1)).
Proof.
  evaluate_cases json_loads float_of_str self generated_text source_texts
    qwen_model hhem_model;
    (eexists; split; [reflexivity|]);
    resolve_ensemble;
    rewrite ?ensemble_of_one; simpl;
    (split; intros; try discriminate); eauto 10.
Qed.

(** The weighted mean of two severities lies within any bounds that
    hold for both. *)
Lemma ensemble_of_two_range (s1 s2 c1 c2 lo hi : Q) :
  (0 < c1)%Q → (0 < c2)%Q →
  (lo <= s1 <= hi)%Q → (lo <= s2 <= hi)%Q →
  (lo <= (ensemble_of [s1; s2] [c1; c2]).1 <= hi)%Q.
Proof.
  intros H1 H2 [Hl1 Hh1] [Hl2 Hh2].
  rewrite ensemble_of_two_weighted by lra.
  split.
  - apply Qle_shift_div_l; [lra|]. nra.
  - apply Qle_shift_div_r; [lra|]. nra.
Qed.

Lemma ensemble_of_two_confidence_range (s1 s2 c1 c2 : Q) :
  (0 < c1 <= 1)%Q → (0 < c2 <= 1)%Q →
  (0 < (ensemble_of [s1; s2] [c1; c2]).2 <= 1)%Q.
Proof.
  intros H1 H2. rewrite ensemble_of_two_confidence.
  split.
  - apply Qlt_shift_div_l; lra.
  - apply Qle_shift_div_r; lra.
Qed.

Lemma confidence_or_range (c : Q) :
  (0 <= c <= 1)%Q → (0 < confidence_or (Some c) 0.7 <= 1)%Q.
Proof.
  intros H.
  destruct (confidence_or_spec (Some c) 0.7%Q) as [[_ ->]|(x & [= <-] & Hx & ->)]; lra.
Qed.

(** X11. With method [ENSEMBLE], if the consistency score, the judgment
    score and the judgment confidence of the result lie in [0, 1], then
    so does the ensemble score, and the ensemble confidence lies in
    (0, 1]. *)
Theorem ensemble_score_within_bounds
    (json_loads : str → outcome json_value) (float_of_str : str → outcome Q)
    (self : IntegratedHallucinationEvaluator)
    (generated_text : str) (source_texts : list str)
    (qwen_model : Qwen.QwenModel) (hhem_model : str) :
  ∃ r, evaluate json_loads float_of_str self generated_text source_texts
         ENSEMBLE qwen_model hhem_model = Returned r
       ∧ ((∀ h, hhem_score r = Some h → (0 <= h <= 1)%Q) →
          (∀ q, qwen_hallucination_score r = Some q → (0 <= q <= 1)%Q) →
          (∀ c, qwen_confidence r = Some c → (0 <= c <= 1)%Q) →
          (∀ e, ensemble_score r = Some e → (0 <= e <= 1)%Q)
          ∧ (∀ ec, ensemble_confidence r = Some ec → (0 < ec <= 1)%Q)).
Proof.
  evaluate_cases json_loads float_of_str self generated_text source_texts
    qwen_model hhem_model;
    (eexists; split; [reflexivity|]);
    resolve_ensemble;
    rewrite ?ensemble_of_one;
    cbn [hhem_score qwen_hallucination_score qwen_confidence ensemble_score
         ensemble_confidence set_success set_ensemble set_hhem set_qwen new_result
         append_error fst snd];
    intros Hh Hq Hc;
    try (specialize (Hh _ eq_refl)); try (specialize (Hq _ eq_refl));
    try (specialize (Hc _ eq_refl));
    try (pose proof (confidence_or_range _ Hc));
    split;
    intros; simplify_eq;
    try (apply ensemble_of_two_range; lra);
    try (apply ensemble_of_two_confidence_range; lra);
    try lra.
Qed.

(** X12. A result of [evaluate] with method [BOTH] has no ensemble
    score, so neither harness obtains a prediction from it:
    [evaluate_samples] counts the evaluation and tallies nothing, and
    [evaluate_on_dataset] tallies every successful sample as predicted
    not hallucinated, without a score. *)
Theorem method_both_yields_no_prediction
    (json_loads : str → outcome json_value) (float_of_str : str → outcome Q)
    (self : IntegratedHallucinationEvaluator)
    (generated_text : str) (source_texts : list str)
    (qwen_model : Qwen.QwenModel) (hhem_model : str)
    (large_scale : LargeScale.LargeScaleEvaluator) (results : LargeScale.EvaluationResults)
    (harness : Harness.RAGtruthEvaluator) (metrics : Harness.EvaluationMetrics)
    (actual_hallucination : bool) :
  ∃ r, evaluate json_loads float_of_str self generated_text source_texts
         BOTH qwen_model hhem_model = Returned r
       ∧ ensemble_score r = None
       ∧ LargeScale.predict large_scale BOTH r = None
       ∧ LargeScale.evaluate_one large_scale BOTH results actual_hallucination r
         = (if success r then LargeScale.count_success results else results)
       ∧ Harness.predict harness BOTH r = (false, None)
       ∧ Harness.evaluate_one harness BOTH metrics actual_hallucination r
         = (if success r
            then Harness.tally (Harness.count_success metrics) false
                   actual_hallucination None
            else metrics).
Proof.
  evaluate_cases json_loads float_of_str self generated_text source_texts
    qwen_model hhem_model;
    eexists; (split; [reflexivity|]); repeat split.
Qed.

(** ** Construction of the evaluator *)

(** X13. [__init__] builds the consistency backend exactly when its key
    argument is a non-empty string, and the judgment backend exactly
    when its key argument is a non-empty string and [dashscope] could be
    imported; it raises [ValueError] exactly when neither is built.  The
    variables of the environment play no part. *)
Theorem init_needs_one_backend
    (dashscope_available : bool) (vectara_env dashscope_env : option str)
    (hhem_service : str → HHEM.payload → outcome HHEM.http_response)
    (qwen_service : str → Qwen.request → outcome Qwen.generation_response)
    (vectara_api_key dashscope_api_key : option str) :
  let built_hhem := truthy_opt vectara_api_key in
  let built_qwen := truthy_opt dashscope_api_key && dashscope_available in
  let made := init dashscope_available vectara_env dashscope_env hhem_service qwen_service
                vectara_api_key dashscope_api_key in
  (built_hhem || built_qwen = false ↔ ∃ msg, made = Raised (ValueError msg))
  ∧ (built_hhem || built_qwen = true ↔
     ∃ self, made = Returned self
             ∧ hhem_evaluator self
               = (if built_hhem then hhem_service <$> vectara_api_key else None)
             ∧ qwen_evaluator self
               = (if built_qwen then qwen_service <$> dashscope_api_key else None))
  ∧ (∀ vectara_env' dashscope_env',
       init dashscope_available vectara_env' dashscope_env' hhem_service qwen_service
         vectara_api_key dashscope_api_key = made).
Proof.
  intros built_hhem built_qwen made. subst built_hhem built_qwen made.
  unfold init, HHEM.init, Qwen.init, or_else.
  destruct vectara_api_key as [[|a v]|], dashscope_api_key as [[|b d]|],
    dashscope_available; cbn;
    (split; [split; [try discriminate; eauto|intros [? [=]]; try done]|]);
    (split; [split; [try discriminate; eauto|intros (? & [=] & _); try done]|]);
    done.
Qed.

(** ** Batches and comparisons *)

(** A loop whose body always returns yields one item for each input, in
    the order of the inputs. *)
Lemma for_each_returns {A B} (body : nat → A → outcome B) (i : nat) (l : list A) :
  (∀ j x, ∃ y, body j x = Returned y) →
  ∃ ys, for_each body i l = Returned ys
        ∧ length ys = length l
        ∧ ∀ k x, l !! k = Some x → ∃ y, ys !! k = Some y ∧ body (i + k)%nat x = Returned y.
Proof.
  intros Hbody. revert i.
  induction l as [|x l IH]; intros i; simpl.
  - exists []. repeat split. intros k x Hk. by rewrite lookup_nil in Hk.
  - destruct (Hbody i x) as [y Hy]. destruct (IH (S i)) as (ys & Hys & Hlen & Hlook).
    exists (y :: ys). rewrite Hy, Hys. simpl. repeat split; [by f_equal|].
    intros [|k] x' Hk; simpl in Hk.
    + injection Hk as <-. exists y. by rewrite Nat.add_0_r.
    + destruct (Hlook k x' Hk) as (y' & Hy' & Hb). exists y'. split; [done|].
      by rewrite <- Nat.add_succ_comm.
Qed.

Lemma evaluate_consistency_blank
    (requests_post : HHEM.payload → outcome HHEM.http_response)
    (generated_text : str) (source_texts : list str) (model_name : str) :
  whitespace_only generated_text = true
  ∨ Forall (fun text => whitespace_only text = true) source_texts →
  ∃ msg, HHEM.evaluate_consistency requests_post generated_text source_texts model_name
         = Returned (HHEM.failure msg).
Proof.
  intros H. unfold HHEM.evaluate_consistency. rewrite truthy_strip.
  destruct (whitespace_only generated_text); [by eexists|].
  destruct H as [H|H]; [done|]. apply no_reference_text in H. rewrite H. by eexists.
Qed.

Lemma evaluate_hallucination_blank
    (generation_call : Qwen.request → outcome Qwen.generation_response)
    (json_loads : str → outcome json_value) (float_of_str : str → outcome Q)
    (generated_text : str) (source_texts : list str)
    (model : Qwen.QwenModel) (temperature : Q) (max_tokens : Z) :
  whitespace_only generated_text = true
  ∨ Forall (fun text => whitespace_only text = true) source_texts →
  ∃ r, Qwen.evaluate_hallucination generation_call json_loads float_of_str
         generated_text source_texts model temperature max_tokens = Returned r
       ∧ Qwen.success r = false.
Proof.
  intros H. unfold Qwen.evaluate_hallucination. rewrite truthy_strip.
  destruct (whitespace_only generated_text); [by eexists|].
  destruct H as [H|H]; [done|]. apply no_reference_text in H. rewrite H. by eexists.
Qed.

(** A task that lacks a key is a blank input. *)
Lemma missing_key_is_blank (d : eval_data) :
  eval_generated_text d = None ∨ eval_source_texts d = None →
  whitespace_only (default [] (eval_generated_text d)) = true
  ∨ Forall (fun text => whitespace_only text = true) (default [] (eval_source_texts d)).
Proof. intros [-> | ->]; [by left|right; constructor]. Qed.

(** X14. [batch_evaluate] of either backend never raises and returns
    one response for each task, in the order of the tasks, each being the
    response of the single evaluation on the task's texts; a task that
    lacks the key [generated_text] or [source_texts] gets a failed
    response. *)
Theorem backend_batches_are_aligned
    (requests_post : HHEM.payload → outcome HHEM.http_response)
    (generation_call : Qwen.request → outcome Qwen.generation_response)
    (json_loads : str → outcome json_value) (float_of_str : str → outcome Q)
    (evaluations : list eval_data) (model_name : str)
    (model : Qwen.QwenModel) (temperature : Q) :
  (∃ results,
     HHEM.batch_evaluate requests_post evaluations model_name = Returned results
     ∧ length results = length evaluations
     ∧ ∀ i d, evaluations !! i = Some d →
         ∃ r, results !! i = Some r
              ∧ HHEM.evaluate_consistency requests_post
                  (default [] (eval_generated_text d)) (default [] (eval_source_texts d))
                  model_name = Returned r
              ∧ (eval_generated_text d = None ∨ eval_source_texts d = None →
                 HHEM.success r = false))
  ∧ (∃ results,
       Qwen.batch_evaluate generation_call json_loads float_of_str evaluations
         model temperature = Returned results
       ∧ length results = length evaluations
       ∧ ∀ i d, evaluations !! i = Some d →
           ∃ r, results !! i = Some r
                ∧ Qwen.evaluate_hallucination generation_call json_loads float_of_str
                    (default [] (eval_generated_text d))
                    (default [] (eval_source_texts d)) model temperature 2000
                  = Returned r
                ∧ (eval_generated_text d = None ∨ eval_source_texts d = None →
                   Qwen.success r = false)).
Proof.
  split.
  - unfold HHEM.batch_evaluate.
    match goal with
    | |- context [for_each ?body ?i ?l] =>
      assert (Hret : ∀ j x, ∃ y, body j x = Returned y);
        [|destruct (for_each_returns body i l Hret) as (ys & -> & Hlen & Hlook);
          exists ys; split; [reflexivity|split; [exact Hlen|]]]
    end.
    + intros j x. cbv beta zeta.
      destruct (evaluate_consistency_returns requests_post
                  (default [] (eval_generated_text x)) (default [] (eval_source_texts x))
                  model_name) as [r ->]. by exists r.
    + intros i d Hd. destruct (Hlook i d Hd) as (y & Hy & Hbody).
      exists y. split; [exact Hy|]. cbv beta zeta in Hbody.
      destruct (evaluate_consistency_returns requests_post
                  (default [] (eval_generated_text d)) (default [] (eval_source_texts d))
                  model_name) as [r Hr].
      rewrite Hr in Hbody. injection Hbody as <-. split; [exact Hr|].
      intros Hmiss. apply missing_key_is_blank in Hmiss.
      destruct (evaluate_consistency_blank requests_post _ _ model_name Hmiss) as [msg Hm].
      rewrite Hm in Hr. by injection Hr as <-.
  - unfold Qwen.batch_evaluate.
    match goal with
    | |- context [for_each ?body ?i ?l] =>
      assert (Hret : ∀ j x, ∃ y, body j x = Returned y);
        [|destruct (for_each_returns body i l Hret) as (ys & -> & Hlen & Hlook);
          exists ys; split; [reflexivity|split; [exact Hlen|]]]
    end.
    + intros j x. cbv beta zeta.
      destruct (evaluate_hallucination_returns generation_call json_loads float_of_str
                  (default [] (eval_generated_text x)) (default [] (eval_source_texts x))
                  model temperature 2000) as [r ->]. by exists r.
    + intros i d Hd. destruct (Hlook i d Hd) as (y & Hy & Hbody).
      exists y. split; [exact Hy|]. cbv beta zeta in Hbody.
      destruct (evaluate_hallucination_returns generation_call json_loads float_of_str
                  (default [] (eval_generated_text d)) (default [] (eval_source_texts d))
                  model temperature 2000) as [r Hr].
      rewrite Hr in Hbody. injection Hbody as <-. split; [exact Hr|].
      intros Hmiss. apply missing_key_is_blank in Hmiss.
      destruct (evaluate_hallucination_blank generation_call json_loads float_of_str
                  _ _ model temperature 2000 Hmiss) as (r' & Hr' & Hfail).
      rewrite Hr' in Hr. by injection Hr as <-.
Qed.

(** [evaluate] always returns. *)
Lemma evaluate_returns
    (json_loads : str → outcome json_value) (float_of_str : str → outcome Q)
    (self : IntegratedHallucinationEvaluator)
    (generated_text : str) (source_texts : list str)
    (method : EvaluationMethod) (qwen_model : Qwen.QwenModel) (hhem_model : str) :
  ∃ r, evaluate json_loads float_of_str self generated_text source_texts
         method qwen_model hhem_model = Returned r
       ∧ method_used r = method.
Proof.
  destruct method;
    evaluate_cases json_loads float_of_str self generated_text source_texts
      qwen_model hhem_model;
    (eexists; split; [reflexivity|]);
    repeat match goal with
           | |- context [_compute_ensemble_result ?r] =>
             destruct (compute_ensemble_cases r) as [[_ ->]|[_ ->]]
           end;
    reflexivity.
Qed.

(** On a blank input no backend succeeds, whatever the method. *)
Lemma evaluate_blank
    (json_loads : str → outcome json_value) (float_of_str : str → outcome Q)
    (self : IntegratedHallucinationEvaluator)
    (generated_text : str) (source_texts : list str)
    (method : EvaluationMethod) (qwen_model : Qwen.QwenModel) (hhem_model : str) :
  whitespace_only generated_text = true
  ∨ Forall (fun text => whitespace_only text = true) source_texts →
  ∃ r, evaluate json_loads float_of_str self generated_text source_texts
         method qwen_model hhem_model = Returned r
       ∧ success r = false
       ∧ ensemble_score r = None.
Proof.
  intros Hblank.
  destruct method;
    evaluate_cases json_loads float_of_str self generated_text source_texts
      qwen_model hhem_model;
    try match goal with
        | H : HHEM.evaluate_consistency ?post _ _ ?m
              = Returned {| HHEM.success := true |} |- _ =>
          destruct (evaluate_consistency_blank post generated_text source_texts m Hblank)
            as [? Hm]; rewrite Hm in H; discriminate
        end;
    try match goal with
        | H : Qwen.evaluate_hallucination ?call _ _ _ _ ?m ?t ?k
              = Returned {| Qwen.success := true |} |- _ =>
          destruct (evaluate_hallucination_blank call json_loads float_of_str
                      generated_text source_texts m t k Hblank) as (? & Hm & Hf);
          rewrite Hm in H; injection H as ->; simpl in Hf; discriminate Hf
        end;
    (eexists; split; [reflexivity|]);
    resolve_ensemble; split; reflexivity.
Qed.

(** A loop whose body is guarded by a handler that returns yields one
    item for each input, in the order of the inputs: what the guarded
    call returned, or what the handler made of the exception. *)
Lemma for_each_guarded {A B} (call : A → outcome B) (handler : nat → exn → B)
    (i : nat) (l : list A) :
  ∃ ys, for_each (fun j x => try_except (call x) (fun e => Returned (handler j e))) i l
        = Returned ys
        ∧ length ys = length l
        ∧ ∀ k x, l !! k = Some x →
            ∃ y, ys !! k = Some y
                 ∧ (∀ r, call x = Returned r → y = r)
                 ∧ (∀ e, call x = Raised e → y = handler (i + k)%nat e).
Proof.
  revert i. induction l as [|x l IH]; intros i; simpl.
  - exists []. repeat split. intros k x Hk. by rewrite lookup_nil in Hk.
  - destruct (IH (S i)) as (ys & Hys & Hlen & Hlook). rewrite Hys.
    destruct (call x) as [r|e] eqn:Ex; simpl.
    + exists (r :: ys). repeat split; [simpl; by f_equal|].
      intros [|k] x' Hk; simpl in Hk.
      * injection Hk as <-. exists r. rewrite Ex. split; [done|]. split; congruence.
      * destruct (Hlook k x' Hk) as (y' & Hy' & Hb). exists y'. split; [done|].
        by rewrite <- Nat.add_succ_comm.
    + exists (handler i e :: ys). repeat split; [simpl; by f_equal|].
      intros [|k] x' Hk; simpl in Hk.
      * injection Hk as <-. exists (handler i e). rewrite Ex, Nat.add_0_r.
        split; [done|]. split; congruence.
      * destruct (Hlook k x' Hk) as (y' & Hy' & Hb). exists y'. split; [done|].
        by rewrite <- Nat.add_succ_comm.
Qed.

(** X15. [batch_evaluate] of the integrated evaluator never raises and
    returns one result for each task, in the order of the tasks, each
    carrying the batch's method: the result of [evaluate] on the task's
    texts when that call returns, and the error result naming the
    position of the task when it raises; a task that lacks a key gets an
    unsuccessful result without ensemble score. *)
Theorem batch_evaluate_is_aligned
    (json_loads : str → outcome json_value) (float_of_str : str → outcome Q)
    (self : IntegratedHallucinationEvaluator) (evaluations : list eval_data)
    (method : EvaluationMethod) (qwen_model : Qwen.QwenModel) (hhem_model : str) :
  ∃ results,
    batch_evaluate json_loads float_of_str self evaluations method qwen_model hhem_model
    = Returned results
    ∧ length results = length evaluations
    ∧ ∀ i d, evaluations !! i = Some d →
        let call :=
          evaluate json_loads float_of_str self
            (default [] (eval_generated_text d)) (default [] (eval_source_texts d))
            method qwen_model hhem_model in
        ∃ r, results !! i = Some r
             ∧ method_used r = method
             ∧ (∀ r', call = Returned r' → r = r')
             ∧ (∀ e, call = Raised e →
                  r = append_error (new_result method)
                        (utf8 "批量评估第" ++ str_of_Z (Z.of_nat i + 1)
                           ++ utf8 "项错误: " ++ exn_msg e))
             ∧ (eval_generated_text d = None ∨ eval_source_texts d = None →
                success r = false ∧ ensemble_score r = None).
Proof.
  unfold batch_evaluate.
  destruct (for_each_guarded
              (fun d => evaluate json_loads float_of_str self
                          (default [] (eval_generated_text d))
                          (default [] (eval_source_texts d))
                          method qwen_model hhem_model)
              (fun i e => append_error (new_result method)
                            (utf8 "批量评估第" ++ str_of_Z (Z.of_nat i + 1)
                               ++ utf8 "项错误: " ++ exn_msg e))
              0%nat evaluations) as (ys & Hys & Hlen & Hlook).
  exists ys. split; [exact Hys|]. split; [exact Hlen|].
  intros i d Hd. cbv zeta.
  destruct (Hlook i d Hd) as (y & Hy & Hret & Hraise). cbn [Nat.add] in Hraise.
  exists y. split; [exact Hy|].
  revert Hret Hraise.
  destruct (evaluate json_loads float_of_str self
              (default [] (eval_generated_text d)) (default [] (eval_source_texts d))
              method qwen_model hhem_model) as [r'|e] eqn:Ecall;
    intros Hret Hraise.
  - rewrite (Hret r' eq_refl).
    destruct (evaluate_returns json_loads float_of_str self
                (default [] (eval_generated_text d)) (default [] (eval_source_texts d))
                method qwen_model hhem_model) as (r & Hr & Hmethod).
    rewrite Hr in Ecall. injection Ecall as <-.
    split; [exact Hmethod|]. split; [congruence|]. split; [discriminate|].
    intros Hmiss. apply missing_key_is_blank in Hmiss.
    destruct (evaluate_blank json_loads float_of_str self _ _ method qwen_model hhem_model
                Hmiss) as (r' & Hr' & Hfail).
    rewrite Hr' in Hr. by injection Hr as <-.
  - rewrite (Hraise e eq_refl). split; [reflexivity|]. split; [discriminate|].
    split; [by intros e' [= <-]|].
    intros _. split; reflexivity.
Qed.

(** X16. [compare_methods] never raises and returns a dictionary with
    exactly the three keys [hhem_only], [qwen_only] and [ensemble] (the
    method [BOTH] is not compared); the entry of a method carries that
    method, and is the result of [evaluate] with it when that call
    returns, and the error result naming the method when it raises. *)
Theorem compare_methods_has_three_entries
    (json_loads : str → outcome json_value) (float_of_str : str → outcome Q)
    (self : IntegratedHallucinationEvaluator)
    (generated_text : str) (source_texts : list str)
    (qwen_model : Qwen.QwenModel) (hhem_model : str) :
  ∃ results,
    compare_methods json_loads float_of_str self generated_text source_texts
      qwen_model hhem_model = Returned results
    ∧ dom results = {[utf8 "hhem_only"; utf8 "qwen_only"; utf8 "ensemble"]}
    ∧ results !! method_value BOTH = None
    ∧ ∀ method, method ≠ BOTH →
        let call :=
          evaluate json_loads float_of_str self generated_text source_texts
            method qwen_model hhem_model in
        ∃ r, results !! method_value method = Some r
             ∧ method_used r = method
             ∧ (∀ r', call = Returned r' → r = r')
             ∧ (∀ e, call = Raised e →
                  r = append_error (new_result method)
                        (utf8 "方法" ++ method_value method ++ utf8 "评估失败: "
                           ++ exn_msg e)).
Proof.
  unfold compare_methods. eexists. split; [reflexivity|].
  cbn [fold_left].
  assert (Hentry : ∀ method,
            method_used
              match evaluate json_loads float_of_str self generated_text source_texts
                      method qwen_model hhem_model with
              | Returned result => result
              | Raised e =>
                append_error (new_result method)
                  (utf8 "方法" ++ method_value method ++ utf8 "评估失败: " ++ exn_msg e)
              end = method
            ∧ (∀ r', evaluate json_loads float_of_str self generated_text source_texts
                       method qwen_model hhem_model = Returned r' →
                 match evaluate json_loads float_of_str self generated_text source_texts
                         method qwen_model hhem_model with
                 | Returned result => result
                 | Raised e =>
                   append_error (new_result method)
                     (utf8 "方法" ++ method_value method ++ utf8 "评估失败: " ++ exn_msg e)
                 end = r')
            ∧ (∀ e, evaluate json_loads float_of_str self generated_text source_texts
                      method qwen_model hhem_model = Raised e →
                 match evaluate json_loads float_of_str self generated_text source_texts
                         method qwen_model hhem_model with
                 | Returned result => result
                 | Raised e =>
                   append_error (new_result method)
                     (utf8 "方法" ++ method_value method ++ utf8 "评估失败: " ++ exn_msg e)
                 end
                 = append_error (new_result method)
                     (utf8 "方法" ++ method_value method ++ utf8 "评估失败: "
                        ++ exn_msg e))).
  { intros method.
    destruct (evaluate json_loads float_of_str self generated_text source_texts
                method qwen_model hhem_model) as [r'|e] eqn:Ecall.
    - destruct (evaluate_returns json_loads float_of_str self generated_text
                  source_texts method qwen_model hhem_model) as (r & Hr & Hmethod).
      rewrite Hr in Ecall. injection Ecall as <-.
      split; [exact Hmethod|]. split; [congruence|discriminate].
    - split; [reflexivity|]. split; [discriminate|]. by intros e' [= <-]. }
  split; [|split].
  - rewrite !dom_insert_L, dom_empty_L. cbn [method_value]. set_solver.
  - cbn [method_value].
    rewrite !lookup_insert_ne by (vm_compute; discriminate). apply lookup_empty.
  - intros [] Hm; try done; cbv zeta; eexists; (split; [|apply Hentry]).
    + rewrite lookup_insert_ne, lookup_insert_ne, lookup_insert_eq
        by (vm_compute; discriminate).
      reflexivity.
    + rewrite lookup_insert_ne, lookup_insert_eq by (vm_compute; discriminate).
      reflexivity.
    + rewrite lookup_insert_eq. reflexivity.
Qed.

(** ** Filters of the sample repository *)

(** A filter decision, once the source of the response is known. *)
Lemma passes_filters_spec (source_map : gmap str RAGtruthSource.t)
    (task_type : TaskType.t) (split : SplitType.t) (has_hallucination : option bool)
    (response : RAGtruthResponse.t) (source : RAGtruthSource.t) :
  source_map !! RAGtruthResponse.source_id response = Some source →
  Loader.passes_filters source_map task_type split has_hallucination response = true
  ↔ (task_type = TaskType.ALL
     ∨ RAGtruthSource.task_type source = TaskType.value task_type)
    ∧ (split = SplitType.ALL
       ∨ RAGtruthResponse.split response = SplitType.value split)
    ∧ (has_hallucination = None
       ∨ has_hallucination = Some (RAGtruthResponse.has_hallucination response)).
Proof.
  intros Hsrc. unfold Loader.passes_filters. rewrite Hsrc.
  rewrite !andb_true_iff.
  assert (A1 : (if bool_decide (task_type ≠ TaskType.ALL)
                then negb (bool_decide (RAGtruthSource.task_type source
                                        ≠ TaskType.value task_type))
                else true) = true
               ↔ task_type = TaskType.ALL
                 ∨ RAGtruthSource.task_type source = TaskType.value task_type).
  { destruct (decide (task_type = TaskType.ALL)) as [->|Hne].
    - split; [by left|done].
    - rewrite bool_decide_eq_true_2 by done.
      destruct (decide (RAGtruthSource.task_type source = TaskType.value task_type))
        as [Heq|Hneq].
      + rewrite bool_decide_eq_false_2 by (by intros ?). split; [by right|done].
      + rewrite bool_decide_eq_true_2 by done. split; [done|by intros [?|?]]. }
  assert (A2 : negb (bool_decide (split ≠ SplitType.ALL)
                     && bool_decide (RAGtruthResponse.split response
                                     ≠ SplitType.value split)) = true
               ↔ split = SplitType.ALL
                 ∨ RAGtruthResponse.split response = SplitType.value split).
  { destruct (decide (split = SplitType.ALL)) as [->|Hne].
    - split; [by left|done].
    - rewrite (bool_decide_eq_true_2 (split ≠ SplitType.ALL)) by done.
      destruct (decide (RAGtruthResponse.split response = SplitType.value split))
        as [Heq|Hneq].
      + rewrite bool_decide_eq_false_2 by (by intros ?). split; [by right|done].
      + rewrite bool_decide_eq_true_2 by done. split; [done|by intros [?|?]]. }
  assert (A3 : match has_hallucination with
               | Some wanted =>
                 negb (bool_decide (RAGtruthResponse.has_hallucination response ≠ wanted))
               | None => true
               end = true
               ↔ has_hallucination = None
                 ∨ has_hallucination
                   = Some (RAGtruthResponse.has_hallucination response)).
  { destruct has_hallucination as [wanted|]; [|split; [by left|done]].
    destruct (decide (RAGtruthResponse.has_hallucination response = wanted))
      as [Heq|Hneq].
    - rewrite bool_decide_eq_false_2 by (by intros ?). split; [|done].
      intros _. right. by f_equal.
    - rewrite bool_decide_eq_true_2 by done. split; [done|].
      intros [?|[= ?]]; done. }
  rewrite A1, A2, A3. tauto.
Qed.

Lemma elem_of_joined_samples (self : Loader.RAGtruthLoader)
    (task_type : TaskType.t) (split : SplitType.t) (has_hallucination : option bool)
    (s : RAGtruthSample.t) :
  s ∈ Loader.joined_samples self task_type split has_hallucination
  ↔ RAGtruthSample.response s ∈ Loader.responses self
    ∧ Loader.source_map_of (Loader.sources self)
        !! RAGtruthResponse.source_id (RAGtruthSample.response s)
      = Some (RAGtruthSample.source s)
    ∧ Loader.passes_filters (Loader.source_map_of (Loader.sources self))
        task_type split has_hallucination (RAGtruthSample.response s) = true.
Proof.
  unfold Loader.joined_samples, Loader.make_samples.
  rewrite list_elem_of_omap. split.
  - intros (response & Hin & Hs). apply list_elem_of_filter in Hin as [Hp Hin].
    destruct (_ !! _) as [source|] eqn:E; [|discriminate].
    injection Hs as <-. done.
  - intros (Hin & Hsrc & Hp). exists (RAGtruthSample.response s). split.
    + by apply list_elem_of_filter.
    + rewrite Hsrc. by destruct s.
Qed.

(** X17. The filters select exactly the joined samples that satisfy
    them: a sample is returned under a task type, a split and a
    hallucination flag exactly when it is a sample of the unfiltered set
    whose source has that task type (or the type is [ALL]), whose
    response has that split (or the split is [ALL]) and whose response
    has labels as the flag says (or no flag is given). *)
Theorem filters_select_exactly (self : Loader.RAGtruthLoader)
    (task_type : TaskType.t) (split : SplitType.t) (has_hallucination : option bool)
    (s : RAGtruthSample.t) :
  s ∈ Loader.joined_samples self task_type split has_hallucination
  ↔ s ∈ Loader.joined_samples self TaskType.ALL SplitType.ALL None
    ∧ (task_type = TaskType.ALL
       ∨ RAGtruthSource.task_type (RAGtruthSample.source s) = TaskType.value task_type)
    ∧ (split = SplitType.ALL
       ∨ RAGtruthResponse.split (RAGtruthSample.response s) = SplitType.value split)
    ∧ (has_hallucination = None
       ∨ has_hallucination = Some (RAGtruthSample.has_hallucination s)).
Proof.
  rewrite !elem_of_joined_samples. split.
  - intros (Hin & Hsrc & Hp). split.
    + split; [done|]. split; [done|].
      apply (passes_filters_spec _ _ _ _ _ _ Hsrc). auto.
    + by apply (passes_filters_spec _ _ _ _ _ _ Hsrc).
  - intros ((Hin & Hsrc & _) & Hc). split; [done|]. split; [done|].
    by apply (passes_filters_spec _ _ _ _ _ _ Hsrc).
Qed.

(** X18. The flag [has_hallucination] splits a filtered set in two:
    the samples returned under [True] and under [False] together number
    those returned without the flag. *)
Theorem hallucination_flag_partitions (self : Loader.RAGtruthLoader)
    (task_type : TaskType.t) (split : SplitType.t) :
  (length (Loader.joined_samples self task_type split (Some true))
   + length (Loader.joined_samples self task_type split (Some false)))%nat
  = length (Loader.joined_samples self task_type split None).
Proof.
  unfold Loader.joined_samples.
  set (m := Loader.source_map_of (Loader.sources self)).
  induction (Loader.responses self) as [|r l IH]; [done|].
  rewrite !filter_cons.
  assert (Hp : ∀ b, Loader.passes_filters m task_type split (Some b) r
                    = Loader.passes_filters m task_type split None r
                      && bool_decide (RAGtruthResponse.has_hallucination r = b)).
  { intros b. unfold Loader.passes_filters. f_equal; [by rewrite andb_true_r|].
    by repeat case_bool_decide. }
  rewrite !Hp.
  destruct (Loader.passes_filters m task_type split None r); cbn [andb].
  - destruct (RAGtruthResponse.has_hallucination r);
      repeat case_decide; try done; try (by exfalso; auto);
      simpl in *; destruct (m !! _); simpl; lia.
  - repeat case_decide; try done.
Qed.

(** ** Sampling and statistics *)

(** X19. With a positive count and a [random.sample] that returns as
    many items as it is asked for, [get_samples] does not raise and
    returns [min(max_samples, size)] samples, the size being that of the
    filtered set. *)
Theorem sample_size_is_the_minimum
    (rng : Type) (seed : Z → rng)
    (sample : rng → list RAGtruthSample.t → nat → list RAGtruthSample.t * rng)
    (self : Loader.RAGtruthLoader) (task_type : TaskType.t) (split : SplitType.t)
    (has_hallucination : option bool) (k : Z) (random_seed : option Z) (g : rng) :
  (∀ g population n, (n <= length population)%nat →
                     length (sample g population n).1 = n) →
  (0 < k)%Z →
  ∃ chosen,
    (Loader.get_samples rng seed sample self task_type split has_hallucination
       (Some k) random_seed g).1 = Returned chosen
    ∧ Z.of_nat (length chosen)
      = Z.min k (Z.of_nat (length (Loader.joined_samples self task_type split
                                     has_hallucination))).
Proof.
  intros Hsample Hk. unfold Loader.get_samples, Loader.random_sampling.
  set (all := Loader.joined_samples self task_type split has_hallucination).
  destruct (k =? 0)%Z eqn:E0; [lia|]. cbn [negb andb].
  destruct (k <? Z.of_nat (length all))%Z eqn:E1.
  - destruct (k <? 0)%Z eqn:E2; [lia|].
    match goal with |- context [sample ?g' all ?n] =>
      pose proof (Hsample g' all n) as Hlen; destruct (sample g' all n) as [c g''] end.
    exists c. split; [done|]. simpl in Hlen. rewrite Hlen by lia. lia.
  - exists all. split; [done|]. lia.
Qed.

Lemma toy_sample_length (g : nat) (population : list RAGtruthSample.t) (n : nat) :
  (n <= length population)%nat → length (Scenario.toy_sample g population n).1 = n.
Proof.
  intros H. unfold Scenario.toy_sample. simpl.
  rewrite length_take, length_rotate. lia.
Qed.

Lemma sample_size_witness :
  ∃ chosen,
    (Loader.get_samples nat Scenario.toy_seed Scenario.toy_sample Scenario.loader
       TaskType.ALL SplitType.ALL None (Some 1%Z) (Some 42%Z) 0%nat).1 = Returned chosen
    ∧ Z.of_nat (length chosen)
      = Z.min 1 (Z.of_nat (length (Loader.joined_samples Scenario.loader TaskType.ALL
                                     SplitType.ALL None))).
Proof.
  apply (sample_size_is_the_minimum nat Scenario.toy_seed Scenario.toy_sample).
  - exact toy_sample_length.
  - lia.
Defined.

(** X20. A negative count makes [get_samples] raise [ValueError],
    whatever the filtered set, after the generator has been reseeded
    when a seed is given. *)
Theorem negative_count_raises
    (rng : Type) (seed : Z → rng)
    (sample : rng → list RAGtruthSample.t → nat → list RAGtruthSample.t * rng)
    (self : Loader.RAGtruthLoader) (task_type : TaskType.t) (split : SplitType.t)
    (has_hallucination : option bool) (k : Z) (random_seed : option Z) (g : rng) :
  (k < 0)%Z →
  ∃ msg,
    Loader.get_samples rng seed sample self task_type split has_hallucination
      (Some k) random_seed g
    = (Raised (ValueError msg), from_option seed g random_seed).
Proof.
  intros Hk. unfold Loader.get_samples, Loader.random_sampling.
  set (all := Loader.joined_samples self task_type split has_hallucination).
  pose proof (Nat2Z.is_nonneg (length all)) as Hlen.
  destruct (Z.eqb_spec k 0) as [|_]; [lia|]. cbn [negb andb].
  destruct (Z.ltb_spec k (Z.of_nat (length all))) as [_|]; [|lia].
  destruct (Z.ltb_spec k 0) as [_|]; [|lia].
  eexists. by destruct random_seed.
Qed.

Lemma negative_count_witness :
  ∃ msg,
    Loader.get_samples nat Scenario.toy_seed Scenario.toy_sample Scenario.loader
      TaskType.ALL SplitType.ALL None (Some (-3)%Z) (Some 42%Z) 0%nat
    = (Raised (ValueError msg), 42%nat).
Proof.
  apply (negative_count_raises nat Scenario.toy_seed Scenario.toy_sample Scenario.loader
           TaskType.ALL SplitType.ALL None (-3)%Z (Some 42%Z) 0%nat).
  lia.
Defined.

(** X21. [source_texts] is never empty and holds at most two texts: the
    source information itself when it is a string; for a mapping the
    value under [passages], if any, followed by the question, if any,
    and the printed mapping when it has neither key. *)
Theorem source_texts_is_never_empty
    (py_str : json_value → str) (s : RAGtruthSample.t) :
  let texts := RAGtruthSample.source_texts py_str s in
  let source_info := RAGtruthSource.source_info (RAGtruthSample.source s) in
  (1 <= length texts <= 2)%nat
  ∧ (∀ text, source_info = JStr text → texts = [JStr text])
  ∧ (∀ items, source_info = JObj items →
       utf8 "passages" ∉ items.*1 → utf8 "question" ∉ items.*1 →
       texts = [JStr (py_str source_info)])
  ∧ (∀ items, source_info = JObj items → utf8 "passages" ∈ items.*1 →
       head texts = Some (dict_get items (utf8 "passages") JNull))
  ∧ (∀ items, source_info = JObj items → utf8 "question" ∈ items.*1 →
       last texts
       = Some (JStr (utf8 "Question: "
                       ++ RAGtruthSample.format_value py_str
                            (dict_get items (utf8 "question") JNull)))).
Proof.
  intros texts source_info. subst texts source_info.
  unfold RAGtruthSample.source_texts.
  destruct (RAGtruthSource.source_info (RAGtruthSample.source s)) as [| | | | |items];
    try (split; [simpl; lia|]; repeat split; congruence).
  split; [|split; [|split; [|split]]].
  - repeat case_bool_decide; simpl; lia.
  - discriminate.
  - intros ? [= <-] Hp Hq. by rewrite !bool_decide_eq_false_2.
  - intros ? [= <-] Hp. rewrite (bool_decide_eq_true_2 _ Hp).
    by case_bool_decide.
  - intros ? [= <-] Hq. rewrite (bool_decide_eq_true_2 _ Hq).
    by case_bool_decide.
Qed.

Lemma count_if_cons {A} (P : A → bool) (x : A) (l : list A) :
  Loader.count_if P (x :: l) = (Z.b2z (P x) + Loader.count_if P l)%Z.
Proof.
  unfold Loader.count_if. rewrite filter_cons.
  destruct (P x); case_decide; try done; rewrite ?length_cons; cbn [Z.b2z]; lia.
Qed.

Lemma count_if_nonneg {A} (P : A → bool) (l : list A) : (0 <= Loader.count_if P l)%Z.
Proof. unfold Loader.count_if. lia. Qed.

(** The counter of a key after a pass of [counts[key] = counts.get(key,
    0) + 1] over a list. *)
Lemma fold_count_up {A} (key : A → str) (l : list A) (m : gmap str Z) (k : str) :
  fold_left (fun counts x => Loader.count_up counts (key x)) l m !! k
  = let n := Loader.count_if (fun x => bool_decide (key x = k)) l in
    if (n =? 0)%Z then m !! k else Some (default 0%Z (m !! k) + n)%Z.
Proof.
  revert m. induction l as [|x l IH]; intros m; [done|].
  cbn [fold_left]. rewrite IH, count_if_cons. cbv zeta.
  pose proof (count_if_nonneg (fun x => bool_decide (key x = k)) l) as Hn.
  set (n := Loader.count_if (fun x => bool_decide (key x = k)) l) in *. clearbody n.
  unfold Loader.count_up.
  destruct (decide (key x = k)) as [Hk|Hk].
  - rewrite bool_decide_eq_true_2 by done. rewrite Hk, lookup_insert_eq.
    cbn [Z.b2z default from_option]. unfold id.
    destruct (Z.eqb_spec n 0), (Z.eqb_spec (1 + n) 0); try lia; f_equal; lia.
  - rewrite bool_decide_eq_false_2 by done. rewrite lookup_insert_ne by done.
    cbn [Z.b2z]. by rewrite Z.add_0_l.
Qed.

(** X22. In the statistics the responses with and without
    hallucination add up to the total, and the train and test responses
    together never exceed it. *)
Theorem statistics_counts_add_up (self : Loader.RAGtruthLoader) :
  let stats := Loader.get_statistics self in
  (Loader.responses_with_hallucination stats
   + Loader.responses_without_hallucination stats = Loader.total_responses stats)%Z
  ∧ (Loader.train_samples stats + Loader.test_samples stats
     <= Loader.total_responses stats)%Z
  ∧ Loader.total_responses stats = Z.of_nat (length (Loader.responses self))
  ∧ Loader.total_sources stats = Z.of_nat (length (Loader.sources self)).
Proof.
  cbv zeta. unfold Loader.get_statistics.
  cbn [Loader.responses_with_hallucination Loader.responses_without_hallucination
       Loader.total_responses Loader.train_samples Loader.test_samples
       Loader.total_sources].
  split; [|split; [|done]].
  - induction (Loader.responses self) as [|r l IH]; [done|].
    rewrite !count_if_cons, length_cons.
    destruct (RAGtruthResponse.has_hallucination r); cbn [negb Z.b2z]; lia.
  - induction (Loader.responses self) as [|r l IH]; [done|].
    rewrite !count_if_cons, length_cons.
    destruct (decide (RAGtruthResponse.split r = utf8 "train")) as [E|E].
    + rewrite E. rewrite bool_decide_eq_true_2 by done.
      rewrite (bool_decide_eq_false_2 (utf8 "train" = utf8 "test"))
        by (vm_compute; discriminate).
      cbn [Z.b2z]. lia.
    + rewrite (bool_decide_eq_false_2 _ E). cbn [Z.b2z].
      destruct (bool_decide (RAGtruthResponse.split r = utf8 "test")); cbn [Z.b2z]; lia.
Qed.

(** X23. The quality table of the statistics maps a quality tag to the
    number of responses carrying it and has no entry for a tag that no
    response carries; the table of hallucination types does the same for
    the labels of all responses. *)
Theorem statistics_tables_count_occurrences
    (self : Loader.RAGtruthLoader) (tag : str) :
  let stats := Loader.get_statistics self in
  let tagged :=
    Loader.count_if (fun r => bool_decide (RAGtruthResponse.quality r = tag))
      (Loader.responses self) in
  let labelled :=
    Loader.count_if (fun label => bool_decide (label_type label = tag))
      (concat (map RAGtruthResponse.labels (Loader.responses self))) in
  Loader.quality_distribution stats !! tag
  = (if (tagged =? 0)%Z then None else Some tagged)
  ∧ Loader.hallucination_types stats !! tag
    = (if (labelled =? 0)%Z then None else Some labelled).
Proof.
  cbv zeta. unfold Loader.get_statistics.
  cbn [Loader.quality_distribution Loader.hallucination_types]. split.
  - rewrite (fold_count_up RAGtruthResponse.quality). cbv zeta.
    rewrite lookup_empty. cbn [default from_option]. unfold id. by rewrite Z.add_0_l.
  - assert (E : ∀ m : gmap str Z,
               fold_left
                 (fun counts response =>
                    fold_left (fun counts label =>
                                 Loader.count_up counts (label_type label))
                              (RAGtruthResponse.labels response) counts)
                 (Loader.responses self) m
               = fold_left (fun counts label => Loader.count_up counts (label_type label))
                   (concat (map RAGtruthResponse.labels (Loader.responses self))) m).
    { induction (Loader.responses self) as [|r l IH]; intros m; [done|].
      simpl. rewrite fold_left_app. apply IH. }
    rewrite E, (fold_count_up label_type). cbv zeta.
    rewrite lookup_empty. cbn [default from_option]. unfold id. by rewrite Z.add_0_l.
Qed.

(** ** Tallies of the harnesses *)

Lemma harness_run_from (self : Harness.RAGtruthEvaluator) (method : EvaluationMethod)
    (outcomes : list (bool * outcome IntegratedEvaluationResult))
    (m0 : Harness.EvaluationMetrics) :
  let m := Harness.run self method outcomes m0 in
  let cells (x : Harness.EvaluationMetrics) :=
    (Harness.true_positives x + Harness.false_positives x
     + Harness.true_negatives x + Harness.false_negatives x)%Z in
  Harness.successful_evaluations m
  = (Harness.successful_evaluations m0 + Loader.count_if succeeded outcomes)%Z
  ∧ cells m = (cells m0 + Loader.count_if succeeded outcomes)%Z
  ∧ (Harness.true_positives m + Harness.false_negatives m
     = Harness.true_positives m0 + Harness.false_negatives m0
       + Loader.count_if (fun turn => succeeded turn && turn.1) outcomes)%Z
  ∧ (Harness.true_positives m0 <= Harness.true_positives m)%Z
  ∧ (Harness.false_positives m0 <= Harness.false_positives m)%Z
  ∧ (Harness.true_negatives m0 <= Harness.true_negatives m)%Z
  ∧ (Harness.false_negatives m0 <= Harness.false_negatives m)%Z
  ∧ Harness.total_samples m = Harness.total_samples m0.
Proof.
  cbv zeta. unfold Harness.run. revert m0.
  induction outcomes as [|[actual o] l IH]; intros m0.
  - cbn [fold_left]. unfold Loader.count_if. simpl. lia.
  - cbn [fold_left]. rewrite !count_if_cons.
    match goal with |- context [fold_left ?f l ?m1] => specialize (IH m1) end.
    destruct IH as (I1 & I2 & I3 & I4 & I5 & I6 & I7 & I8).
    rewrite I1, I2, I3, I8. unfold succeeded. cbn [fst snd] in *.
    destruct o as [r|e]; cbn [Z.b2z andb]; [|lia].
    unfold Harness.evaluate_one in *.
    destruct (success r); cbn [Z.b2z andb]; [|lia].
    destruct (Harness.predict self method r) as [predicted score].
    destruct predicted, actual; cbn in *; lia.
Qed.

(** X24. In [evaluate_on_dataset] every sample on which [evaluate]
    returns a successful result adds one to the count of successful
    evaluations and one to exactly one cell of the confusion matrix;
    other samples change nothing.  After any run from fresh metrics the
    four cells add up to the successful evaluations, the true positives
    and false negatives add up to the successful samples labelled
    hallucinated, and no cell is negative. *)
Theorem harness_tallies_every_success
    (self : Harness.RAGtruthEvaluator) (method : EvaluationMethod)
    (outcomes : list (bool * outcome IntegratedEvaluationResult)) :
  let m := Harness.run self method outcomes Harness.new_metrics in
  Harness.successful_evaluations m = Loader.count_if succeeded outcomes
  ∧ (Harness.true_positives m + Harness.false_positives m
     + Harness.true_negatives m + Harness.false_negatives m
     = Harness.successful_evaluations m)%Z
  ∧ (Harness.true_positives m + Harness.false_negatives m
     = Loader.count_if (fun turn => succeeded turn && turn.1) outcomes)%Z
  ∧ (0 <= Harness.true_positives m)%Z ∧ (0 <= Harness.false_positives m)%Z
  ∧ (0 <= Harness.true_negatives m)%Z ∧ (0 <= Harness.false_negatives m)%Z.
Proof.
  cbv zeta.
  destruct (harness_run_from self method outcomes Harness.new_metrics)
    as (I1 & I2 & I3 & I4 & I5 & I6 & I7 & _).
  cbn in *. lia.
Qed.

Lemma large_scale_run_from (self : LargeScale.LargeScaleEvaluator)
    (method : EvaluationMethod)
    (outcomes : list (bool * outcome IntegratedEvaluationResult))
    (m0 : LargeScale.EvaluationResults) :
  let m := LargeScale.run self method outcomes m0 in
  LargeScale.successful_evaluations m
  = (LargeScale.successful_evaluations m0 + Loader.count_if succeeded outcomes)%Z
  ∧ (LargeScale.true_positives m + LargeScale.false_negatives m
     - Z.of_nat (length (LargeScale.hallucination_scores m))
     = LargeScale.true_positives m0 + LargeScale.false_negatives m0
       - Z.of_nat (length (LargeScale.hallucination_scores m0)))%Z
  ∧ (LargeScale.false_positives m + LargeScale.true_negatives m
     - Z.of_nat (length (LargeScale.non_hallucination_scores m))
     = LargeScale.false_positives m0 + LargeScale.true_negatives m0
       - Z.of_nat (length (LargeScale.non_hallucination_scores m0)))%Z
  ∧ (LargeScale.true_positives m + LargeScale.false_positives m
     + LargeScale.true_negatives m + LargeScale.false_negatives m
     = LargeScale.true_positives m0 + LargeScale.false_positives m0
       + LargeScale.true_negatives m0 + LargeScale.false_negatives m0
       + Loader.count_if (scored self method) outcomes)%Z
  ∧ (LargeScale.true_positives m0 <= LargeScale.true_positives m)%Z
  ∧ (LargeScale.false_positives m0 <= LargeScale.false_positives m)%Z
  ∧ (LargeScale.true_negatives m0 <= LargeScale.true_negatives m)%Z
  ∧ (LargeScale.false_negatives m0 <= LargeScale.false_negatives m)%Z.
Proof.
  cbv zeta. unfold LargeScale.run. revert m0.
  induction outcomes as [|[actual o] l IH]; intros m0.
  - cbn [fold_left]. unfold Loader.count_if. simpl. lia.
  - cbn [fold_left]. rewrite !count_if_cons.
    match goal with |- context [fold_left ?f l ?m1] => specialize (IH m1) end.
    destruct IH as (I1 & I2 & I3 & I4 & I5 & I6 & I7 & I8).
    rewrite I1, I2, I3, I4. unfold succeeded, scored. cbn [fst snd] in *.
    destruct o as [r|e]; cbn [Z.b2z andb]; [|lia].
    unfold LargeScale.evaluate_one in *.
    destruct (success r); cbn [Z.b2z andb]; [|lia].
    destruct (LargeScale.predict self method r) as [[score predicted]|];
      [|cbn in *; lia].
    rewrite bool_decide_eq_true_2 by eauto.
    destruct predicted, actual; cbn in *; rewrite ?length_app in *; cbn in *; lia.
Qed.

(** X25. In [evaluate_samples] a successful result adds one to the
    successful evaluations, and one to one cell of the confusion matrix
    and one score to the matching collection exactly when a score for
    the method is found.  After any run from fresh results the true
    positives and false negatives number the collected scores of
    hallucinated samples, the false positives and true negatives those
    of the others, and the cells never exceed the successful
    evaluations. *)
Theorem large_scale_cells_match_scores
    (self : LargeScale.LargeScaleEvaluator) (method : EvaluationMethod)
    (outcomes : list (bool * outcome IntegratedEvaluationResult)) (total : Z) :
  let m := LargeScale.run self method outcomes (LargeScale.new_results total) in
  LargeScale.successful_evaluations m = Loader.count_if succeeded outcomes
  ∧ (LargeScale.true_positives m + LargeScale.false_negatives m
     = Z.of_nat (length (LargeScale.hallucination_scores m)))%Z
  ∧ (LargeScale.false_positives m + LargeScale.true_negatives m
     = Z.of_nat (length (LargeScale.non_hallucination_scores m)))%Z
  ∧ (LargeScale.true_positives m + LargeScale.false_positives m
     + LargeScale.true_negatives m + LargeScale.false_negatives m
     = Loader.count_if (scored self method) outcomes)%Z
  ∧ (LargeScale.true_positives m + LargeScale.false_positives m
     + LargeScale.true_negatives m + LargeScale.false_negatives m
     <= LargeScale.successful_evaluations m)%Z
  ∧ (0 <= LargeScale.true_positives m)%Z ∧ (0 <= LargeScale.false_positives m)%Z
  ∧ (0 <= LargeScale.true_negatives m)%Z ∧ (0 <= LargeScale.false_negatives m)%Z.
Proof.
  cbv zeta.
  match goal with |- context [LargeScale.run self method outcomes ?f] =>
    destruct (large_scale_run_from self method outcomes f)
      as (I1 & I2 & I3 & I4 & I5 & I6 & I7 & I8) end.
  cbn in I1, I2, I3, I4, I5, I6, I7, I8.
  assert (Hle : (Loader.count_if (scored self method) outcomes
                 <= Loader.count_if succeeded outcomes)%Z).
  { clear. induction outcomes as [|[actual o] l IH]; [done|].
    rewrite !count_if_cons.
    assert (Z.b2z (scored self method (actual, o))
            <= Z.b2z (succeeded (actual, o)))%Z; [|lia].
    unfold scored, succeeded. cbn [snd].
    destruct o as [r|e]; [|done].
    destruct (success r); cbn [andb Z.b2z]; [|done].
    destruct (bool_decide _); cbn [Z.b2z]; lia. }
  repeat split; lia.
Qed.

(** ** Metrics of a tally of counts *)

Lemma true_div_range (a b : Z) :
  (0 <= a)%Z → (a <= b)%Z → (0 < b)%Z →
  (0 <= Harness.true_div a b)%Q ∧ (Harness.true_div a b <= 1)%Q.
Proof.
  intros Ha Hab Hb. unfold Harness.true_div.
  assert (Hb' : (0 < inject_Z b)%Q) by (rewrite (Zlt_Qlt 0 b) in Hb; exact Hb).
  assert (Ha' : (0 <= inject_Z a)%Q) by (rewrite (Zle_Qle 0 a) in Ha; exact Ha).
  assert (Hab' : (inject_Z a <= inject_Z b)%Q) by (rewrite Zle_Qle in Hab; exact Hab).
  split.
  - apply Qle_shift_div_l; [exact Hb'|]. lra.
  - apply Qle_shift_div_r; [exact Hb'|]. lra.
Qed.

Lemma harness_rates (m : Harness.EvaluationMetrics) :
  let tp := Harness.true_positives m in
  let fp := Harness.false_positives m in
  let fn := Harness.false_negatives m in
  (0 <= tp)%Z → (0 <= fp)%Z → (0 <= fn)%Z →
  ((0 < tp)%Z →
   (Harness.precision m == inject_Z tp / (inject_Z tp + inject_Z fp))%Q
   ∧ (Harness.recall m == inject_Z tp / (inject_Z tp + inject_Z fn))%Q)
  ∧ (tp = 0%Z → (Harness.precision m == 0)%Q ∧ (Harness.recall m == 0)%Q).
Proof.
  cbv zeta. intros Htp Hfp Hfn. unfold Harness.precision, Harness.recall, Harness.true_div.
  split.
  - intros Hpos.
    destruct (Z.eqb_spec (Harness.true_positives m + Harness.false_positives m) 0); [lia|].
    destruct (Z.eqb_spec (Harness.true_positives m + Harness.false_negatives m) 0); [lia|].
    rewrite !inject_Z_plus. split; reflexivity.
  - intros ->.
    destruct (Z.eqb_spec (0 + Harness.false_positives m) 0);
      destruct (Z.eqb_spec (0 + Harness.false_negatives m) 0);
      split; try reflexivity; unfold Qdiv; change (inject_Z 0) with 0%Q; ring.
Qed.

Lemma harness_f1_closed (m : Harness.EvaluationMetrics) :
  let tp := Harness.true_positives m in
  let fp := Harness.false_positives m in
  let fn := Harness.false_negatives m in
  (0 <= tp)%Z → (0 <= fp)%Z → (0 <= fn)%Z →
  ((0 < tp)%Z →
   (Harness.f1_score m == inject_Z (2 * tp) / inject_Z (2 * tp + fp + fn))%Q)
  ∧ (tp = 0%Z → (Harness.f1_score m == 0)%Q).
Proof.
  cbv zeta. intros Htp Hfp Hfn.
  destruct (harness_rates m Htp Hfp Hfn) as [Hpos Hzero].
  destruct (f1_score_cases m) as [Hn Hz]. cbv zeta in Hn, Hz.
  split.
  - intros Hp. destruct (Hpos Hp) as [HP HR].
    assert (Ha : (0 < inject_Z (Harness.true_positives m))%Q)
      by (rewrite (Zlt_Qlt 0) in Hp; exact Hp).
    assert (Hb : (0 <= inject_Z (Harness.false_positives m))%Q)
      by (rewrite (Zle_Qle 0) in Hfp; exact Hfp).
    assert (Hc : (0 <= inject_Z (Harness.false_negatives m))%Q)
      by (rewrite (Zle_Qle 0) in Hfn; exact Hfn).
    rewrite !inject_Z_plus, inject_Z_mult. change (inject_Z 2) with 2%Q.
    set (a := inject_Z (Harness.true_positives m)) in *.
    set (b := inject_Z (Harness.false_positives m)) in *.
    set (c := inject_Z (Harness.false_negatives m)) in *.
    assert (Hsum : (Harness.precision m + Harness.recall m
                    == a * (2 * a + b + c) / ((a + b) * (a + c)))%Q).
    { rewrite HP, HR. field. split; lra. }
    assert (Hsum_pos : (0 < Harness.precision m + Harness.recall m)%Q).
    { rewrite Hsum. apply Qlt_shift_div_l; nra. }
    rewrite Hn by lra.
    rewrite HP, HR. field. repeat split; try lra. nra.
  - intros H0. destruct (Hzero H0) as [HP HR].
    rewrite Hz; [reflexivity|]. rewrite HP, HR. reflexivity.
Qed.

Lemma harness_rates_range (m : Harness.EvaluationMetrics) :
  (0 <= Harness.true_positives m)%Z → (0 <= Harness.false_positives m)%Z →
  (0 <= Harness.false_negatives m)%Z →
  (0 <= Harness.precision m <= 1)%Q ∧ (0 <= Harness.recall m <= 1)%Q.
Proof.
  intros Htp Hfp Hfn. unfold Harness.precision, Harness.recall. split.
  - match goal with |- context [(?x =? 0)%Z] => destruct (Z.eqb_spec x 0) end;
      [lra|]. apply true_div_range; lia.
  - match goal with |- context [(?x =? 0)%Z] => destruct (Z.eqb_spec x 0) end;
      [lra|]. apply true_div_range; lia.
Qed.

(** X26. For counts that are not negative, the [accuracy], [precision],
    [recall] and [f1_score] properties of [EvaluationMetrics] all lie
    between 0 and 1. *)
Theorem harness_metrics_within_unit_interval (m : Harness.EvaluationMetrics) :
  (0 <= Harness.true_positives m)%Z → (0 <= Harness.false_positives m)%Z →
  (0 <= Harness.true_negatives m)%Z → (0 <= Harness.false_negatives m)%Z →
  (0 <= Harness.accuracy m <= 1)%Q ∧ (0 <= Harness.precision m <= 1)%Q
  ∧ (0 <= Harness.recall m <= 1)%Q ∧ (0 <= Harness.f1_score m <= 1)%Q.
Proof.
  intros Htp Hfp Htn Hfn.
  destruct (harness_rates_range m Htp Hfp Hfn) as [HP HR].
  assert (HA : (0 <= Harness.accuracy m <= 1)%Q).
  { unfold Harness.accuracy. cbv zeta.
    match goal with |- context [(?x =? 0)%Z] => destruct (Z.eqb_spec x 0) end;
      [lra|]. apply true_div_range; lia. }
  split; [exact HA|]. split; [exact HP|]. split; [exact HR|].
  destruct (harness_f1_closed m Htp Hfp Hfn) as [Hpos Hzero].
  destruct (Z.eq_dec (Harness.true_positives m) 0%Z) as [E|E].
  - rewrite (Hzero E). lra.
  - rewrite Hpos by lia. apply (true_div_range (2 * Harness.true_positives m)); lia.
Qed.

Lemma harness_metrics_witness :
  (0 <= Harness.accuracy (Scenario.tally_of 3 1 4 2) <= 1)%Q
  ∧ (0 <= Harness.precision (Scenario.tally_of 3 1 4 2) <= 1)%Q
  ∧ (0 <= Harness.recall (Scenario.tally_of 3 1 4 2) <= 1)%Q
  ∧ (0 <= Harness.f1_score (Scenario.tally_of 3 1 4 2) <= 1)%Q.
Proof.
  apply (harness_metrics_within_unit_interval (Scenario.tally_of 3 1 4 2));
    simpl; lia.
Defined.



(** X28. The metrics [evaluate_samples] reports at the end of any run
    are those the properties of [EvaluationMetrics] give on the same
    four counts, although the first guards them with [> 0] under a test
    on the successful evaluations and the second with [== 0]. *)
Theorem large_scale_metrics_agree
    (self : LargeScale.LargeScaleEvaluator) (method : EvaluationMethod)
    (outcomes : list (bool * outcome IntegratedEvaluationResult)) (total : Z) :
  let results := LargeScale.run self method outcomes (LargeScale.new_results total) in
  let reported := LargeScale.final_metrics results in
  let m :=
    Scenario.tally_of (LargeScale.true_positives results)
      (LargeScale.false_positives results) (LargeScale.true_negatives results)
      (LargeScale.false_negatives results) in
  (LargeScale.accuracy reported == Harness.accuracy m)%Q
  ∧ (LargeScale.precision reported == Harness.precision m)%Q
  ∧ (LargeScale.recall reported == Harness.recall m)%Q
  ∧ (LargeScale.f1_score reported == Harness.f1_score m)%Q.
Proof.
  cbv zeta.
  destruct (large_scale_run_from self method outcomes (LargeScale.new_results total))
    as (I1 & _ & _ & I4 & I5 & I6 & I7 & I8).
  cbv zeta in I1, I4, I5, I6, I7, I8. cbn in I1, I4, I5, I6, I7, I8.
  assert (Hle : (Loader.count_if (scored self method) outcomes
                 <= Loader.count_if succeeded outcomes)%Z).
  { clear. induction outcomes as [|[actual o] l IH]; [done|].
    rewrite !count_if_cons.
    assert (Z.b2z (scored self method (actual, o))
            <= Z.b2z (succeeded (actual, o)))%Z; [|lia].
    unfold scored, succeeded. cbn [snd].
    destruct o as [r|e]; [|done].
    destruct (success r); cbn [andb Z.b2z]; [|done].
    destruct (bool_decide _); cbn [Z.b2z]; lia. }
  set (results := LargeScale.run self method outcomes (LargeScale.new_results total)) in *.
  set (tp := LargeScale.true_positives results) in *.
  set (fp := LargeScale.false_positives results) in *.
  set (tn := LargeScale.true_negatives results) in *.
  set (fn := LargeScale.false_negatives results) in *.
  set (m := Scenario.tally_of tp fp tn fn).
  assert (HP : (0 <= Harness.precision m <= 1)%Q ∧ (0 <= Harness.recall m <= 1)%Q).
  { apply harness_rates_range; simpl; lia. }
  unfold LargeScale.final_metrics. fold tp fp tn fn.
  destruct (Z.ltb_spec 0 (LargeScale.successful_evaluations results)) as [Hs|Hs].
  - cbv zeta. cbn [LargeScale.accuracy LargeScale.precision LargeScale.recall
                   LargeScale.f1_score].
    assert (EA : ((if (0 <? tp + fp + tn + fn)%Z
                   then inject_Z (tp + tn) / inject_Z (tp + fp + tn + fn)
                   else 0.0) == Harness.accuracy m)%Q).
    { unfold Harness.accuracy, Harness.true_div. cbn.
      destruct (Z.ltb_spec 0 (tp + fp + tn + fn));
        destruct (Z.eqb_spec (tp + fp + tn + fn) 0); try lia; reflexivity. }
    assert (EP : ((if (0 <? tp + fp)%Z
                   then inject_Z tp / inject_Z (tp + fp) else 0.0)
                  == Harness.precision m)%Q).
    { unfold Harness.precision, Harness.true_div. cbn.
      destruct (Z.ltb_spec 0 (tp + fp));
        destruct (Z.eqb_spec (tp + fp) 0); try lia; reflexivity. }
    assert (ER : ((if (0 <? tp + fn)%Z
                   then inject_Z tp / inject_Z (tp + fn) else 0.0)
                  == Harness.recall m)%Q).
    { unfold Harness.recall, Harness.true_div. cbn.
      destruct (Z.ltb_spec 0 (tp + fn));
        destruct (Z.eqb_spec (tp + fn) 0); try lia; reflexivity. }
    split; [exact EA|]. split; [exact EP|]. split; [exact ER|].
    set (P := (if (0 <? tp + fp)%Z then _ else _)) in *.
    set (R := (if (0 <? tp + fn)%Z then _ else _)) in *.
    destruct (f1_score_cases m) as [Hn Hz]. cbv zeta in Hn, Hz.
    destruct (Qlt_bool 0 (P + R)) eqn:E.
    + apply Qlt_bool_iff in E. rewrite Hn by (rewrite <- EP, <- ER; lra).
      rewrite EP, ER. unfold Qdiv. ring.
    + assert (Hzero : (Harness.precision m + Harness.recall m == 0)%Q).
      { rewrite <- EP, <- ER.
        destruct (Qlt_le_dec 0 (P + R)) as [Hlt|Hge];
          [apply Qlt_bool_iff in Hlt; congruence|].
        rewrite EP, ER in *. lra. }
      rewrite (Hz Hzero). reflexivity.
  - assert (tp = 0 ∧ fp = 0 ∧ tn = 0 ∧ fn = 0)%Z as (E1 & E2 & E3 & E4) by lia.
    subst m. rewrite E1, E2, E3, E4.
    cbn [LargeScale.accuracy LargeScale.precision LargeScale.recall LargeScale.f1_score].
    repeat split; vm_compute; reflexivity.
Qed.
